(** * Kerala Care Hub: the relief-coordination store and its three dashboards

    A shallow embedding of
    - the database schema, constraints and row-level-security policies of the
      initial migration (profiles, camps, camp_needs, volunteers,
      ngo_assistance),
    - [NGODashboard.tsx] ([handleProvideAssistance], [urgencyColor], the
      quantity input of the pledge form),
    - [CampDashboard.tsx] ([urgencyColor]),
    - [UserDashboard.tsx] ([handleVolunteer], [availableSeats], the seat badge
      and the Register-as-Volunteer button),
    followed by the properties of the need-fulfilment workflow.

    Integers are [Z]; the store's INTEGER columns are 32-bit and the range is
    checked where the store checks it.  UUID and TEXT values are [string]s.
    A table is the list of its rows, in insertion order. *)

From Stdlib Require Import ZArith List String Ascii Bool Lia.
From Stdlib Require Import Permutation Sorted OrderedTypeEx.
Import ListNotations.

Open Scope string_scope.
Open Scope Z_scope.

(** ** JavaScript values used by the handlers *)

Module Js.

(** A JavaScript number as the handlers meet it: an integer or NaN.  The
    integers that reach arithmetic are 32-bit (they passed the store), far
    below 2^53, so [Z] arithmetic is the float arithmetic. *)
Inductive number : Type :=
| NaN : number
| Num : Z -> number.

(** StrWhiteSpaceChar, on the ASCII range. *)
Definition isWhiteSpace (c : ascii) : bool :=
  let n := nat_of_ascii c in
  (Nat.eqb n 9 || Nat.eqb n 10 || Nat.eqb n 11 || Nat.eqb n 12
   || Nat.eqb n 13 || Nat.eqb n 32)%bool.

Fixpoint trimStart (s : string) : string :=
  match s with
  | String c rest => if isWhiteSpace c then trimStart rest else s
  | EmptyString => EmptyString
  end.

(** Value of a character as a digit: 0-9, then a-z and A-Z from 10 on. *)
Definition digitValue (c : ascii) : option Z :=
  let n := Z.of_nat (nat_of_ascii c) in
  if (48 <=? n) && (n <=? 57) then Some (n - 48)
  else if (97 <=? n) && (n <=? 122) then Some (n - 87)
  else if (65 <=? n) && (n <=? 90) then Some (n - 55)
  else None.

(** The longest prefix of [s] made of radix-[r] digits, as a number; [acc]
    is [None] until a digit has been read. *)
Fixpoint parseDigits (r : Z) (s : string) (acc : option Z) : option Z :=
  match s with
  | String c rest =>
      match digitValue c with
      | Some d =>
          if d <? r
          then parseDigits r rest
                 (Some (r * match acc with Some a => a | None => 0 end + d))
          else acc
      | None => acc
      end
  | EmptyString => acc
  end.

(** [parseInt(string)] with no radix argument: leading white space, an
    optional sign, an optional [0x]/[0X] prefix, then digits. *)
Definition parseInt (input : string) : number :=
  let s := trimStart input in
  let '(sign, s1) :=
    match s with
    | String "-" rest => (-1, rest)
    | String "+" rest => (1, rest)
    | _ => (1, s)
    end in
  let '(radix, s2) :=
    match s1 with
    | String "0" (String "x" rest) => (16, rest)
    | String "0" (String "X" rest) => (16, rest)
    | _ => (10, s1)
    end in
  match parseDigits radix s2 None with
  | Some n => Num (sign * n)
  | None => NaN
  end.

(** [haystack.includes(needle)]. *)
Definition includes (haystack needle : string) : bool :=
  match String.index 0 needle haystack with
  | Some _ => true
  | None => false
  end.

End Js.

(** ** The store: schema, constraints and row-level security *)

Module Store.

Definition uuid := string.

(** [CREATE TYPE public.app_role AS ENUM ('user', 'camp', 'ngo')]. *)
Inductive app_role : Type := role_user | role_camp | role_ngo.

Definition app_role_eqb (a b : app_role) : bool :=
  match a, b with
  | role_user, role_user | role_camp, role_camp | role_ngo, role_ngo => true
  | _, _ => false
  end.

(** Rows.  Columns that no handler, constraint or policy below reads are
    left out: timestamps everywhere, latitude, longitude and contact_email
    of camps, skills and availability of volunteers. *)
Record profiles_row : Type := {
  p_id : uuid;
  p_full_name : string;
  p_phone : option string;
  p_role : app_role
}.

Record camps_row : Type := {
  c_id : uuid;
  c_camp_admin_id : uuid;
  c_name : string;
  c_location : string;
  c_total_capacity : Z;
  c_occupied_seats : Z;
  c_contact_phone : string;
  c_status : string
}.

(** [quantity_fulfilled] is [INTEGER DEFAULT 0]; every row the application
    creates takes the default and every write is a number, so the column is
    a [Z] here. *)
Record camp_needs_row : Type := {
  n_id : uuid;
  n_camp_id : uuid;
  n_item_name : string;
  n_quantity_needed : Z;
  n_quantity_fulfilled : Z;
  n_urgency : string;
  n_status : string
}.

Record volunteers_row : Type := {
  v_id : uuid;
  v_user_id : uuid;
  v_camp_id : option uuid;
  v_volunteer_type : string;
  v_status : string
}.

(** [delivery_status] is [TEXT DEFAULT 'pledged'] with a CHECK and no NOT
    NULL: the column can hold NULL, [None] here. *)
Record ngo_assistance_row : Type := {
  a_id : uuid;
  a_ngo_id : uuid;
  a_camp_id : uuid;
  a_need_id : option uuid;
  a_items_provided : string;
  a_quantity : Z;
  a_delivery_status : option string;
  a_notes : option string
}.

Record Database : Type := {
  profiles : list profiles_row;
  camps : list camps_row;
  camp_needs : list camp_needs_row;
  volunteers : list volunteers_row;
  ngo_assistance : list ngo_assistance_row
}.

(** Errors a statement can end with, and the message the client receives,
    cut before the first quoted value, relation or constraint name. *)
Inductive PgError : Type :=
| NumericValueOutOfRange
| RlsViolation
| NotNullViolation
| CheckViolation
| UniqueViolation
| ForeignKeyViolation.

Definition message (e : PgError) : string :=
  match e with
  | NumericValueOutOfRange => "value"
  | RlsViolation => "new row violates row-level security policy for table"
  | NotNullViolation => "null value in column"
  | CheckViolation => "new row for relation"
  | UniqueViolation => "duplicate key value violates unique constraint"
  | ForeignKeyViolation => "insert or update on table"
  end.

Definition result : Type := (PgError + Database)%type.

(** INTEGER is four bytes. *)
Definition in_int4 (z : Z) : bool :=
  (-2147483648 <=? z) && (z <=? 2147483647).

Definition mem (s : string) (l : list string) : bool :=
  existsb (String.eqb s) l.

(** CHECK constraints of the migration. *)
Definition check_camp_status (s : string) : bool :=
  mem s ["active"; "inactive"; "full"].
Definition check_urgency (s : string) : bool :=
  mem s ["low"; "medium"; "high"; "critical"].
Definition check_need_status (s : string) : bool :=
  mem s ["pending"; "partial"; "fulfilled"].
Definition check_volunteer_type (s : string) : bool :=
  mem s ["camp_volunteer"; "transportation"; "general"].
Definition check_volunteer_status (s : string) : bool :=
  mem s ["active"; "inactive"].
Definition check_delivery_status (s : string) : bool :=
  mem s ["pledged"; "in_transit"; "delivered"].

(** A CHECK constraint is satisfied by NULL. *)
Definition delivery_status_admitted (s : option string) : bool :=
  match s with
  | Some x => check_delivery_status x
  | None => true
  end.

(** Row-level security.  [uid] is [auth.uid()], the authenticated caller. *)

(** [EXISTS (SELECT 1 FROM profiles WHERE id = auth.uid() AND role = r)];
    profiles are readable by everyone. *)
Definition has_role (db : Database) (uid : uuid) (r : app_role) : bool :=
  existsb (fun p => String.eqb (p_id p) uid && app_role_eqb (p_role p) r)
          (profiles db).

(** "Anyone can view active camps": the only SELECT policy of camps, so a
    sub-query over camps sees the active ones. *)
Definition camps_select_policy (c : camps_row) : bool :=
  String.eqb (c_status c) "active".

(** "Camp admins can manage needs", FOR ALL: the only policy of camp_needs
    that covers UPDATE. *)
Definition camp_needs_manage_policy
           (db : Database) (uid : uuid) (n : camp_needs_row) : bool :=
  existsb (fun c => String.eqb (c_id c) (n_camp_id n)
                    && String.eqb (c_camp_admin_id c) uid)
          (filter camps_select_policy (camps db)).

(** "Users can register as volunteers", FOR INSERT. *)
Definition volunteers_insert_policy (uid : uuid) (v : volunteers_row) : bool :=
  String.eqb uid (v_user_id v).

(** "NGOs can provide assistance", FOR INSERT. *)
Definition ngo_assistance_insert_policy
           (db : Database) (uid : uuid) (a : ngo_assistance_row) : bool :=
  String.eqb uid (a_ngo_id a) && has_role db uid role_ngo.

(** "NGOs can update own assistance", FOR UPDATE. *)
Definition ngo_assistance_update_policy
           (uid : uuid) (a : ngo_assistance_row) : bool :=
  String.eqb uid (a_ngo_id a).

(** Keys and references. *)
Definition profile_exists (db : Database) (id : uuid) : bool :=
  existsb (fun p => String.eqb (p_id p) id) (profiles db).
Definition camp_exists (db : Database) (id : uuid) : bool :=
  existsb (fun c => String.eqb (c_id c) id) (camps db).
Definition need_exists (db : Database) (id : uuid) : bool :=
  existsb (fun n => String.eqb (n_id n) id) (camp_needs db).
Definition assistance_id_taken (db : Database) (id : uuid) : bool :=
  existsb (fun a => String.eqb (a_id a) id) (ngo_assistance db).
Definition volunteer_id_taken (db : Database) (id : uuid) : bool :=
  existsb (fun v => String.eqb (v_id v) id) (volunteers db).

Definition option_string_eqb (a b : option string) : bool :=
  match a, b with
  | Some x, Some y => String.eqb x y
  | None, None => true
  | _, _ => false
  end.

(** [UNIQUE(user_id, camp_id, volunteer_type)]: two rows collide when the
    three columns are equal and none is NULL. *)
Definition same_registration (v w : volunteers_row) : bool :=
  String.eqb (v_user_id v) (v_user_id w)
  && match v_camp_id v, v_camp_id w with
     | Some c, Some d => String.eqb c d
     | _, _ => false
     end
  && String.eqb (v_volunteer_type v) (v_volunteer_type w).

Definition registration_taken (db : Database) (v : volunteers_row) : bool :=
  existsb (same_registration v) (volunteers db).

Definition with_volunteers (db : Database) (l : list volunteers_row) :=
  {| profiles := profiles db; camps := camps db; camp_needs := camp_needs db;
     volunteers := l; ngo_assistance := ngo_assistance db |}.
Definition with_ngo_assistance (db : Database) (l : list ngo_assistance_row) :=
  {| profiles := profiles db; camps := camps db; camp_needs := camp_needs db;
     volunteers := volunteers db; ngo_assistance := l |}.
Definition with_camp_needs (db : Database) (l : list camp_needs_row) :=
  {| profiles := profiles db; camps := camps db; camp_needs := l;
     volunteers := volunteers db; ngo_assistance := ngo_assistance db |}.

(** [INSERT INTO volunteers] by caller [uid].  The row-security check comes
    first, then the CHECK constraints, the primary key and the UNIQUE
    constraint, then the foreign keys. *)
Definition insert_volunteers
           (db : Database) (uid : uuid) (v : volunteers_row) : result :=
  if negb (volunteers_insert_policy uid v) then inl RlsViolation
  else if negb (check_volunteer_type (v_volunteer_type v)
                && check_volunteer_status (v_status v))
  then inl CheckViolation
  else if volunteer_id_taken db (v_id v) || registration_taken db v
  then inl UniqueViolation
  else if negb (profile_exists db (v_user_id v)
                && match v_camp_id v with
                   | Some c => camp_exists db c
                   | None => true
                   end)
  then inl ForeignKeyViolation
  else inr (with_volunteers db (volunteers db ++ [v])).

(** The body of an insert into ngo_assistance as the client sends it: the
    quantity is a JavaScript number, and NaN is serialised as null. *)
Record ngo_assistance_insert : Type := {
  i_ngo_id : uuid;
  i_camp_id : uuid;
  i_need_id : uuid;
  i_items_provided : string;
  i_quantity : Js.number;
  i_notes : string
}.

(** The row an insert body becomes: [new_id] is the value
    [gen_random_uuid()] draws and [delivery_status] takes its default,
    'pledged'. *)
Definition new_assistance_row (new_id : uuid) (body : ngo_assistance_insert)
           (q : Z) : ngo_assistance_row :=
  {| a_id := new_id;
     a_ngo_id := i_ngo_id body;
     a_camp_id := i_camp_id body;
     a_need_id := Some (i_need_id body);
     a_items_provided := i_items_provided body;
     a_quantity := q;
     a_delivery_status := Some "pledged";
     a_notes := Some (i_notes body) |}.

(** [INSERT INTO ngo_assistance] by caller [uid].  A number outside INTEGER
    is refused when the body is read; then row security, NOT NULL and CHECK,
    the primary key and the foreign keys. *)
Definition insert_ngo_assistance
           (db : Database) (uid : uuid) (new_id : uuid)
           (body : ngo_assistance_insert) : result :=
  let q := match i_quantity body with Js.Num z => z | Js.NaN => 0 end in
  let row := new_assistance_row new_id body q in
  if negb (in_int4 q) then inl NumericValueOutOfRange
  else if negb (ngo_assistance_insert_policy db uid row) then inl RlsViolation
  else if match i_quantity body with Js.NaN => true | Js.Num _ => false end
  then inl NotNullViolation
  else if negb (delivery_status_admitted (a_delivery_status row))
  then inl CheckViolation
  else if assistance_id_taken db new_id then inl UniqueViolation
  else if negb (profile_exists db (a_ngo_id row)
                && camp_exists db (a_camp_id row)
                && need_exists db (i_need_id body))
  then inl ForeignKeyViolation
  else inr (with_ngo_assistance db (ngo_assistance db ++ [row])).

(** [UPDATE camp_needs SET quantity_fulfilled = f, status = s WHERE id = id]
    by caller [uid].  Rows the manage policy hides from the caller are not
    touched and raise nothing.  A touched row must pass the status CHECK. *)
Definition camp_needs_touched
           (db : Database) (uid id : uuid) (n : camp_needs_row) : bool :=
  String.eqb (n_id n) id && camp_needs_manage_policy db uid n.

Definition set_fulfilment (f : Z) (s : string) (n : camp_needs_row) :=
  {| n_id := n_id n; n_camp_id := n_camp_id n; n_item_name := n_item_name n;
     n_quantity_needed := n_quantity_needed n;
     n_quantity_fulfilled := f;
     n_urgency := n_urgency n;
     n_status := s |}.

Definition update_camp_needs
           (db : Database) (uid id : uuid) (f : Z) (s : string) : result :=
  if negb (in_int4 f) then inl NumericValueOutOfRange
  else if existsb (camp_needs_touched db uid id) (camp_needs db)
          && negb (check_need_status s)
  then inl CheckViolation
  else inr (with_camp_needs db
              (map (fun n => if camp_needs_touched db uid id n
                             then set_fulfilment f s n else n)
                   (camp_needs db))).

(** A change requested on an ngo_assistance row: for each of the four
    columns, nothing, or the value to set, NULL ([None]) included. *)
Record ngo_assistance_patch : Type := {
  set_delivery_status : option (option string);
  set_quantity : option (option Z);
  set_items_provided : option (option string);
  set_notes : option (option string)
}.

Definition apply_patch (p : ngo_assistance_patch) (a : ngo_assistance_row) :=
  {| a_id := a_id a; a_ngo_id := a_ngo_id a; a_camp_id := a_camp_id a;
     a_need_id := a_need_id a;
     a_items_provided :=
       match set_items_provided p with
       | Some (Some x) => x
       | _ => a_items_provided a
       end;
     a_quantity :=
       match set_quantity p with
       | Some (Some x) => x
       | _ => a_quantity a
       end;
     a_delivery_status :=
       match set_delivery_status p with
       | Some x => x
       | None => a_delivery_status a
       end;
     a_notes := match set_notes p with Some x => x | None => a_notes a end |}.

(** The patch puts NULL in a NOT NULL column ([quantity],
    [items_provided]). *)
Definition nulls_not_null (p : ngo_assistance_patch) : bool :=
  match set_quantity p with Some None => true | _ => false end
  || match set_items_provided p with Some None => true | _ => false end.

Definition ngo_assistance_touched
           (uid id : uuid) (a : ngo_assistance_row) : bool :=
  String.eqb (a_id a) id && ngo_assistance_update_policy uid a.

(** [UPDATE ngo_assistance SET ... WHERE id = id] by caller [uid]: the only
    checks the schema puts on it are the INTEGER range, the update policy
    (rows of other NGOs are not touched) and, on the rows touched, NOT NULL
    and the delivery_status CHECK. *)
Definition update_ngo_assistance
           (db : Database) (uid id : uuid) (p : ngo_assistance_patch) : result :=
  if match set_quantity p with
     | Some (Some q) => negb (in_int4 q)
     | _ => false
     end
  then inl NumericValueOutOfRange
  else if existsb (ngo_assistance_touched uid id) (ngo_assistance db)
          && nulls_not_null p
  then inl NotNullViolation
  else if existsb (fun a => ngo_assistance_touched uid id a
                            && negb (delivery_status_admitted
                                       (a_delivery_status (apply_patch p a))))
                  (ngo_assistance db)
  then inl CheckViolation
  else inr (with_ngo_assistance db
              (map (fun a => if ngo_assistance_touched uid id a
                             then apply_patch p a else a)
                   (ngo_assistance db))).

End Store.

(** A toast shown to the user ([sonner]). *)
Inductive Toast : Type :=
| toast_success : string -> Toast
| toast_error : string -> Toast.

(** [a || b] on strings: the empty string is falsy. *)
Definition or_else (a b : string) : string :=
  match a with
  | EmptyString => b
  | _ => a
  end.

(** ** NGODashboard.tsx *)

Module NGODashboard.

Record NeedCamps : Type := {
  name : string;
  location : string
}.

(** [interface Need]: a need as [fetchData] read it, held in component
    state; a snapshot of the row, not the row. *)
Record Need : Type := {
  id : string;
  camp_id : string;
  item_name : string;
  quantity_needed : Z;
  quantity_fulfilled : Z;
  urgency : string;
  camps : NeedCamps
}.

(** The two named fields of the pledge form. *)
Record FormData : Type := {
  fd_quantity : string;
  fd_notes : string
}.

(** The component state the handler reads and writes. *)
Record View : Type := {
  selectedNeed : option Need;
  showAssistDialog : bool
}.

Definition urgencyColor (u : string) : string :=
  if String.eqb u "critical" then "destructive"
  else if String.eqb u "high" then "warning"
  else if String.eqb u "medium" then "default"
  else "secondary".

(** The quantity input: [min={1}] and
    [max={selectedNeed.quantity_needed - selectedNeed.quantity_fulfilled}].
    [withinInputRange] is the range the browser holds a typed number to
    before it lets the form submit. *)
Definition quantityMin : Z := 1.
Definition quantityMax (sel : Need) : Z :=
  quantity_needed sel - quantity_fulfilled sel.
Definition withinInputRange (sel : Need) (q : Z) : bool :=
  (quantityMin <=? q) && (q <=? quantityMax sel).

(** The insert body of lines 90-97. *)
Definition assistanceBody (user : Store.uuid) (sel : Need)
           (quantity : Js.number) (fd : FormData) : Store.ngo_assistance_insert :=
  {| Store.i_ngo_id := user;
     Store.i_camp_id := camp_id sel;
     Store.i_need_id := id sel;
     Store.i_items_provided := item_name sel;
     Store.i_quantity := quantity;
     Store.i_notes := fd_notes fd |}.

(** Lines 102-103. *)
Definition newFulfilled (sel : Need) (quantity : Z) : Z :=
  quantity_fulfilled sel + quantity.
Definition newStatus (sel : Need) (quantity : Z) : string :=
  if newFulfilled sel quantity >=? quantity_needed sel
  then "fulfilled" else "partial".

(** What is left to do once the insert went through: the update of the
    need, by [user], from the snapshot [sel] and the parsed quantity. *)
Record PendingUpdate : Type := {
  pu_user : Store.uuid;
  pu_need : Need;
  pu_quantity : Js.number
}.

(** First request (lines 83-99): parse the quantity, resolve the user,
    insert the ledger entry.  [inl msg] is the message of the error thrown
    into the [catch]. *)
Definition requestInsert (db : Store.Database) (user : option Store.uuid)
           (new_id : Store.uuid) (sel : Need) (fd : FormData)
  : string + (Store.Database * PendingUpdate) :=
  let quantity := Js.parseInt (fd_quantity fd) in
  match user with
  | None => inl "Not authenticated"
  | Some u =>
      match Store.insert_ngo_assistance db u new_id
              (assistanceBody u sel quantity fd) with
      | inl e => inl (Store.message e)
      | inr db1 =>
          inr (db1, {| pu_user := u; pu_need := sel; pu_quantity := quantity |})
      end
  end.

(** Second request (lines 101-111).  Its result is dropped: an error or an
    update that touches no row goes unnoticed.  With a NaN quantity the
    insert has already failed ([Store.insert_ngo_assistance] refuses null),
    so that branch is never taken. *)
Definition requestUpdate (db : Store.Database) (p : PendingUpdate)
  : Store.Database :=
  match pu_quantity p with
  | Js.Num q =>
      match Store.update_camp_needs db (pu_user p) (id (pu_need p))
              (newFulfilled (pu_need p) q) (newStatus (pu_need p) q) with
      | inr db2 => db2
      | inl _ => db
      end
  | Js.NaN => db
  end.

Record Outcome : Type := {
  db_after : Store.Database;
  view_after : View;
  toast : option Toast
}.

(** [handleProvideAssistance]: the submit handler of the pledge form, run
    by [user] (the result of [auth.getUser()]) on store [db].  The
    [fetchData] that follows the update re-reads the lists on display and
    writes nothing. *)
Definition handleProvideAssistance (db : Store.Database)
           (user : option Store.uuid) (new_id : Store.uuid)
           (view : View) (fd : FormData) : Outcome :=
  match selectedNeed view with
  | None => {| db_after := db; view_after := view; toast := None |}
  | Some sel =>
      match requestInsert db user new_id sel fd with
      | inl msg =>
          {| db_after := db; view_after := view;
             toast := Some (toast_error
                              (or_else msg "Failed to provide assistance")) |}
      | inr (db1, pending) =>
          {| db_after := requestUpdate db1 pending;
             view_after := {| selectedNeed := None; showAssistDialog := false |};
             toast := Some (toast_success "Assistance pledged successfully!") |}
      end
  end.

(** Two browser sessions submitting the form against the same store.  Each
    request is one statement and runs alone; the two requests of a session
    can have the other session's requests between them. *)
Record Session : Type := {
  s_user : option Store.uuid;
  s_new_id : Store.uuid;
  s_need : Need;
  s_form : FormData
}.

Inductive Progress : Type :=
| Submitted : Progress
| Inserted : PendingUpdate -> Progress
| Done : Toast -> Progress.

Definition step (db : Store.Database) (s : Session) (p : Progress)
  : Store.Database * Progress :=
  match p with
  | Submitted =>
      match requestInsert db (s_user s) (s_new_id s) (s_need s) (s_form s) with
      | inl msg =>
          (db, Done (toast_error (or_else msg "Failed to provide assistance")))
      | inr (db1, pending) => (db1, Inserted pending)
      end
  | Inserted pending =>
      (requestUpdate db pending,
       Done (toast_success "Assistance pledged successfully!"))
  | Done t => (db, Done t)
  end.

Inductive Turn : Type := First | Second.

Fixpoint run (schedule : list Turn) (a b : Session)
         (st : Store.Database * Progress * Progress)
  : Store.Database * Progress * Progress :=
  match schedule with
  | [] => st
  | First :: rest =>
      let '(db, pa, pb) := st in
      let '(db', pa') := step db a pa in
      run rest a b (db', pa', pb)
  | Second :: rest =>
      let '(db, pa, pb) := st in
      let '(db', pb') := step db b pb in
      run rest a b (db', pa, pb')
  end.

(** The six ways to interleave two requests of one session with two of the
    other. *)
Definition interleavings : list (list Turn) :=
  [ [First; First; Second; Second];
    [First; Second; First; Second];
    [First; Second; Second; First];
    [Second; First; First; Second];
    [Second; First; Second; First];
    [Second; Second; First; First] ].

End NGODashboard.

(** ** CampDashboard.tsx *)

Module CampDashboard.

Definition urgencyColor (u : string) : string :=
  if String.eqb u "critical" then "destructive"
  else if String.eqb u "high" then "warning"
  else if String.eqb u "medium" then "default"
  else "secondary".

End CampDashboard.

(** ** UserDashboard.tsx *)

Module UserDashboard.

Record Camp : Type := {
  id : string;
  name : string;
  location : string;
  total_capacity : Z;
  occupied_seats : Z;
  contact_phone : string;
  status : string
}.

(** [handleVolunteer(campId)], run by [user]; [new_id] is the id the store
    draws for the row. *)
Definition handleVolunteer (db : Store.Database) (user : option Store.uuid)
           (new_id : Store.uuid) (campId : string) : Store.Database * Toast :=
  let failed (msg : string) :=
    if Js.includes msg "duplicate"
    then toast_error "You're already registered for this camp"
    else toast_error "Failed to register as volunteer" in
  match user with
  | None => (db, failed "Not authenticated")
  | Some u =>
      match Store.insert_volunteers db u
              {| Store.v_id := new_id;
                 Store.v_user_id := u;
                 Store.v_camp_id := Some campId;
                 Store.v_volunteer_type := "camp_volunteer";
                 Store.v_status := "active" |} with
      | inl e => (db, failed (Store.message e))
      | inr db1 => (db1, toast_success "Successfully registered as volunteer!")
      end
  end.

Definition availableSeats (camp : Camp) : Z :=
  total_capacity camp - occupied_seats camp.

(** The badge in the card title. *)
Inductive SeatBadge : Type := Available | Full.

Definition seatBadge (camp : Camp) : SeatBadge :=
  if availableSeats camp >? 0 then Available else Full.

(** [disabled={availableSeats(camp) === 0}] on the register button. *)
Definition registerDisabled (camp : Camp) : bool :=
  availableSeats camp =? 0.

(** A click on the register button of [camp]'s card: a disabled button
    runs no handler. *)
Definition clickRegister (db : Store.Database) (user : option Store.uuid)
           (new_id : Store.uuid) (camp : Camp)
  : Store.Database * option Toast :=
  if registerDisabled camp then (db, None)
  else let '(db1, t) := handleVolunteer db user new_id (id camp) in
       (db1, Some t).

End UserDashboard.

(** ** The status rule of the data model, and stores used in the examples *)

(** The status a need should carry, as the data model words it: fulfilled
    when the fulfilled quantity reaches the needed one, else partial when
    something was fulfilled, else pending. *)
Definition needStatus (fulfilled needed : Z) : string :=
  if fulfilled >=? needed then "fulfilled"
  else if fulfilled >? 0 then "partial"
  else "pending".

Definition in_sync (n : Store.camp_needs_row) : Prop :=
  Store.n_status n
  = needStatus (Store.n_quantity_fulfilled n) (Store.n_quantity_needed n).


(** A registration of [user] at [camp] as [vtype] is on record. *)
Definition registered (db : Store.Database) (user camp vtype : string) : Prop :=
  exists w, In w (Store.volunteers db)
            /\ Store.v_user_id w = user
            /\ Store.v_camp_id w = Some camp
            /\ Store.v_volunteer_type w = vtype.

(** Sum of the quantities on the ledger against one need. *)
Definition pledgedTotal (db : Store.Database) (need : string) : Z :=
  fold_right Z.add 0
    (map Store.a_quantity
         (filter (fun a => Store.option_string_eqb (Store.a_need_id a) (Some need))
                 (Store.ngo_assistance db))).

Definition needRow (db : Store.Database) (need : string)
  : option Store.camp_needs_row :=
  find (fun n => String.eqb (Store.n_id n) need) (Store.camp_needs db).

Module Scenario.

Import Store.

Definition profile (id : uuid) (r : app_role) : profiles_row :=
  {| p_id := id; p_full_name := id; p_phone := None; p_role := r |}.

(** Two NGOs, a camp administrator, a citizen, and an account that created
    a camp and now carries the NGO role (the update policy of profiles lets
    a user rewrite their own row, role included). *)
Definition people : list profiles_row :=
  [ profile "ngo-a" role_ngo; profile "ngo-b" role_ngo;
    profile "admin" role_camp; profile "citizen" role_user;
    profile "relief-org" role_ngo ].

Definition camp (id admin : uuid) (capacity occupied : Z) : camps_row :=
  {| c_id := id; c_camp_admin_id := admin; c_name := id;
     c_location := "Kochi"; c_total_capacity := capacity;
     c_occupied_seats := occupied; c_contact_phone := "0484";
     c_status := "active" |}.

Definition need (id camp_id : uuid) (needed fulfilled : Z) (st : string)
  : camp_needs_row :=
  {| n_id := id; n_camp_id := camp_id; n_item_name := "Rice";
     n_quantity_needed := needed; n_quantity_fulfilled := fulfilled;
     n_urgency := "high"; n_status := st |}.

(** camp-1 is run by [admin], camp-2 by [relief-org]; each has one need of
    ten, with [f1] and [f2] already fulfilled. *)
Definition store (f1 : Z) (s1 : string) (f2 : Z) (s2 : string) : Database :=
  {| profiles := people;
     camps := [ camp "camp-1" "admin" 50 50; camp "camp-2" "relief-org" 50 20 ];
     camp_needs := [ need "need-1" "camp-1" 10 f1 s1;
                     need "need-2" "camp-2" 10 f2 s2 ];
     volunteers := [];
     ngo_assistance := [] |}.

Definition fresh : Database := store 0 "pending" 0 "pending".
Definition full : Database := store 10 "fulfilled" 10 "fulfilled".

(** A need as a dashboard read it when [fulfilled] of ten were covered. *)
Definition snapshot (id camp_id : string) (fulfilled : Z) : NGODashboard.Need :=
  {| NGODashboard.id := id; NGODashboard.camp_id := camp_id;
     NGODashboard.item_name := "Rice";
     NGODashboard.quantity_needed := 10;
     NGODashboard.quantity_fulfilled := fulfilled;
     NGODashboard.urgency := "high";
     NGODashboard.camps := {| NGODashboard.name := camp_id;
                              NGODashboard.location := "Kochi" |} |}.

(** A need as a dashboard holds it when its [quantity_needed] is not the
    row's ten any more. *)
Definition snapshotNeeding (id camp_id : string) (needed fulfilled : Z)
  : NGODashboard.Need :=
  {| NGODashboard.id := id; NGODashboard.camp_id := camp_id;
     NGODashboard.item_name := "Rice";
     NGODashboard.quantity_needed := needed;
     NGODashboard.quantity_fulfilled := fulfilled;
     NGODashboard.urgency := "high";
     NGODashboard.camps := {| NGODashboard.name := camp_id;
                              NGODashboard.location := "Kochi" |} |}.

(** A registration of [user] with no camp named. *)
Definition freelance (id user : uuid) : volunteers_row :=
  {| v_id := id; v_user_id := user; v_camp_id := None;
     v_volunteer_type := "general"; v_status := "active" |}.

Definition dialog (sel : NGODashboard.Need) : NGODashboard.View :=
  {| NGODashboard.selectedNeed := Some sel;
     NGODashboard.showAssistDialog := true |}.

Definition form (quantity : string) : NGODashboard.FormData :=
  {| NGODashboard.fd_quantity := quantity; NGODashboard.fd_notes := "" |}.

(** [user] submits the pledge form for [sel] with [quantity] typed in. *)
Definition pledge (db : Database) (user : string) (sel : NGODashboard.Need)
           (quantity : string) : NGODashboard.Outcome :=
  NGODashboard.handleProvideAssistance db (Some user) "as-1" (dialog sel)
    (form quantity).

Definition succeeded (out : NGODashboard.Outcome) : Prop :=
  NGODashboard.toast out
  = Some (toast_success "Assistance pledged successfully!").

Definition session (user new_id : string) (sel : NGODashboard.Need)
           (quantity : string) : NGODashboard.Session :=
  {| NGODashboard.s_user := Some user; NGODashboard.s_new_id := new_id;
     NGODashboard.s_need := sel; NGODashboard.s_form := form quantity |}.

Definition card (capacity occupied : Z) : UserDashboard.Camp :=
  {| UserDashboard.id := "camp-1"; UserDashboard.name := "camp-1";
     UserDashboard.location := "Kochi";
     UserDashboard.total_capacity := capacity;
     UserDashboard.occupied_seats := occupied;
     UserDashboard.contact_phone := "0484";
     UserDashboard.status := "active" |}.




Definition volunteer (id user camp_id : uuid) : volunteers_row :=
  {| v_id := id; v_user_id := user; v_camp_id := Some camp_id;
     v_volunteer_type := "camp_volunteer"; v_status := "active" |}.

End Scenario.

(** ** More of the code: queries, the other statements, the other handlers *)

(** [String.prototype.toLowerCase].  The engine folds by the Unicode case
    tables, which are no part of the repository; what is fixed here is its
    result on a string of ASCII characters, where only the letters A to Z
    change.  Strings are sequences of UTF-8 bytes. *)
Module JsString.

Definition lowerChar (c : ascii) : ascii :=
  let n := nat_of_ascii c in
  if (Nat.leb 65 n && Nat.leb n 90)%bool then ascii_of_nat (n + 32) else c.

Fixpoint asciiLowerCase (s : string) : string :=
  match s with
  | EmptyString => EmptyString
  | String c rest => String (lowerChar c) (asciiLowerCase rest)
  end.

Fixpoint isAscii (s : string) : bool :=
  match s with
  | EmptyString => true
  | String c rest => Nat.ltb (nat_of_ascii c) 128 && isAscii rest
  end.

Record CaseFolding : Type := {
  toLowerCase : string -> string;
  toLowerCase_ascii :
    forall s, isAscii s = true -> toLowerCase s = asciiLowerCase s
}.

(** The folding that leaves every byte outside A to Z as it is. *)
Definition asciiFolding : CaseFolding :=
  {| toLowerCase := asciiLowerCase;
     toLowerCase_ascii := fun _ _ => eq_refl |}.

End JsString.

(** [ORDER BY key DESC]: insertion into a descending list.  Rows with equal
    keys keep the order they had (the store leaves it open). *)
Module Query.

Fixpoint insertDesc {A : Type} (leb : A -> A -> bool) (x : A) (l : list A)
  : list A :=
  match l with
  | [] => [x]
  | y :: rest => if leb y x then x :: l else y :: insertDesc leb x rest
  end.

Definition orderDesc {A : Type} (leb : A -> A -> bool) (l : list A) : list A :=
  fold_right (insertDesc leb) [] l.

(** Text columns compare as strings, timestamps as numbers. *)
Definition byText {A : Type} (key : A -> string) (a b : A) : bool :=
  String.leb (key a) (key b).
Definition byNumber {A : Type} (key : A -> Z) (a b : A) : bool :=
  Z.leb (key a) (key b).

End Query.

(** Statements on profiles, camps and camp_needs, and the signup trigger. *)
Module Statements.

Import Store.

Definition with_profiles (db : Database) (l : list profiles_row) :=
  {| profiles := l; camps := camps db; camp_needs := camp_needs db;
     volunteers := volunteers db; ngo_assistance := ngo_assistance db |}.
Definition with_camps (db : Database) (l : list camps_row) :=
  {| profiles := profiles db; camps := l; camp_needs := camp_needs db;
     volunteers := volunteers db; ngo_assistance := ngo_assistance db |}.

(** A number of a request body as the INTEGER it is read as; NaN travels as
    null. *)
Definition int_of (n : Js.number) : Z :=
  match n with Js.Num z => z | Js.NaN => 0 end.
Definition is_null (n : Js.number) : bool :=
  match n with Js.NaN => true | Js.Num _ => false end.

(** "Camp admins can insert camps", FOR INSERT. *)
Definition camps_insert_policy
           (db : Database) (uid : uuid) (c : camps_row) : bool :=
  String.eqb uid (c_camp_admin_id c) && has_role db uid role_camp.

(** The body of the insert of [handleCreateCamp]. *)
Record camps_insert : Type := {
  ci_camp_admin_id : uuid;
  ci_name : string;
  ci_location : string;
  ci_total_capacity : Js.number;
  ci_occupied_seats : Js.number;
  ci_contact_phone : string;
  ci_contact_email : string
}.

(** The row it becomes; [status] takes its default, 'active'. *)
Definition new_camp_row (new_id : uuid) (body : camps_insert) : camps_row :=
  {| c_id := new_id;
     c_camp_admin_id := ci_camp_admin_id body;
     c_name := ci_name body;
     c_location := ci_location body;
     c_total_capacity := int_of (ci_total_capacity body);
     c_occupied_seats := int_of (ci_occupied_seats body);
     c_contact_phone := ci_contact_phone body;
     c_status := "active" |}.

(** [INSERT INTO camps ... RETURNING *] by caller [uid]: the new row must
    pass the insert policy and, to be returned, the select policy; then NOT
    NULL and CHECK, the primary key and the foreign key.  The result carries
    the row returned. *)
Definition insert_camps (db : Database) (uid : uuid) (new_id : uuid)
           (body : camps_insert) : PgError + (Database * camps_row) :=
  let row := new_camp_row new_id body in
  if negb (in_int4 (c_total_capacity row) && in_int4 (c_occupied_seats row))
  then inl NumericValueOutOfRange
  else if negb (camps_insert_policy db uid row && camps_select_policy row)
  then inl RlsViolation
  else if is_null (ci_total_capacity body) || is_null (ci_occupied_seats body)
  then inl NotNullViolation
  else if negb (check_camp_status (c_status row)) then inl CheckViolation
  else if camp_exists db new_id then inl UniqueViolation
  else if negb (profile_exists db (c_camp_admin_id row))
  then inl ForeignKeyViolation
  else inr (with_camps db (camps db ++ [row]), row).

(** The body of the insert of [handleAddNeed]. *)
Record camp_needs_insert : Type := {
  ni_camp_id : uuid;
  ni_item_name : string;
  ni_quantity_needed : Js.number;
  ni_urgency : string
}.

(** The row it becomes: [quantity_fulfilled] and [status] take their
    defaults, 0 and 'pending'. *)
Definition new_need_row (new_id : uuid) (body : camp_needs_insert)
  : camp_needs_row :=
  {| n_id := new_id;
     n_camp_id := ni_camp_id body;
     n_item_name := ni_item_name body;
     n_quantity_needed := int_of (ni_quantity_needed body);
     n_quantity_fulfilled := 0;
     n_urgency := ni_urgency body;
     n_status := "pending" |}.

(** [INSERT INTO camp_needs] by the caller of the session: [None] when the
    request carries no user.  "Camp admins can manage needs" is FOR ALL with
    a USING clause only, which is then also the check on new rows. *)
Definition insert_camp_needs (db : Database) (caller : option uuid)
           (new_id : uuid) (body : camp_needs_insert) : result :=
  let row := new_need_row new_id body in
  if negb (in_int4 (n_quantity_needed row)) then inl NumericValueOutOfRange
  else if negb match caller with
               | Some uid => camp_needs_manage_policy db uid row
               | None => false
               end
  then inl RlsViolation
  else if is_null (ni_quantity_needed body) then inl NotNullViolation
  else if negb (check_urgency (n_urgency row)
                && check_need_status (n_status row))
  then inl CheckViolation
  else if need_exists db new_id then inl UniqueViolation
  else if negb (camp_exists db (n_camp_id row)) then inl ForeignKeyViolation
  else inr (with_camp_needs db (camp_needs db ++ [row])).

(** A change requested on a profile: the columns to set. *)
Record profiles_patch : Type := {
  set_full_name : option string;
  set_phone : option (option string);
  set_role : option app_role
}.

Definition apply_profile_patch (p : profiles_patch) (r : profiles_row) :=
  {| p_id := p_id r;
     p_full_name :=
       match set_full_name p with Some x => x | None => p_full_name r end;
     p_phone := match set_phone p with Some x => x | None => p_phone r end;
     p_role := match set_role p with Some x => x | None => p_role r end |}.

(** "Users can update own profile", FOR UPDATE. *)
Definition profiles_update_policy (uid : uuid) (r : profiles_row) : bool :=
  String.eqb uid (p_id r).

(** [UPDATE profiles SET ... WHERE id = id] by caller [uid]: rows of other
    users are not touched; no constraint bears on the patched columns. *)
Definition update_profiles (db : Database) (uid id : uuid)
           (p : profiles_patch) : Database :=
  with_profiles db
    (map (fun r => if String.eqb (p_id r) id && profiles_update_policy uid r
                   then apply_profile_patch p r else r)
         (profiles db)).

(** The new row of auth.users as [handle_new_user] reads it: its id and
    three keys of [raw_user_meta_data], each absent or a text. *)
Record auth_user : Type := {
  au_id : uuid;
  au_full_name : option string;
  au_role : option string;
  au_phone : option string
}.

(** The cast [::app_role]. *)
Definition app_role_of_text (s : string) : option app_role :=
  if String.eqb s "user" then Some role_user
  else if String.eqb s "camp" then Some role_camp
  else if String.eqb s "ngo" then Some role_ngo
  else None.

Inductive TriggerError : Type :=
| InvalidEnumInput
| ProfileIdTaken.

(** [public.handle_new_user()], fired after an insert on auth.users.  It
    runs as its definer, outside row security. *)
Definition handle_new_user (db : Database) (NEW : auth_user)
  : TriggerError + Database :=
  match match au_role NEW with
        | Some s => app_role_of_text s
        | None => Some role_user
        end with
  | None => inl InvalidEnumInput
  | Some r =>
      if profile_exists db (au_id NEW) then inl ProfileIdTaken
      else inr (with_profiles db
                  (profiles db
                     ++ [ {| p_id := au_id NEW;
                             p_full_name :=
                               match au_full_name NEW with
                               | Some n => n
                               | None => "User"
                               end;
                             p_role := r;
                             p_phone := au_phone NEW |} ]))
  end.

End Statements.

(** ** UserDashboard.tsx: the list of camps and the search box *)

Module UserDashboardList.

Definition asCamp (c : Store.camps_row) : UserDashboard.Camp :=
  {| UserDashboard.id := Store.c_id c;
     UserDashboard.name := Store.c_name c;
     UserDashboard.location := Store.c_location c;
     UserDashboard.total_capacity := Store.c_total_capacity c;
     UserDashboard.occupied_seats := Store.c_occupied_seats c;
     UserDashboard.contact_phone := Store.c_contact_phone c;
     UserDashboard.status := Store.c_status c |}.

(** The query of [fetchCamps]: the camps the caller may see, with status
    'active', newest first.  [created_at] gives the creation time of the
    camp of each id (a column the rows here do not carry). *)
Definition fetchCamps (created_at : Store.uuid -> Z) (db : Store.Database)
  : list UserDashboard.Camp :=
  map asCamp
    (Query.orderDesc (Query.byNumber (fun c => created_at (Store.c_id c)))
       (filter (fun c => String.eqb (Store.c_status c) "active")
          (filter Store.camps_select_policy (Store.camps db)))).

Definition matches (F : JsString.CaseFolding) (searchTerm : string)
           (camp : UserDashboard.Camp) : bool :=
  Js.includes (JsString.toLowerCase F (UserDashboard.name camp))
              (JsString.toLowerCase F searchTerm)
  || Js.includes (JsString.toLowerCase F (UserDashboard.location camp))
                 (JsString.toLowerCase F searchTerm).

Definition filteredCamps (F : JsString.CaseFolding)
           (camps : list UserDashboard.Camp)
           (searchTerm : string) : list UserDashboard.Camp :=
  filter (matches F searchTerm) camps.

End UserDashboardList.

(** ** CampDashboard.tsx: state, queries and handlers *)

Module CampDashboardState.

Record Camp : Type := {
  id : string;
  name : string;
  location : string;
  total_capacity : Z;
  occupied_seats : Z;
  contact_phone : string
}.

(** [interface Need] of the camp dashboard; its [id] is [need_id] here. *)
Record Need : Type := {
  need_id : string;
  item_name : string;
  quantity_needed : Z;
  quantity_fulfilled : Z;
  urgency : string;
  status : string
}.

Record View : Type := {
  camps : list Camp;
  selectedCamp : option Camp;
  needs : list Need;
  showCampDialog : bool;
  showNeedDialog : bool;
  loading : bool
}.

Definition asCamp (c : Store.camps_row) : Camp :=
  {| id := Store.c_id c; name := Store.c_name c;
     location := Store.c_location c;
     total_capacity := Store.c_total_capacity c;
     occupied_seats := Store.c_occupied_seats c;
     contact_phone := Store.c_contact_phone c |}.

Definition asNeed (n : Store.camp_needs_row) : Need :=
  {| need_id := Store.n_id n; item_name := Store.n_item_name n;
     quantity_needed := Store.n_quantity_needed n;
     quantity_fulfilled := Store.n_quantity_fulfilled n;
     urgency := Store.n_urgency n; status := Store.n_status n |}.

(** The query of [fetchNeeds(campId)]: the needs of the camp, ordered by the
    urgency text, descending. *)
Definition fetchNeeds (db : Store.Database) (campId : string) : list Need :=
  map asNeed
    (Query.orderDesc (Query.byText Store.n_urgency)
       (filter (fun n => String.eqb (Store.n_camp_id n) campId)
          (Store.camp_needs db))).

(** The query of [fetchCampData]: the caller's visible camps, newest first. *)
Definition ownCamps (created_at : Store.uuid -> Z) (db : Store.Database)
           (user : Store.uuid) : list Camp :=
  map asCamp
    (Query.orderDesc (Query.byNumber (fun c => created_at (Store.c_id c)))
       (filter (fun c => String.eqb (Store.c_camp_admin_id c) user)
          (filter Store.camps_select_policy (Store.camps db)))).

(** [fetchCampData], run on mount by [user]. *)
Definition fetchCampData (created_at : Store.uuid -> Z) (db : Store.Database)
           (user : option Store.uuid) (view : View) : View * option Toast :=
  match user with
  | None =>
      ({| camps := camps view; selectedCamp := selectedCamp view;
          needs := needs view; showCampDialog := showCampDialog view;
          showNeedDialog := showNeedDialog view; loading := false |},
       Some (toast_error "Failed to load camp data"))
  | Some u =>
      let campsData := ownCamps created_at db u in
      match campsData, selectedCamp view with
      | first :: _, None =>
          ({| camps := campsData; selectedCamp := Some first;
              needs := fetchNeeds db (id first);
              showCampDialog := showCampDialog view;
              showNeedDialog := showNeedDialog view; loading := false |},
           None)
      | _, _ =>
          ({| camps := campsData; selectedCamp := selectedCamp view;
              needs := needs view; showCampDialog := showCampDialog view;
              showNeedDialog := showNeedDialog view; loading := false |},
           None)
      end
  end.

(** The fields of the camp form and of the need form. *)
Record CampForm : Type := {
  cf_name : string;
  cf_location : string;
  cf_capacity : string;
  cf_occupied : string;
  cf_phone : string;
  cf_email : string
}.

Record NeedForm : Type := {
  nf_item : string;
  nf_quantity : string;
  nf_urgency : string
}.

Definition campBody (user : Store.uuid) (fd : CampForm)
  : Statements.camps_insert :=
  {| Statements.ci_camp_admin_id := user;
     Statements.ci_name := cf_name fd;
     Statements.ci_location := cf_location fd;
     Statements.ci_total_capacity := Js.parseInt (cf_capacity fd);
     Statements.ci_occupied_seats := Js.parseInt (cf_occupied fd);
     Statements.ci_contact_phone := cf_phone fd;
     Statements.ci_contact_email := cf_email fd |}.

(** [handleCreateCamp], run by [user]. *)
Definition handleCreateCamp (db : Store.Database) (user : option Store.uuid)
           (new_id : Store.uuid) (view : View) (fd : CampForm)
  : Store.Database * View * Toast :=
  match user with
  | None =>
      (db, view, toast_error (or_else "Not authenticated" "Failed to create camp"))
  | Some u =>
      match Statements.insert_camps db u new_id (campBody u fd) with
      | inl e =>
          (db, view,
           toast_error (or_else (Store.message e) "Failed to create camp"))
      | inr (db1, data) =>
          (db1,
           {| camps := asCamp data :: camps view;
              selectedCamp := Some (asCamp data);
              needs := needs view;
              showCampDialog := false;
              showNeedDialog := showNeedDialog view;
              loading := loading view |},
           toast_success "Camp created successfully!")
      end
  end.

Definition needBody (camp : Camp) (fd : NeedForm)
  : Statements.camp_needs_insert :=
  {| Statements.ni_camp_id := id camp;
     Statements.ni_item_name := nf_item fd;
     Statements.ni_quantity_needed := Js.parseInt (nf_quantity fd);
     Statements.ni_urgency := nf_urgency fd |}.

(** [handleAddNeed]; [caller] is the user of the session the request is
    sent under. *)
Definition handleAddNeed (db : Store.Database) (caller : option Store.uuid)
           (new_id : Store.uuid) (view : View) (fd : NeedForm)
  : Store.Database * View * option Toast :=
  match selectedCamp view with
  | None => (db, view, None)
  | Some camp =>
      match Statements.insert_camp_needs db caller new_id (needBody camp fd) with
      | inl e =>
          (db, view,
           Some (toast_error (or_else (Store.message e) "Failed to add need")))
      | inr db1 =>
          (db1,
           {| camps := camps view; selectedCamp := selectedCamp view;
              needs := fetchNeeds db1 (id camp);
              showCampDialog := showCampDialog view;
              showNeedDialog := false; loading := loading view |},
           Some (toast_success "Need added successfully!"))
      end
  end.

(** [handleCampSelect(camp)]. *)
Definition handleCampSelect (db : Store.Database) (view : View) (camp : Camp)
  : View :=
  {| camps := camps view; selectedCamp := Some camp;
     needs := fetchNeeds db (id camp);
     showCampDialog := showCampDialog view;
     showNeedDialog := showNeedDialog view; loading := loading view |}.

(** [onValueChange] of the camp selector. *)
Definition onValueChange (db : Store.Database) (view : View) (campId : string)
  : View :=
  match find (fun c => String.eqb (id c) campId) (camps view) with
  | Some camp => handleCampSelect db view camp
  | None => view
  end.

(** [availableSeats] of the selected camp. *)
Definition availableSeats (camp : Camp) : Z :=
  total_capacity camp - occupied_seats camp.

End CampDashboardState.

(** ** NGODashboard.tsx: what [fetchData] reads *)

Module NGODashboardData.

Record Camp : Type := {
  id : string;
  name : string;
  location : string;
  total_capacity : Z;
  occupied_seats : Z
}.

Definition asCamp (c : Store.camps_row) : Camp :=
  {| id := Store.c_id c; name := Store.c_name c;
     location := Store.c_location c;
     total_capacity := Store.c_total_capacity c;
     occupied_seats := Store.c_occupied_seats c |}.

(** A need as the query returns it.  The embedded [camps] object is the
    camp of the need when the caller may see that camp, and null when not. *)
Record NeedJson : Type := {
  nj_id : string;
  nj_camp_id : string;
  nj_item_name : string;
  nj_quantity_needed : Z;
  nj_quantity_fulfilled : Z;
  nj_urgency : string;
  nj_camps : option NGODashboard.NeedCamps
}.

Definition embeddedCamp (db : Store.Database) (n : Store.camp_needs_row)
  : option NGODashboard.NeedCamps :=
  option_map
    (fun c => {| NGODashboard.name := Store.c_name c;
                 NGODashboard.location := Store.c_location c |})
    (find (fun c => String.eqb (Store.c_id c) (Store.n_camp_id n))
          (filter Store.camps_select_policy (Store.camps db))).

Definition asNeedJson (db : Store.Database) (n : Store.camp_needs_row)
  : NeedJson :=
  {| nj_id := Store.n_id n; nj_camp_id := Store.n_camp_id n;
     nj_item_name := Store.n_item_name n;
     nj_quantity_needed := Store.n_quantity_needed n;
     nj_quantity_fulfilled := Store.n_quantity_fulfilled n;
     nj_urgency := Store.n_urgency n;
     nj_camps := embeddedCamp db n |}.

(** The [Need] the component takes a returned need for, when its camp came
    along. *)
Definition toNeed (j : NeedJson) : option NGODashboard.Need :=
  option_map
    (fun c => {| NGODashboard.id := nj_id j;
                 NGODashboard.camp_id := nj_camp_id j;
                 NGODashboard.item_name := nj_item_name j;
                 NGODashboard.quantity_needed := nj_quantity_needed j;
                 NGODashboard.quantity_fulfilled := nj_quantity_fulfilled j;
                 NGODashboard.urgency := nj_urgency j;
                 NGODashboard.camps := c |})
    (nj_camps j).

(** The two queries of [fetchData]: the active camps, and the needs whose
    status is not 'fulfilled', by urgency text, descending. *)
Definition fetchCamps (db : Store.Database) : list Camp :=
  map asCamp
    (filter (fun c => String.eqb (Store.c_status c) "active")
       (filter Store.camps_select_policy (Store.camps db))).

Definition openNeeds (db : Store.Database) : list Store.camp_needs_row :=
  Query.orderDesc (Query.byText Store.n_urgency)
    (filter (fun n => negb (String.eqb (Store.n_status n) "fulfilled"))
       (Store.camp_needs db)).

Definition fetchNeeds (db : Store.Database) : list NeedJson :=
  map (asNeedJson db) (openNeeds db).

End NGODashboardData.

(** ** The index page: which dashboard a session gets *)

Module Index.

(** The label of an [app_role] value. *)
Definition role_text (r : Store.app_role) : string :=
  match r with
  | Store.role_user => "user"
  | Store.role_camp => "camp"
  | Store.role_ngo => "ngo"
  end.

(** [fetchUserRole(userId)]: [.single()] wants exactly one row; with none
    (or several) it errors and [userRole] keeps the value it had. *)
Definition fetchUserRole (db : Store.Database) (userId : Store.uuid)
           (userRole : option string) : option string :=
  match filter (fun p => String.eqb (Store.p_id p) userId) (Store.profiles db) with
  | [p] => Some (role_text (Store.p_role p))
  | _ => userRole
  end.

Inductive Dashboard : Type :=
| ShowUserDashboard
| ShowCampDashboard
| ShowNGODashboard.

Definition roleIs (userRole : option string) (r : string) : bool :=
  match userRole with
  | Some s => String.eqb s r
  | None => false
  end.

(** The three conditional children of the page for a signed-in session. *)
Definition dashboards (userRole : option string) : list Dashboard :=
  ((if roleIs userRole "user" then [ShowUserDashboard] else [])
     ++ (if roleIs userRole "camp" then [ShowCampDashboard] else [])
     ++ (if roleIs userRole "ngo" then [ShowNGODashboard] else []))%list.

End Index.

(** ** The dashboards as a whole: what a session can make the store do *)

Module App.

(** A form submission or click on one of the three dashboards, with the
    user of the session, the id the store will draw, and the component
    state it is made from. *)
Inductive Action : Type :=
| SubmitPledge :
    option Store.uuid -> Store.uuid -> NGODashboard.View ->
    NGODashboard.FormData -> Action
| ClickRegister :
    option Store.uuid -> Store.uuid -> UserDashboard.Camp -> Action
| SubmitCamp :
    option Store.uuid -> Store.uuid -> CampDashboardState.View ->
    CampDashboardState.CampForm -> Action
| SubmitNeed :
    option Store.uuid -> Store.uuid -> CampDashboardState.View ->
    CampDashboardState.NeedForm -> Action.

Definition perform (db : Store.Database) (a : Action) : Store.Database :=
  match a with
  | SubmitPledge user new_id view fd =>
      NGODashboard.db_after
        (NGODashboard.handleProvideAssistance db user new_id view fd)
  | ClickRegister user new_id camp =>
      fst (UserDashboard.clickRegister db user new_id camp)
  | SubmitCamp user new_id view fd =>
      fst (fst (CampDashboardState.handleCreateCamp db user new_id view fd))
  | SubmitNeed caller new_id view fd =>
      fst (fst (CampDashboardState.handleAddNeed db caller new_id view fd))
  end.

Definition performAll (db : Store.Database) (l : list Action) : Store.Database :=
  fold_left perform l db.

(** The columns of a need that identify it and say what is asked for. *)
Definition request (n : Store.camp_needs_row)
  : string * string * string * Z * string :=
  (Store.n_id n, Store.n_camp_id n, Store.n_item_name n,
   Store.n_quantity_needed n, Store.n_urgency n).

(** What the schema declares of a store: primary keys, the UNIQUE
    constraint of volunteers, foreign keys, CHECK constraints and the
    INTEGER range. *)
Record Consistent (db : Store.Database) : Prop := {
  pk_profiles : NoDup (map Store.p_id (Store.profiles db));
  pk_camps : NoDup (map Store.c_id (Store.camps db));
  pk_camp_needs : NoDup (map Store.n_id (Store.camp_needs db));
  pk_volunteers : NoDup (map Store.v_id (Store.volunteers db));
  pk_ngo_assistance : NoDup (map Store.a_id (Store.ngo_assistance db));
  uq_volunteers :
    ForallOrdPairs (fun v w => Store.same_registration w v = false)
                   (Store.volunteers db);
  fk_camps :
    Forall (fun c => Store.profile_exists db (Store.c_camp_admin_id c) = true)
           (Store.camps db);
  fk_camp_needs :
    Forall (fun n => Store.camp_exists db (Store.n_camp_id n) = true)
           (Store.camp_needs db);
  fk_volunteers :
    Forall (fun v => Store.profile_exists db (Store.v_user_id v) = true
                     /\ match Store.v_camp_id v with
                        | Some c => Store.camp_exists db c = true
                        | None => True
                        end)
           (Store.volunteers db);
  fk_ngo_assistance :
    Forall (fun a => Store.profile_exists db (Store.a_ngo_id a) = true
                     /\ Store.camp_exists db (Store.a_camp_id a) = true
                     /\ match Store.a_need_id a with
                        | Some n => Store.need_exists db n = true
                        | None => True
                        end)
           (Store.ngo_assistance db);
  ck_camps :
    Forall (fun c => Store.check_camp_status (Store.c_status c) = true
                     /\ Store.in_int4 (Store.c_total_capacity c) = true
                     /\ Store.in_int4 (Store.c_occupied_seats c) = true)
           (Store.camps db);
  ck_camp_needs :
    Forall (fun n => Store.check_urgency (Store.n_urgency n) = true
                     /\ Store.check_need_status (Store.n_status n) = true
                     /\ Store.in_int4 (Store.n_quantity_needed n) = true
                     /\ Store.in_int4 (Store.n_quantity_fulfilled n) = true)
           (Store.camp_needs db);
  ck_volunteers :
    Forall (fun v => Store.check_volunteer_type (Store.v_volunteer_type v) = true
                     /\ Store.check_volunteer_status (Store.v_status v) = true)
           (Store.volunteers db);
  ck_ngo_assistance :
    Forall (fun a => Store.delivery_status_admitted (Store.a_delivery_status a)
                     = true
                     /\ Store.in_int4 (Store.a_quantity a) = true)
           (Store.ngo_assistance db)
}.

(** [db'] keeps what [db] holds: the same profiles; the camps, volunteers and
    ledger entries of [db] followed by new ones, the new ledger entries all
    pledged; and the needs of [db], as far as what they ask for goes,
    followed by new ones. *)
Record Extends (db db' : Store.Database) : Prop := {
  same_profiles : Store.profiles db' = Store.profiles db;
  more_camps : exists more, Store.camps db' = (Store.camps db ++ more)%list;
  more_volunteers :
    exists more, Store.volunteers db' = (Store.volunteers db ++ more)%list;
  more_ledger :
    exists more,
      Store.ngo_assistance db' = (Store.ngo_assistance db ++ more)%list
      /\ Forall (fun a => Store.a_delivery_status a = Some "pledged") more;
  more_needs :
    exists more,
      map request (Store.camp_needs db')
      = (map request (Store.camp_needs db) ++ more)%list
}.

End App.

(** Stores, forms and views used in the examples below. *)
Module Example.

Definition campForm (capacity occupied : string) : CampDashboardState.CampForm :=
  {| CampDashboardState.cf_name := "Aluva"; CampDashboardState.cf_location := "Kochi";
     CampDashboardState.cf_capacity := capacity;
     CampDashboardState.cf_occupied := occupied;
     CampDashboardState.cf_phone := "0484"; CampDashboardState.cf_email := "" |}.

Definition needForm (quantity urgency : string) : CampDashboardState.NeedForm :=
  {| CampDashboardState.nf_item := "Blankets";
     CampDashboardState.nf_quantity := quantity;
     CampDashboardState.nf_urgency := urgency |}.

Definition emptyView : CampDashboardState.View :=
  {| CampDashboardState.camps := []; CampDashboardState.selectedCamp := None;
     CampDashboardState.needs := []; CampDashboardState.showCampDialog := true;
     CampDashboardState.showNeedDialog := true;
     CampDashboardState.loading := false |}.

(** The camp dashboard of [admin] with camp-1 selected. *)
Definition adminView : CampDashboardState.View :=
  {| CampDashboardState.camps :=
       [CampDashboardState.asCamp (Scenario.camp "camp-1" "admin" 50 50)];
     CampDashboardState.selectedCamp :=
       Some (CampDashboardState.asCamp (Scenario.camp "camp-1" "admin" 50 50));
     CampDashboardState.needs := [];
     CampDashboardState.showCampDialog := false;
     CampDashboardState.showNeedDialog := true;
     CampDashboardState.loading := false |}.

(** Creation times: later ids are newer. *)
Definition created_at (id : Store.uuid) : Z :=
  if String.eqb id "camp-1" then 1
  else if String.eqb id "camp-2" then 2
  else 3.

Definition signup (id : string) (role : option string) : Statements.auth_user :=
  {| Statements.au_id := id; Statements.au_full_name := None;
     Statements.au_role := role; Statements.au_phone := None |}.

Definition setRole (r : Store.app_role) : Statements.profiles_patch :=
  {| Statements.set_full_name := None; Statements.set_phone := None;
     Statements.set_role := Some r |}.

(** A need of camp-1 for ten, none fulfilled. *)
Definition need (id urgency status : string) : Store.camp_needs_row :=
  {| Store.n_id := id; Store.n_camp_id := "camp-1";
     Store.n_item_name := "Blankets"; Store.n_quantity_needed := 10;
     Store.n_quantity_fulfilled := 0; Store.n_urgency := urgency;
     Store.n_status := status |}.

(** camp-1 with three open needs, entered critical, medium, critical. *)
Definition urgent : Store.Database :=
  Store.with_camp_needs Scenario.fresh
    [ need "n-1" "critical" "pending"; need "n-2" "medium" "pending";
      need "n-3" "critical" "pending" ].


End Example.

(** ** Properties *)

(** *** Display helpers *)

(** C9. The [urgencyColor] of the NGO dashboard and that of the camp
    dashboard agree on every string, and the common value is 'destructive'
    for 'critical', 'warning' for 'high', 'default' for 'medium' and
    'secondary' for every other string. *)
Theorem urgencyColor_agree :
  forall u : string,
    NGODashboard.urgencyColor u = CampDashboard.urgencyColor u
    /\ ((u = "critical" /\ NGODashboard.urgencyColor u = "destructive")
        \/ (u = "high" /\ NGODashboard.urgencyColor u = "warning")
        \/ (u = "medium" /\ NGODashboard.urgencyColor u = "default")
        \/ (u <> "critical" /\ u <> "high" /\ u <> "medium"
            /\ NGODashboard.urgencyColor u = "secondary")).
Proof.
  intro u. split; [reflexivity|].
  unfold NGODashboard.urgencyColor.
  destruct (String.eqb_spec u "critical") as [Hc|Hc]; [left; auto|].
  destruct (String.eqb_spec u "high") as [Hh|Hh]; [right; left; auto|].
  destruct (String.eqb_spec u "medium") as [Hm|Hm]; [right; right; left; auto|].
  right; right; right; auto.
Qed.

(** C10. The register button is disabled exactly when total_capacity minus
    occupied_seats is 0.  A camp with more occupied seats than capacity is
    badged Full, yet its button is enabled and a click runs the handler. *)
Theorem register_guard_misses_overfull :
  forall (camp : UserDashboard.Camp),
    (UserDashboard.registerDisabled camp = true
     <-> UserDashboard.total_capacity camp - UserDashboard.occupied_seats camp = 0)
    /\ (UserDashboard.occupied_seats camp > UserDashboard.total_capacity camp ->
        UserDashboard.seatBadge camp = UserDashboard.Full
        /\ UserDashboard.registerDisabled camp = false
        /\ forall db user new_id,
            UserDashboard.clickRegister db user new_id camp
            = (fst (UserDashboard.handleVolunteer db user new_id
                      (UserDashboard.id camp)),
               Some (snd (UserDashboard.handleVolunteer db user new_id
                            (UserDashboard.id camp))))).
Proof.
  intro camp.
  unfold UserDashboard.registerDisabled, UserDashboard.seatBadge,
    UserDashboard.clickRegister, UserDashboard.registerDisabled,
    UserDashboard.availableSeats.
  split.
  - apply Z.eqb_eq.
  - intro Hover.
    assert (Hne : (UserDashboard.total_capacity camp
                   - UserDashboard.occupied_seats camp =? 0) = false)
      by (apply Z.eqb_neq; lia).
    assert (Hgt : (UserDashboard.total_capacity camp
                   - UserDashboard.occupied_seats camp >? 0) = false)
      by (rewrite Z.gtb_ltb; apply Z.ltb_ge; lia).
    rewrite Hne, Hgt. repeat split.
    intros db user new_id.
    destruct (UserDashboard.handleVolunteer db user new_id (UserDashboard.id camp));
      reflexivity.
Qed.

Lemma register_guard_misses_overfull_witness :
  UserDashboard.seatBadge (Scenario.card 50 52) = UserDashboard.Full
  /\ UserDashboard.registerDisabled (Scenario.card 50 52) = false.
Proof.
  destruct (register_guard_misses_overfull (Scenario.card 50 52)) as [_ H].
  destruct H as (Hb & Hd & _); [simpl; lia|].
  split; assumption.
Defined.

(** *** Volunteer registration *)

Lemma handleVolunteer_camps :
  forall db user new_id campId,
    Store.camps (fst (UserDashboard.handleVolunteer db user new_id campId))
    = Store.camps db.
Proof.
  intros db user new_id campId. unfold UserDashboard.handleVolunteer.
  destruct user as [u|]; [|reflexivity].
  unfold Store.insert_volunteers.
  repeat match goal with
         | |- context [if ?b then _ else _] => destruct b
         end; reflexivity.
Qed.

(** The guard of the register button.  On a card that shows as many
    occupied seats as capacity a click is turned away: no handler runs,
    nothing is shown and the store is as before.  The handler itself never
    writes to camps. *)
Lemma full_camp_request_rejected :
  forall db user new_id (camp : UserDashboard.Camp),
    UserDashboard.occupied_seats camp = UserDashboard.total_capacity camp ->
    UserDashboard.registerDisabled camp = true
    /\ UserDashboard.clickRegister db user new_id camp = (db, None)
    /\ Store.camps (fst (UserDashboard.clickRegister db user new_id camp))
       = Store.camps db
    /\ Store.camps (fst (UserDashboard.handleVolunteer db user new_id
                           (UserDashboard.id camp)))
       = Store.camps db.
Proof.
  intros db user new_id camp Hfull.
  assert (Hd : UserDashboard.registerDisabled camp = true).
  { unfold UserDashboard.registerDisabled, UserDashboard.availableSeats.
    apply Z.eqb_eq. lia. }
  unfold UserDashboard.clickRegister. rewrite Hd.
  repeat split; try reflexivity. apply handleVolunteer_camps.
Qed.

Lemma full_camp_request_rejected_witness :
  UserDashboard.clickRegister Scenario.fresh (Some "citizen") "vol-1"
    (Scenario.card 50 50)
  = (Scenario.fresh, None).
Proof.
  apply (full_camp_request_rejected Scenario.fresh (Some "citizen") "vol-1"
           (Scenario.card 50 50)).
  reflexivity.
Defined.

(** C5, on the code.  camp-1 has 50 of its 50 seats occupied in the store.
    (i) From a card that still shows 49 occupied, read before the camp
    filled up, the register button is enabled and a click registers the
    volunteer: success is shown and the registration is in the store.
    (ii) [handleVolunteer] run for camp-1 does the same: nothing in it or in
    the schema looks at the seats.  The camp's row is unchanged either way.
    Only a card that itself shows 50 of 50 turns the click away. *)
Theorem full_camp_registration_accepted :
  In (Scenario.camp "camp-1" "admin" 50 50) (Store.camps Scenario.fresh)
  /\ (UserDashboard.registerDisabled (Scenario.card 50 49) = false
      /\ UserDashboard.clickRegister Scenario.fresh (Some "citizen") "vol-1"
           (Scenario.card 50 49)
         = (Store.with_volunteers Scenario.fresh
              [Scenario.volunteer "vol-1" "citizen" "camp-1"],
            Some (toast_success "Successfully registered as volunteer!")))
  /\ UserDashboard.handleVolunteer Scenario.fresh (Some "citizen") "vol-1"
       "camp-1"
     = (Store.with_volunteers Scenario.fresh
          [Scenario.volunteer "vol-1" "citizen" "camp-1"],
        toast_success "Successfully registered as volunteer!")
  /\ Store.camps
       (Store.with_volunteers Scenario.fresh
          [Scenario.volunteer "vol-1" "citizen" "camp-1"])
     = Store.camps Scenario.fresh
  /\ UserDashboard.clickRegister Scenario.fresh (Some "citizen") "vol-1"
       (Scenario.card 50 50)
     = (Scenario.fresh, None).
Proof.
  split; [left; reflexivity|]. vm_compute. repeat split.
Qed.

Lemma registration_taken_iff :
  forall db v camp,
    Store.v_camp_id v = Some camp ->
    Store.registration_taken db v = true
    <-> registered db (Store.v_user_id v) camp (Store.v_volunteer_type v).
Proof.
  intros db v camp Hcamp. unfold Store.registration_taken, registered.
  rewrite existsb_exists. split.
  - intros (w & Hin & Hsame). exists w.
    unfold Store.same_registration in Hsame. rewrite Hcamp in Hsame.
    apply andb_true_iff in Hsame as [Hsame Htype].
    apply andb_true_iff in Hsame as [Huser Hc].
    destruct (Store.v_camp_id w) as [d|] eqn:Hd; [|discriminate].
    apply String.eqb_eq in Huser, Hc, Htype. subst d.
    repeat split; auto.
  - intros (w & Hin & Huser & Hc & Htype). exists w. split; [assumption|].
    unfold Store.same_registration. rewrite Hcamp, Hc, Huser, Htype.
    rewrite !String.eqb_refl. reflexivity.
Qed.

(** C7, as amended. Take a registration with a camp_id that is not NULL.
    When its (user_id, camp_id, volunteer_type) is already on record, the
    store refuses it with an error and keeps its rows; [handleVolunteer],
    which registers (user, camp, camp_volunteer), then tells the user so and
    writes nothing.  When the triple is not on record, the id is fresh and
    the profile and the camp exist, the store accepts it from its own user
    with an admitted type and status and adds exactly its row;
    [handleVolunteer] run by that user adds exactly the row (user, camp,
    camp_volunteer, active) and reports success.  A registration with
    camp_id NULL is never a duplicate: from its own user, with a fresh id,
    an admitted type and status and an existing profile it is accepted
    whatever is on record. *)
Theorem duplicate_registration_rejected :
  forall db uid (v : Store.volunteers_row),
    (forall camp,
        Store.v_camp_id v = Some camp ->
        (registered db (Store.v_user_id v) camp (Store.v_volunteer_type v) ->
         (exists e, Store.insert_volunteers db uid v = inl e)
         /\ (Store.v_volunteer_type v = "camp_volunteer" ->
             forall new_id,
               UserDashboard.handleVolunteer db (Some (Store.v_user_id v))
                                             new_id camp
               = (db, toast_error "You're already registered for this camp")))
        /\ (~ registered db (Store.v_user_id v) camp (Store.v_volunteer_type v) ->
            Store.volunteer_id_taken db (Store.v_id v) = false ->
            Store.profile_exists db (Store.v_user_id v) = true ->
            Store.camp_exists db camp = true ->
            (uid = Store.v_user_id v ->
             Store.check_volunteer_type (Store.v_volunteer_type v) = true ->
             Store.check_volunteer_status (Store.v_status v) = true ->
             Store.insert_volunteers db uid v
             = inr (Store.with_volunteers db (Store.volunteers db ++ [v])))
            /\ (Store.v_volunteer_type v = "camp_volunteer" ->
                Store.v_status v = "active" ->
                UserDashboard.handleVolunteer db (Some (Store.v_user_id v))
                                              (Store.v_id v) camp
                = (Store.with_volunteers db (Store.volunteers db ++ [v]),
                   toast_success "Successfully registered as volunteer!"))))
    /\ (Store.v_camp_id v = None ->
        uid = Store.v_user_id v ->
        Store.check_volunteer_type (Store.v_volunteer_type v) = true ->
        Store.check_volunteer_status (Store.v_status v) = true ->
        Store.volunteer_id_taken db (Store.v_id v) = false ->
        Store.profile_exists db (Store.v_user_id v) = true ->
        Store.insert_volunteers db uid v
        = inr (Store.with_volunteers db (Store.volunteers db ++ [v]))).
Proof.
  intros db uid v. split.
  - intros camp Hcamp.
    assert (Hstore : ~ registered db (Store.v_user_id v) camp
                                  (Store.v_volunteer_type v) ->
                     Store.volunteer_id_taken db (Store.v_id v) = false ->
                     Store.profile_exists db (Store.v_user_id v) = true ->
                     Store.camp_exists db camp = true ->
                     Store.check_volunteer_type (Store.v_volunteer_type v) = true ->
                     Store.check_volunteer_status (Store.v_status v) = true ->
                     Store.insert_volunteers db (Store.v_user_id v) v
                     = inr (Store.with_volunteers db (Store.volunteers db ++ [v]))).
    { intros Hnew Hid Hprofile Hcampx Htype Hstatus.
      assert (Hfree : Store.registration_taken db v = false).
      { destruct (Store.registration_taken db v) eqn:Ht; [|reflexivity].
        exfalso. apply Hnew.
        apply (registration_taken_iff db v camp Hcamp). exact Ht. }
      unfold Store.insert_volunteers, Store.volunteers_insert_policy.
      rewrite String.eqb_refl, Htype, Hstatus, Hid, Hfree, Hprofile, Hcamp,
        Hcampx.
      reflexivity. }
    split.
    + intro Hreg.
      apply (registration_taken_iff db v camp Hcamp) in Hreg. split.
      * unfold Store.insert_volunteers. rewrite Hreg, orb_true_r.
        repeat match goal with
               | |- context [if ?b then _ else _] => destruct b
               end; eexists; reflexivity.
      * intros Htype new_id. unfold UserDashboard.handleVolunteer.
        match goal with
        | |- context [Store.insert_volunteers ?d ?u ?r] =>
            assert (Hdup : Store.insert_volunteers d u r
                           = inl Store.UniqueViolation)
        end.
        { unfold Store.insert_volunteers, Store.volunteers_insert_policy.
          cbn [Store.v_user_id Store.v_camp_id Store.v_volunteer_type
               Store.v_status Store.v_id].
          rewrite String.eqb_refl.
          replace (Store.registration_taken db _) with true.
          - rewrite orb_true_r. reflexivity.
          - symmetry. unfold Store.registration_taken in *.
            rewrite existsb_exists in *. destruct Hreg as (w & Hin & Hsame).
            exists w. split; [assumption|].
            unfold Store.same_registration in *.
            cbn [Store.v_user_id Store.v_camp_id Store.v_volunteer_type].
            rewrite Hcamp, Htype in Hsame. exact Hsame. }
        rewrite Hdup. reflexivity.
    + intros Hnew Hid Hprofile Hcampx. split.
      * intros -> Htype Hstatus. apply Hstore; assumption.
      * intros Htype Hstatus. unfold UserDashboard.handleVolunteer.
        match goal with
        | |- context [Store.insert_volunteers _ _ ?r] =>
            assert (Hrow : r = v)
        end.
        { destruct v as [i u c t st]. cbn in Hcamp, Htype, Hstatus |- *.
          subst c t st. reflexivity. }
        rewrite Hrow.
        rewrite (Hstore Hnew Hid Hprofile Hcampx);
          [reflexivity|rewrite Htype; reflexivity|rewrite Hstatus; reflexivity].
  - intros Hnone -> Htype Hstatus Hid Hprofile.
    assert (Hfree : Store.registration_taken db v = false).
    { unfold Store.registration_taken.
      induction (Store.volunteers db) as [|w l IH]; [reflexivity|].
      cbn [existsb]. rewrite IH. unfold Store.same_registration.
      rewrite Hnone, andb_false_r. reflexivity. }
    unfold Store.insert_volunteers, Store.volunteers_insert_policy.
    rewrite String.eqb_refl, Htype, Hstatus, Hid, Hfree, Hprofile, Hnone.
    reflexivity.
Qed.

Lemma duplicate_registration_rejected_witness :
  ((exists e,
       Store.insert_volunteers
         (Store.with_volunteers Scenario.fresh
            [Scenario.volunteer "vol-1" "citizen" "camp-1"])
         "citizen" (Scenario.volunteer "vol-2" "citizen" "camp-1") = inl e)
   /\ UserDashboard.handleVolunteer
        (Store.with_volunteers Scenario.fresh
           [Scenario.volunteer "vol-1" "citizen" "camp-1"])
        (Some "citizen") "vol-2" "camp-1"
      = (Store.with_volunteers Scenario.fresh
           [Scenario.volunteer "vol-1" "citizen" "camp-1"],
         toast_error "You're already registered for this camp"))
  /\ (Store.insert_volunteers
        (Store.with_volunteers Scenario.fresh
           [Scenario.volunteer "vol-1" "citizen" "camp-1"])
        "citizen" (Scenario.volunteer "vol-2" "citizen" "camp-2")
      = inr (Store.with_volunteers
               (Store.with_volunteers Scenario.fresh
                  [Scenario.volunteer "vol-1" "citizen" "camp-1"])
               [Scenario.volunteer "vol-1" "citizen" "camp-1";
                Scenario.volunteer "vol-2" "citizen" "camp-2"])
      /\ UserDashboard.handleVolunteer
           (Store.with_volunteers Scenario.fresh
              [Scenario.volunteer "vol-1" "citizen" "camp-1"])
           (Some "citizen") "vol-2" "camp-2"
         = (Store.with_volunteers
              (Store.with_volunteers Scenario.fresh
                 [Scenario.volunteer "vol-1" "citizen" "camp-1"])
              [Scenario.volunteer "vol-1" "citizen" "camp-1";
               Scenario.volunteer "vol-2" "citizen" "camp-2"],
            toast_success "Successfully registered as volunteer!"))
  /\ Store.insert_volunteers
       (Store.with_volunteers Scenario.fresh
          [Scenario.freelance "vol-1" "citizen"])
       "citizen" (Scenario.freelance "vol-2" "citizen")
     = inr (Store.with_volunteers
              (Store.with_volunteers Scenario.fresh
                 [Scenario.freelance "vol-1" "citizen"])
              [Scenario.freelance "vol-1" "citizen";
               Scenario.freelance "vol-2" "citizen"]).
Proof.
  split; [|split].
  - assert (Hreg : registered
                     (Store.with_volunteers Scenario.fresh
                        [Scenario.volunteer "vol-1" "citizen" "camp-1"])
                     "citizen" "camp-1" "camp_volunteer").
    { exists (Scenario.volunteer "vol-1" "citizen" "camp-1").
      repeat split. left. reflexivity. }
    destruct (proj1 (duplicate_registration_rejected
                       (Store.with_volunteers Scenario.fresh
                          [Scenario.volunteer "vol-1" "citizen" "camp-1"])
                       "citizen"
                       (Scenario.volunteer "vol-2" "citizen" "camp-1"))
                    "camp-1" eq_refl) as [Hdup _].
    destruct (Hdup Hreg) as [Hstore Hhandler].
    split; [exact Hstore|exact (Hhandler eq_refl "vol-2")].
  - assert (Hnew : ~ registered
                       (Store.with_volunteers Scenario.fresh
                          [Scenario.volunteer "vol-1" "citizen" "camp-1"])
                       "citizen" "camp-2" "camp_volunteer").
    { intros (w & Hin & _ & Hc & _).
      destruct Hin as [Hw|[]]. subst w. discriminate Hc. }
    destruct (proj1 (duplicate_registration_rejected
                       (Store.with_volunteers Scenario.fresh
                          [Scenario.volunteer "vol-1" "citizen" "camp-1"])
                       "citizen"
                       (Scenario.volunteer "vol-2" "citizen" "camp-2"))
                    "camp-2" eq_refl) as [_ Hfresh].
    destruct (Hfresh Hnew eq_refl eq_refl eq_refl) as [Hstore Hhandler].
    split; [exact (Hstore eq_refl eq_refl eq_refl)
           |exact (Hhandler eq_refl eq_refl)].
  - apply (proj2 (duplicate_registration_rejected
                    (Store.with_volunteers Scenario.fresh
                       [Scenario.freelance "vol-1" "citizen"])
                    "citizen" (Scenario.freelance "vol-2" "citizen")));
      reflexivity.
Defined.

(** C7, as stated, fails where camp_id is NULL: UNIQUE holds NULLs for
    distinct, so a second registration with the same user_id, the same
    (absent) camp_id and the same volunteer_type is accepted, and the table
    holds the triple twice. *)
Lemma same_triple_without_camp_accepted_twice :
  Store.insert_volunteers
    (Store.with_volunteers Scenario.fresh
       [Scenario.freelance "vol-1" "citizen"])
    "citizen" (Scenario.freelance "vol-2" "citizen")
  = inr (Store.with_volunteers Scenario.fresh
           [Scenario.freelance "vol-1" "citizen";
            Scenario.freelance "vol-2" "citizen"])
  /\ Store.v_user_id (Scenario.freelance "vol-1" "citizen")
     = Store.v_user_id (Scenario.freelance "vol-2" "citizen")
  /\ Store.v_camp_id (Scenario.freelance "vol-1" "citizen")
     = Store.v_camp_id (Scenario.freelance "vol-2" "citizen")
  /\ Store.v_volunteer_type (Scenario.freelance "vol-1" "citizen")
     = Store.v_volunteer_type (Scenario.freelance "vol-2" "citizen")
  /\ Store.insert_volunteers Scenario.fresh "citizen"
       (Scenario.freelance "vol-1" "citizen")
     = inr (Store.with_volunteers Scenario.fresh
              [Scenario.freelance "vol-1" "citizen"]).
Proof. vm_compute. repeat split. Qed.

(** *** The pledge: what the two requests do to the store *)

Lemma has_role_profile_exists :
  forall db uid r,
    Store.has_role db uid r = true -> Store.profile_exists db uid = true.
Proof.
  intros db uid r. unfold Store.has_role, Store.profile_exists.
  rewrite !existsb_exists. intros (p & Hin & Hp).
  apply andb_true_iff in Hp as [Hid _]. exists p. split; assumption.
Qed.

(** An insert that went through carried a 32-bit number, was made by an NGO
    under its own id, and added exactly the new row. *)
Lemma insert_ngo_assistance_inr :
  forall db uid new_id body db1,
    Store.insert_ngo_assistance db uid new_id body = inr db1 ->
    exists q,
      Store.i_quantity body = Js.Num q
      /\ Store.in_int4 q = true
      /\ Store.i_ngo_id body = uid
      /\ Store.has_role db uid Store.role_ngo = true
      /\ db1 = Store.with_ngo_assistance db
                 (Store.ngo_assistance db
                    ++ [Store.new_assistance_row new_id body q]).
Proof.
  intros db uid new_id body db1. unfold Store.insert_ngo_assistance.
  destruct (Store.i_quantity body) as [|q] eqn:Hq.
  - repeat match goal with
           | |- context [if ?b then _ else _] => destruct b
           end; discriminate.
  - destruct (Store.in_int4 q) eqn:Hrange; [|discriminate]. cbn [negb].
    destruct (Store.ngo_assistance_insert_policy db uid
                (Store.new_assistance_row new_id body q)) eqn:Hpol;
      [|discriminate]. cbn [negb].
    unfold Store.ngo_assistance_insert_policy in Hpol.
    apply andb_true_iff in Hpol as [Hself Hrole].
    apply String.eqb_eq in Hself. cbn in Hself.
    repeat match goal with
           | |- context [if ?b then _ else _] => destruct b
           end; try discriminate.
    intro H. injection H as <-. exists q. repeat split; auto.
Qed.

(** Without the NGO role the insert is refused. *)
Lemma insert_ngo_assistance_needs_role :
  forall db uid new_id body,
    Store.has_role db uid Store.role_ngo = false ->
    exists e, Store.insert_ngo_assistance db uid new_id body = inl e.
Proof.
  intros db uid new_id body Hrole.
  destruct (Store.insert_ngo_assistance db uid new_id body) as [e|db1] eqn:H.
  - exists e. reflexivity.
  - apply insert_ngo_assistance_inr in H as (q & _ & _ & _ & Hr & _).
    congruence.
Qed.

(** A null quantity is refused. *)
Lemma insert_ngo_assistance_needs_number :
  forall db uid new_id body,
    Store.i_quantity body = Js.NaN ->
    exists e, Store.insert_ngo_assistance db uid new_id body = inl e.
Proof.
  intros db uid new_id body Hnan.
  destruct (Store.insert_ngo_assistance db uid new_id body) as [e|db1] eqn:H.
  - exists e. reflexivity.
  - apply insert_ngo_assistance_inr in H as (q & Hq & _). congruence.
Qed.

Lemma newStatus_checked :
  forall sel q, Store.check_need_status (NGODashboard.newStatus sel q) = true.
Proof.
  intros sel q. unfold NGODashboard.newStatus.
  destruct (NGODashboard.newFulfilled sel q >=? NGODashboard.quantity_needed sel);
    reflexivity.
Qed.

(** The update the handler sends never trips the status CHECK: it is applied
    to the rows its caller may manage when the new total fits INTEGER, and to
    none otherwise. *)
Lemma requestUpdate_spec :
  forall db u sel q,
    NGODashboard.requestUpdate db
      {| NGODashboard.pu_user := u; NGODashboard.pu_need := sel;
         NGODashboard.pu_quantity := Js.Num q |}
    = if Store.in_int4 (NGODashboard.newFulfilled sel q)
      then Store.with_camp_needs db
             (map (fun n => if Store.camp_needs_touched db u
                                 (NGODashboard.id sel) n
                            then Store.set_fulfilment
                                   (NGODashboard.newFulfilled sel q)
                                   (NGODashboard.newStatus sel q) n
                            else n)
                  (Store.camp_needs db))
      else db.
Proof.
  intros db u sel q.
  unfold NGODashboard.requestUpdate, Store.update_camp_needs.
  cbn [NGODashboard.pu_quantity NGODashboard.pu_user NGODashboard.pu_need].
  destruct (Store.in_int4 (NGODashboard.newFulfilled sel q)); cbn [negb];
    [|reflexivity].
  rewrite newStatus_checked. cbn [negb]. rewrite andb_false_r. reflexivity.
Qed.

(** The first request either throws and leaves the store alone, or adds the
    pledged row and hands the update over. *)
Lemma requestInsert_inr :
  forall db user new_id sel fd db1 pending,
    NGODashboard.requestInsert db user new_id sel fd = inr (db1, pending) ->
    exists u q,
      user = Some u
      /\ Js.parseInt (NGODashboard.fd_quantity fd) = Js.Num q
      /\ Store.in_int4 q = true
      /\ Store.has_role db u Store.role_ngo = true
      /\ pending = {| NGODashboard.pu_user := u; NGODashboard.pu_need := sel;
                      NGODashboard.pu_quantity := Js.Num q |}
      /\ db1 = Store.with_ngo_assistance db
                 (Store.ngo_assistance db
                    ++ [ {| Store.a_id := new_id;
                            Store.a_ngo_id := u;
                            Store.a_camp_id := NGODashboard.camp_id sel;
                            Store.a_need_id := Some (NGODashboard.id sel);
                            Store.a_items_provided := NGODashboard.item_name sel;
                            Store.a_quantity := q;
                            Store.a_delivery_status := Some "pledged";
                            Store.a_notes := Some (NGODashboard.fd_notes fd) |} ]).
Proof.
  intros db user new_id sel fd db1 pending.
  unfold NGODashboard.requestInsert.
  destruct user as [u|]; [|discriminate].
  destruct (Store.insert_ngo_assistance db u new_id _) as [e|db'] eqn:Hins;
    [discriminate|].
  intro H. injection H as <- <-.
  apply insert_ngo_assistance_inr in Hins as (q & Hq & Hrange & _ & Hrole & ->).
  cbn [NGODashboard.assistanceBody Store.i_quantity] in Hq.
  exists u, q. rewrite Hq. repeat split; auto.
Qed.

(** Whatever the need still lacks, the pledge of an NGO goes through as
    soon as the quantity is a 32-bit number, the drawn id is free and the
    camp and the need exist: the remaining need is not looked at. *)
Lemma pledge_accepted_whatever_remains :
  forall db u new_id view fd sel q,
    NGODashboard.selectedNeed view = Some sel ->
    Js.parseInt (NGODashboard.fd_quantity fd) = Js.Num q ->
    Store.in_int4 q = true ->
    Store.has_role db u Store.role_ngo = true ->
    Store.assistance_id_taken db new_id = false ->
    Store.camp_exists db (NGODashboard.camp_id sel) = true ->
    Store.need_exists db (NGODashboard.id sel) = true ->
    NGODashboard.toast
      (NGODashboard.handleProvideAssistance db (Some u) new_id view fd)
    = Some (toast_success "Assistance pledged successfully!").
Proof.
  intros db u new_id view fd sel q Hsel Hq Hrange Hrole Hfree Hcamp Hneed.
  unfold NGODashboard.handleProvideAssistance, NGODashboard.requestInsert.
  rewrite Hsel, Hq.
  unfold Store.insert_ngo_assistance, Store.ngo_assistance_insert_policy.
  cbn [NGODashboard.assistanceBody Store.i_quantity Store.i_ngo_id
       Store.i_camp_id Store.i_need_id Store.new_assistance_row
       Store.a_ngo_id Store.a_camp_id Store.a_delivery_status].
  rewrite Hrange, String.eqb_refl, Hrole, Hfree,
    (has_role_profile_exists _ _ _ Hrole), Hcamp, Hneed.
  reflexivity.
Qed.

Lemma or_else_error :
  forall e, or_else (Store.message e) "Failed to provide assistance"
            = Store.message e.
Proof. destruct e; reflexivity. Qed.

(** The two requests of a pledge, spelled out.  Either the first fails, an
    error is shown and the store is as before; or success is reported,
    exactly one ledger entry in status pledged was appended, profiles, camps
    and volunteers are untouched, and the needs table is the one the update
    leaves: when the new total fits INTEGER, the rows of the need its sender
    may manage carry the snapshot's fulfilled quantity plus the pledged one
    and the recomputed status; when it does not, the table is as before. *)
Lemma pledge_two_requests :
  forall db user new_id view fd sel,
    NGODashboard.selectedNeed view = Some sel ->
    let out := NGODashboard.handleProvideAssistance db user new_id view fd in
    (exists msg, NGODashboard.toast out = Some (toast_error msg)
                 /\ NGODashboard.db_after out = db)
    \/ (exists u q,
           user = Some u
           /\ Js.parseInt (NGODashboard.fd_quantity fd) = Js.Num q
           /\ NGODashboard.toast out
              = Some (toast_success "Assistance pledged successfully!")
           /\ Store.ngo_assistance (NGODashboard.db_after out)
              = (Store.ngo_assistance db
                   ++ [ {| Store.a_id := new_id;
                           Store.a_ngo_id := u;
                           Store.a_camp_id := NGODashboard.camp_id sel;
                           Store.a_need_id := Some (NGODashboard.id sel);
                           Store.a_items_provided := NGODashboard.item_name sel;
                           Store.a_quantity := q;
                           Store.a_delivery_status := Some "pledged";
                           Store.a_notes := Some (NGODashboard.fd_notes fd) |} ])%list
           /\ Store.profiles (NGODashboard.db_after out) = Store.profiles db
           /\ Store.camps (NGODashboard.db_after out) = Store.camps db
           /\ Store.volunteers (NGODashboard.db_after out) = Store.volunteers db
           /\ Store.camp_needs (NGODashboard.db_after out)
              = if Store.in_int4 (NGODashboard.quantity_fulfilled sel + q)
                then map (fun n =>
                            if String.eqb (Store.n_id n) (NGODashboard.id sel)
                               && Store.camp_needs_manage_policy db u n
                            then Store.set_fulfilment
                                   (NGODashboard.quantity_fulfilled sel + q)
                                   (NGODashboard.newStatus sel q) n
                            else n)
                         (Store.camp_needs db)
                else Store.camp_needs db).
Proof.
  intros db user new_id view fd sel Hsel out. subst out.
  unfold NGODashboard.handleProvideAssistance. rewrite Hsel.
  destruct (NGODashboard.requestInsert db user new_id sel fd)
    as [msg|[db1 pending]] eqn:Hins.
  - left. eexists. split; reflexivity.
  - right.
    apply requestInsert_inr in Hins as (u & q & Hu & Hq & _ & _ & -> & ->).
    exists u, q. cbn [NGODashboard.toast NGODashboard.db_after].
    rewrite requestUpdate_spec. unfold NGODashboard.newFulfilled.
    destruct (Store.in_int4 (NGODashboard.quantity_fulfilled sel + q));
      repeat split; auto.
Qed.

(** C2, on the code.  A pledge is two separate requests and the result of
    the second is dropped, so the three effects do not stand or fall
    together.  (i) An NGO that does not run the camp pledges 6 against a
    need of ten at 0: success is reported and the ledger holds the entry,
    but no need row changed; the ledger entry exists without the update of
    the need.  (ii) Where the update does apply it writes snapshot plus
    quantity instead of adding to the row: from a row at 6 and a snapshot
    read at 0, a pledge of 4 leaves the row at 4, not 10. *)
Lemma ledger_entry_without_need_update :
  (Scenario.succeeded
     (Scenario.pledge Scenario.fresh "ngo-a"
        (Scenario.snapshot "need-1" "camp-1" 0) "6")
   /\ pledgedTotal
        (NGODashboard.db_after
           (Scenario.pledge Scenario.fresh "ngo-a"
              (Scenario.snapshot "need-1" "camp-1" 0) "6")) "need-1" = 6
   /\ Store.camp_needs
        (NGODashboard.db_after
           (Scenario.pledge Scenario.fresh "ngo-a"
              (Scenario.snapshot "need-1" "camp-1" 0) "6"))
      = Store.camp_needs Scenario.fresh)
  /\ (needRow (Scenario.store 0 "pending" 6 "partial") "need-2"
      = Some (Scenario.need "need-2" "camp-2" 10 6 "partial")
      /\ Scenario.succeeded
           (Scenario.pledge (Scenario.store 0 "pending" 6 "partial")
              "relief-org" (Scenario.snapshot "need-2" "camp-2" 0) "4")
      /\ needRow
           (NGODashboard.db_after
              (Scenario.pledge (Scenario.store 0 "pending" 6 "partial")
                 "relief-org" (Scenario.snapshot "need-2" "camp-2" 0) "4"))
           "need-2"
         = Some (Scenario.need "need-2" "camp-2" 10 4 "partial")
      /\ 4 <> 6 + 4).
Proof. vm_compute. repeat split; discriminate. Qed.

(** *** Who may pledge, and how much *)




(** C1, on the code.  The store has need-1 and need-2 at 10 of 10.
    (i) An NGO's pledge of 1 against need-1 is not rejected: success is
    reported and the entry is on the ledger.  (ii) The same from a snapshot
    read when the need stood at 4: the quantity is within the form's range,
    and the pledge goes through.  (iii) When the sender manages the camp the
    update applies too: from a snapshot read at 4, a pledge of 1 takes the
    row of need-2 from 10, fulfilled, back to 5, partial. *)
Theorem overcommit_pledge_accepted :
  (needRow Scenario.full "need-1"
   = Some (Scenario.need "need-1" "camp-1" 10 10 "fulfilled")
   /\ needRow Scenario.full "need-2"
      = Some (Scenario.need "need-2" "camp-2" 10 10 "fulfilled"))
  /\ (Scenario.succeeded
        (Scenario.pledge Scenario.full "ngo-a"
           (Scenario.snapshot "need-1" "camp-1" 10) "1")
      /\ pledgedTotal
           (NGODashboard.db_after
              (Scenario.pledge Scenario.full "ngo-a"
                 (Scenario.snapshot "need-1" "camp-1" 10) "1")) "need-1" = 1)
  /\ (NGODashboard.withinInputRange (Scenario.snapshot "need-1" "camp-1" 4) 1
      = true
      /\ Scenario.succeeded
           (Scenario.pledge Scenario.full "ngo-a"
              (Scenario.snapshot "need-1" "camp-1" 4) "1")
      /\ pledgedTotal
           (NGODashboard.db_after
              (Scenario.pledge Scenario.full "ngo-a"
                 (Scenario.snapshot "need-1" "camp-1" 4) "1")) "need-1" = 1)
  /\ (NGODashboard.withinInputRange (Scenario.snapshot "need-2" "camp-2" 4) 1
      = true
      /\ Scenario.succeeded
           (Scenario.pledge Scenario.full "relief-org"
              (Scenario.snapshot "need-2" "camp-2" 4) "1")
      /\ needRow
           (NGODashboard.db_after
              (Scenario.pledge Scenario.full "relief-org"
                 (Scenario.snapshot "need-2" "camp-2" 4) "1")) "need-2"
         = Some (Scenario.need "need-2" "camp-2" 10 5 "partial")).
Proof. vm_compute. repeat split. Qed.

(** C4, on the code.  Two sessions each read the need at 0 of 10 and pledge
    6.  Under every interleaving of their requests both are told the pledge
    succeeded and the ledger holds 12 against a need of 10.  When the two
    are NGOs that do not run the camp the need row stays at 0; when they are
    two sessions of an account that runs it, the row ends at 6, partial. *)
Theorem concurrent_pledges_both_succeed :
  Forall
    (fun schedule =>
       let '(db, pa, pb) :=
         NGODashboard.run schedule
           (Scenario.session "ngo-a" "as-1"
              (Scenario.snapshot "need-1" "camp-1" 0) "6")
           (Scenario.session "ngo-b" "as-2"
              (Scenario.snapshot "need-1" "camp-1" 0) "6")
           (Scenario.fresh, NGODashboard.Submitted, NGODashboard.Submitted) in
       pa = NGODashboard.Done
              (toast_success "Assistance pledged successfully!")
       /\ pb = NGODashboard.Done
                 (toast_success "Assistance pledged successfully!")
       /\ pledgedTotal db "need-1" = 12
       /\ needRow db "need-1"
          = Some (Scenario.need "need-1" "camp-1" 10 0 "pending"))
    NGODashboard.interleavings
  /\ Forall
       (fun schedule =>
          let '(db, pa, pb) :=
            NGODashboard.run schedule
              (Scenario.session "relief-org" "as-1"
                 (Scenario.snapshot "need-2" "camp-2" 0) "6")
              (Scenario.session "relief-org" "as-2"
                 (Scenario.snapshot "need-2" "camp-2" 0) "6")
              (Scenario.fresh, NGODashboard.Submitted, NGODashboard.Submitted) in
          pa = NGODashboard.Done
                 (toast_success "Assistance pledged successfully!")
          /\ pb = NGODashboard.Done
                    (toast_success "Assistance pledged successfully!")
          /\ pledgedTotal db "need-2" = 12
          /\ needRow db "need-2"
             = Some (Scenario.need "need-2" "camp-2" 10 6 "partial"))
       NGODashboard.interleavings.
Proof.
  split; unfold NGODashboard.interleavings;
    repeat (constructor; [vm_compute; repeat split|]); constructor.
Qed.

(** One session run to its end is the handler. *)
Lemma run_alone_is_handler :
  forall db user new_id sel fd view,
    NGODashboard.selectedNeed view = Some sel ->
    let s := {| NGODashboard.s_user := user; NGODashboard.s_new_id := new_id;
                NGODashboard.s_need := sel; NGODashboard.s_form := fd |} in
    let out := NGODashboard.handleProvideAssistance db user new_id view fd in
    NGODashboard.run [NGODashboard.First; NGODashboard.First] s s
      (db, NGODashboard.Submitted, NGODashboard.Submitted)
    = (NGODashboard.db_after out,
       match NGODashboard.toast out with
       | Some t => NGODashboard.Done t
       | None => NGODashboard.Submitted
       end,
       NGODashboard.Submitted).
Proof.
  intros db user new_id sel fd view Hsel s out. subst s out.
  unfold NGODashboard.handleProvideAssistance. rewrite Hsel.
  cbn [NGODashboard.run NGODashboard.step NGODashboard.s_user
       NGODashboard.s_new_id NGODashboard.s_need NGODashboard.s_form].
  destruct (NGODashboard.requestInsert db user new_id sel fd)
    as [msg|[db1 pending]]; reflexivity.
Qed.

(** *** The status written by a pledge *)

(** C3, as amended. After a pledge on a selected need, with a quantity
    field that parses to a number, every row of camp_needs is either a row
    that was there before, unchanged, or a row of the pledged need that the
    update reached.  A reached row carries quantity_fulfilled = the
    snapshot's quantity_fulfilled + the pledged quantity and the status
    'fulfilled' or 'partial', never 'pending'.  Provided that new total is
    positive, its status is the function of (its quantity_fulfilled, the
    snapshot's quantity_needed), and so of its own (quantity_fulfilled,
    quantity_needed) whenever its quantity_needed is the snapshot's.  Under
    these two provisos (the new total is positive; every row of the pledged
    need has the snapshot's quantity_needed) needs that were in sync stay in
    sync. *)
Theorem status_in_sync_after_pledge :
  forall db user new_id view fd sel q,
    NGODashboard.selectedNeed view = Some sel ->
    Js.parseInt (NGODashboard.fd_quantity fd) = Js.Num q ->
    let out := NGODashboard.handleProvideAssistance db user new_id view fd in
    (forall n', In n' (Store.camp_needs (NGODashboard.db_after out)) ->
                In n' (Store.camp_needs db)
                \/ (Store.n_id n' = NGODashboard.id sel
                    /\ Store.n_quantity_fulfilled n'
                       = NGODashboard.quantity_fulfilled sel + q
                    /\ (Store.n_status n' = "fulfilled"
                        \/ Store.n_status n' = "partial")
                    /\ (0 < NGODashboard.quantity_fulfilled sel + q ->
                        Store.n_status n'
                        = needStatus (Store.n_quantity_fulfilled n')
                                     (NGODashboard.quantity_needed sel))
                    /\ (0 < NGODashboard.quantity_fulfilled sel + q ->
                        Store.n_quantity_needed n'
                        = NGODashboard.quantity_needed sel ->
                        in_sync n')))
    /\ (0 < NGODashboard.quantity_fulfilled sel + q ->
        (forall n, In n (Store.camp_needs db) ->
                   Store.n_id n = NGODashboard.id sel ->
                   Store.n_quantity_needed n = NGODashboard.quantity_needed sel) ->
        Forall in_sync (Store.camp_needs db) ->
        Forall in_sync (Store.camp_needs (NGODashboard.db_after out))).
Proof.
  intros db user new_id view fd sel q Hsel Hq out.
  assert (Hwritten : 0 < NGODashboard.quantity_fulfilled sel + q ->
                     NGODashboard.newStatus sel q
                     = needStatus (NGODashboard.quantity_fulfilled sel + q)
                                  (NGODashboard.quantity_needed sel)).
  { intro Hpos.
    unfold NGODashboard.newStatus, NGODashboard.newFulfilled, needStatus.
    destruct (NGODashboard.quantity_fulfilled sel + q
              >=? NGODashboard.quantity_needed sel); [reflexivity|].
    replace (NGODashboard.quantity_fulfilled sel + q >? 0) with true;
      [reflexivity|].
    symmetry. rewrite Z.gtb_ltb. apply Z.ltb_lt. exact Hpos. }
  assert (Hrows : forall n',
             In n' (Store.camp_needs (NGODashboard.db_after out)) ->
             In n' (Store.camp_needs db)
             \/ (exists n, In n (Store.camp_needs db)
                           /\ Store.n_id n = NGODashboard.id sel
                           /\ n' = Store.set_fulfilment
                                     (NGODashboard.quantity_fulfilled sel + q)
                                     (NGODashboard.newStatus sel q) n)).
  { subst out. unfold NGODashboard.handleProvideAssistance. rewrite Hsel.
    destruct (NGODashboard.requestInsert db user new_id sel fd)
      as [msg|[db1 pending]] eqn:Hins; [intros n' Hin; left; exact Hin|].
    apply requestInsert_inr in Hins as (u & q' & _ & Hq' & _ & _ & -> & ->).
    assert (q' = q) by congruence. subst q'.
    cbn [NGODashboard.db_after]. rewrite requestUpdate_spec.
    destruct (Store.in_int4 (NGODashboard.newFulfilled sel q));
      [|intros n' Hin; left; exact Hin].
    cbn [Store.with_camp_needs Store.camp_needs].
    intros n' Hin. apply in_map_iff in Hin as (n & Hn' & Hin).
    destruct (Store.camp_needs_touched _ u (NGODashboard.id sel) n) eqn:Ht;
      [|left; subst n'; exact Hin].
    right. exists n. unfold Store.camp_needs_touched in Ht.
    apply andb_true_iff in Ht as [Hid _]. apply String.eqb_eq in Hid.
    split; [exact Hin|]. split; [exact Hid|]. symmetry. exact Hn'. }
  split.
  - intros n' Hin.
    destruct (Hrows n' Hin) as [Hold|(n & Hn & Hid & ->)]; [left; exact Hold|].
    right. unfold in_sync.
    cbn [Store.set_fulfilment Store.n_id Store.n_quantity_fulfilled
         Store.n_quantity_needed Store.n_status].
    split; [exact Hid|]. split; [reflexivity|]. split; [|split].
    + unfold NGODashboard.newStatus.
      destruct (NGODashboard.newFulfilled sel q
                >=? NGODashboard.quantity_needed sel); auto.
    + exact Hwritten.
    + intros Hpos Hneeded. rewrite Hneeded. apply Hwritten. exact Hpos.
  - intros Hpos Hneeded Hsync. apply Forall_forall. intros n' Hin.
    rewrite Forall_forall in Hsync.
    destruct (Hrows n' Hin) as [Hold|(n & Hn & Hid & ->)];
      [apply Hsync; exact Hold|].
    unfold in_sync.
    cbn [Store.set_fulfilment Store.n_quantity_fulfilled
         Store.n_quantity_needed Store.n_status].
    rewrite (Hneeded n Hn Hid). apply Hwritten. exact Hpos.
Qed.

Lemma status_in_sync_after_pledge_witness :
  Forall in_sync
    (Store.camp_needs
       (NGODashboard.db_after
          (NGODashboard.handleProvideAssistance
             (Scenario.store 0 "pending" 6 "partial") (Some "relief-org") "as-1"
             (Scenario.dialog (Scenario.snapshot "need-2" "camp-2" 6))
             (Scenario.form "4")))).
Proof.
  apply (status_in_sync_after_pledge
           (Scenario.store 0 "pending" 6 "partial") (Some "relief-org") "as-1"
           (Scenario.dialog (Scenario.snapshot "need-2" "camp-2" 6))
           (Scenario.form "4") (Scenario.snapshot "need-2" "camp-2" 6) 4).
  - reflexivity.
  - reflexivity.
  - simpl. lia.
  - intros n [<-|[<-|[]]] Hid; [discriminate Hid|reflexivity].
  - repeat constructor.
Defined.

(** C3, as stated, fails in two ways.  A pledge that leaves the total at 0
    gives the row status partial where the rule gives pending.  And the
    status is computed from the snapshot's quantity_needed: from a snapshot
    that needs 5 where the row needs 10, a pledge of 5 leaves the row at 5
    of 10 with status fulfilled, where the rule gives partial. *)
Lemma zero_pledge_marks_partial :
  (Scenario.succeeded
     (Scenario.pledge Scenario.fresh "relief-org"
        (Scenario.snapshot "need-2" "camp-2" 0) "0")
   /\ needRow
        (NGODashboard.db_after
           (Scenario.pledge Scenario.fresh "relief-org"
              (Scenario.snapshot "need-2" "camp-2" 0) "0")) "need-2"
      = Some (Scenario.need "need-2" "camp-2" 10 0 "partial")
   /\ needStatus 0 10 = "pending"
   /\ ~ in_sync (Scenario.need "need-2" "camp-2" 10 0 "partial"))
  /\ (Scenario.succeeded
        (Scenario.pledge Scenario.fresh "relief-org"
           (Scenario.snapshotNeeding "need-2" "camp-2" 5 0) "5")
      /\ needRow
           (NGODashboard.db_after
              (Scenario.pledge Scenario.fresh "relief-org"
                 (Scenario.snapshotNeeding "need-2" "camp-2" 5 0) "5")) "need-2"
         = Some (Scenario.need "need-2" "camp-2" 10 5 "fulfilled")
      /\ needStatus 5 10 = "partial"
      /\ ~ in_sync (Scenario.need "need-2" "camp-2" 10 5 "fulfilled")).
Proof. vm_compute. repeat split; discriminate. Qed.

(** *** Changes to a ledger entry *)






(** *** Searching the list of camps *)

Lemma prefix_append :
  forall t h, String.prefix t h = true <-> exists b, h = t ++ b.
Proof.
  induction t as [|c t IH]; intros h.
  - split; [intros _; exists h; reflexivity|intros _; destruct h; reflexivity].
  - destruct h as [|d h]; cbn [String.prefix].
    + split; [discriminate|intros (b & Hb); discriminate Hb].
    + destruct (Ascii.ascii_dec c d) as [->|Hne].
      * rewrite IH. split; intros (b & Hb); exists b.
        -- cbn. rewrite Hb. reflexivity.
        -- cbn in Hb. injection Hb as Hb. exact Hb.
      * split; [discriminate|]. intros (b & Hb). cbn in Hb. injection Hb as Hc _.
        congruence.
Qed.

Lemma includes_occurs :
  forall h t, Js.includes h t = true <-> exists a b, h = a ++ t ++ b.
Proof.
  unfold Js.includes. induction h as [|c h IH]; intros t.
  - cbn [String.index]. destruct t as [|d t].
    + split; [intros _; exists "", ""; reflexivity|reflexivity].
    + split; [discriminate|]. intros (a & b & Hab).
      destruct a; discriminate Hab.
  - cbn [String.index].
    destruct (String.prefix t (String c h)) eqn:Hp.
    + split; [intros _|reflexivity].
      apply prefix_append in Hp as (b & Hb). exists "", b. exact Hb.
    + specialize (IH t). destruct (String.index 0 t h) as [n|].
      * split; [intros _|reflexivity].
        destruct IH as [IH _]. destruct (IH eq_refl) as (a & b & Hab).
        exists (String c a), b. cbn. rewrite Hab. reflexivity.
      * split; [discriminate|]. intros (a & b & Hab).
        destruct a as [|c' a].
        -- cbn in Hab. assert (String.prefix t (String c h) = true)
             by (apply prefix_append; exists b; exact Hab). congruence.
        -- cbn in Hab. injection Hab as _ Hab.
           destruct IH as [_ IH]. discriminate IH. exists a, b. exact Hab.
Qed.

(** X1. With an empty search box every camp of the list is shown, in the
    order of the list, whatever the case folding does to other strings. *)
Theorem filteredCamps_empty_term :
  forall (F : JsString.CaseFolding) camps,
    UserDashboardList.filteredCamps F camps "" = camps.
Proof.
  intros F camps. unfold UserDashboardList.filteredCamps.
  induction camps as [|camp camps IH]; [reflexivity|].
  cbn [filter].
  replace (UserDashboardList.matches F "" camp) with true;
    [rewrite IH; reflexivity|].
  symmetry. unfold UserDashboardList.matches. apply orb_true_iff. left.
  rewrite (JsString.toLowerCase_ascii F "" eq_refl).
  apply includes_occurs.
  exists "", (JsString.toLowerCase F (UserDashboard.name camp)). reflexivity.
Qed.

Lemma filteredCamps_empty_term_witness :
  UserDashboardList.filteredCamps JsString.asciiFolding
    [Scenario.card 50 49; Scenario.card 50 50] ""
  = [Scenario.card 50 49; Scenario.card 50 50].
Proof.
  apply (filteredCamps_empty_term JsString.asciiFolding
           [Scenario.card 50 49; Scenario.card 50 50]).
Defined.

(** *** Ordered queries *)

Lemma insertDesc_perm :
  forall (A : Type) (leb : A -> A -> bool) x l,
    Permutation (Query.insertDesc leb x l) (x :: l).
Proof.
  intros A leb x l. induction l as [|y l IH]; [reflexivity|].
  cbn [Query.insertDesc]. destruct (leb y x); [reflexivity|].
  rewrite IH. apply perm_swap.
Qed.

Lemma orderDesc_perm :
  forall (A : Type) (leb : A -> A -> bool) l,
    Permutation (Query.orderDesc leb l) l.
Proof.
  intros A leb l. induction l as [|x l IH]; [reflexivity|].
  cbn [Query.orderDesc fold_right]. rewrite insertDesc_perm.
  apply perm_skip. exact IH.
Qed.

Lemma orderDesc_sorted :
  forall (A : Type) (leb : A -> A -> bool),
    (forall a b, leb a b = true \/ leb b a = true) ->
    (forall a b c, leb a b = true -> leb b c = true -> leb a c = true) ->
    forall l, StronglySorted (fun a b => leb b a = true) (Query.orderDesc leb l).
Proof.
  intros A leb Htotal Htrans l. induction l as [|x l IH]; [constructor|].
  cbn [Query.orderDesc fold_right]. fold (Query.orderDesc leb l).
  induction IH as [|y rest Hrest IHrest Hy]; cbn [Query.insertDesc].
  - constructor; constructor.
  - destruct (leb y x) eqn:Hyx.
    + constructor; [constructor; assumption|].
      constructor; [exact Hyx|].
      apply Forall_forall. intros z Hz. rewrite Forall_forall in Hy.
      apply (Htrans z y x); [apply Hy; exact Hz|exact Hyx].
    + constructor; [exact IHrest|].
      apply Forall_forall. intros z Hz.
      apply (Permutation_in _ (insertDesc_perm A leb x rest)) in Hz.
      destruct Hz as [<-|Hz].
      * destruct (Htotal x y) as [H|H]; [exact H|congruence].
      * rewrite Forall_forall in Hy. apply Hy. exact Hz.
Qed.

Lemma string_leb_trans :
  forall a b c,
    String.leb a b = true -> String.leb b c = true -> String.leb a c = true.
Proof.
  intros a b c. unfold String.leb.
  change String.compare with String_as_OT.cmp.
  destruct (String_as_OT.cmp a b) eqn:Hab; try discriminate;
    destruct (String_as_OT.cmp b c) eqn:Hbc; try discriminate; intros _ _.
  - apply String_as_OT.cmp_eq in Hab, Hbc. subst.
    replace (String_as_OT.cmp c c) with Eq; [reflexivity|].
    symmetry. apply String_as_OT.cmp_eq. reflexivity.
  - apply String_as_OT.cmp_eq in Hab. subst. rewrite Hbc. reflexivity.
  - apply String_as_OT.cmp_eq in Hbc. subst. rewrite Hab. reflexivity.
  - apply String_as_OT.cmp_lt in Hab, Hbc.
    pose proof (String_as_OT.lt_trans _ _ _ Hab Hbc) as H.
    apply String_as_OT.cmp_lt in H. rewrite H. reflexivity.
Qed.

Lemma orderDesc_byText_sorted :
  forall (A : Type) (key : A -> string) l,
    StronglySorted (fun a b => String.leb (key b) (key a) = true)
                   (Query.orderDesc (Query.byText key) l).
Proof.
  intros A key l.
  apply (orderDesc_sorted A (Query.byText key)); unfold Query.byText.
  - intros a b. apply String.leb_total.
  - intros a b c. apply string_leb_trans.
Qed.

Lemma orderDesc_byNumber_sorted :
  forall (A : Type) (key : A -> Z) l,
    StronglySorted (fun a b => key b <= key a)
                   (Query.orderDesc (Query.byNumber key) l).
Proof.
  intros A key l.
  assert (H : StronglySorted (fun a b => Query.byNumber key b a = true)
                (Query.orderDesc (Query.byNumber key) l)).
  { apply orderDesc_sorted; unfold Query.byNumber.
    - intros a b. rewrite !Z.leb_le. lia.
    - intros a b c. rewrite !Z.leb_le. lia. }
  induction H as [|x rest Hrest IH Hx]; constructor; [exact IH|].
  eapply Forall_impl; [|exact Hx]. intros a Ha. apply Z.leb_le. exact Ha.
Qed.

Lemma StronglySorted_map :
  forall (A B : Type) (f : A -> B) (R : A -> A -> Prop) (S : B -> B -> Prop),
    (forall a b, R a b -> S (f a) (f b)) ->
    forall l, StronglySorted R l -> StronglySorted S (map f l).
Proof.
  intros A B f R S HRS l H.
  induction H as [|x rest Hrest IH Hx]; cbn [map]; constructor; [exact IH|].
  apply Forall_forall. intros b Hb. apply in_map_iff in Hb as (a & <- & Ha).
  apply HRS. rewrite Forall_forall in Hx. apply Hx. exact Ha.
Qed.

(** In a list sorted by a relation, an element stands in the relation to
    every element after it. *)
Lemma StronglySorted_later :
  forall (A : Type) (R : A -> A -> Prop) l1 a l2 b,
    StronglySorted R (l1 ++ a :: l2) -> In b l2 -> R a b.
Proof.
  intros A R l1 a l2 b. induction l1 as [|x l1 IH]; cbn [app]; intros H Hb.
  - apply StronglySorted_inv in H as [_ H]. rewrite Forall_forall in H.
    apply H. exact Hb.
  - apply StronglySorted_inv in H as [H _]. apply IH; assumption.
Qed.

(** The four urgencies in text order: critical, high, low, medium. *)
Lemma urgency_below_critical :
  forall u, Store.check_urgency u = true ->
            String.leb u "critical" = true -> u = "critical".
Proof.
  intros u Hu Hle. unfold Store.check_urgency, Store.mem in Hu.
  cbn [existsb] in Hu. rewrite !orb_true_iff in Hu.
  destruct Hu as [H|[H|[H|[H|H]]]]; try discriminate H;
    apply String.eqb_eq in H; subst u; [discriminate Hle..|reflexivity].
Qed.

Lemma urgency_above_medium :
  forall u, Store.check_urgency u = true ->
            String.leb "medium" u = true -> u = "medium".
Proof.
  intros u Hu Hle. unfold Store.check_urgency, Store.mem in Hu.
  cbn [existsb] in Hu. rewrite !orb_true_iff in Hu.
  destruct Hu as [H|[H|[H|[H|H]]]]; try discriminate H;
    apply String.eqb_eq in H; subst u;
    first [reflexivity | discriminate Hle].
Qed.

(** X3. [fetchNeeds] of the camp dashboard returns exactly the needs of the
    camp asked for, each once, in descending text order of urgency.  With
    the four urgencies the schema allows, that order puts medium first and
    critical last: nothing listed after a critical need is other than
    critical, and nothing listed before a medium need is other than
    medium. *)
Theorem fetchNeeds_alphabetical :
  forall db campId,
    Permutation
      (CampDashboardState.fetchNeeds db campId)
      (map CampDashboardState.asNeed
           (filter (fun n => String.eqb (Store.n_camp_id n) campId)
                   (Store.camp_needs db)))
    /\ StronglySorted
         (fun a b => String.leb (CampDashboardState.urgency b)
                                (CampDashboardState.urgency a) = true)
         (CampDashboardState.fetchNeeds db campId)
    /\ (forall l1 a l2 b,
           CampDashboardState.fetchNeeds db campId = (l1 ++ a :: l2)%list ->
           In b l2 ->
           (Store.check_urgency (CampDashboardState.urgency b) = true ->
            CampDashboardState.urgency a = "critical" ->
            CampDashboardState.urgency b = "critical")
           /\ (Store.check_urgency (CampDashboardState.urgency a) = true ->
               CampDashboardState.urgency b = "medium" ->
               CampDashboardState.urgency a = "medium")).
Proof.
  intros db campId.
  assert (Hsorted : StronglySorted
                      (fun a b => String.leb (CampDashboardState.urgency b)
                                             (CampDashboardState.urgency a) = true)
                      (CampDashboardState.fetchNeeds db campId)).
  { unfold CampDashboardState.fetchNeeds.
    eapply StronglySorted_map; [|apply orderDesc_byText_sorted].
    intros a b H. exact H. }
  split; [|split; [exact Hsorted|]].
  - unfold CampDashboardState.fetchNeeds. apply Permutation_map.
    apply orderDesc_perm.
  - intros l1 a l2 b Hl Hb. rewrite Hl in Hsorted.
    pose proof (StronglySorted_later _ _ _ _ _ _ Hsorted Hb) as Hle.
    cbn beta in Hle. split.
    + intros Hcheck Ha. rewrite Ha in Hle.
      apply urgency_below_critical; assumption.
    + intros Hcheck Hm. rewrite Hm in Hle.
      apply urgency_above_medium; assumption.
Qed.

(** *** What the NGO dashboard lists *)

Lemma embeddedCamp_none :
  forall db n,
    NGODashboardData.embeddedCamp db n = None
    <-> (forall c, In c (Store.camps db) ->
                   Store.c_id c = Store.n_camp_id n ->
                   Store.c_status c <> "active").
Proof.
  intros db n. unfold NGODashboardData.embeddedCamp.
  destruct (find _ _) as [c|] eqn:Hfind; cbn [option_map].
  - split; [discriminate|]. intro Hnone. exfalso.
    apply find_some in Hfind as [Hin Hid].
    apply filter_In in Hin as [Hin Hactive].
    apply String.eqb_eq in Hid, Hactive.
    exact (Hnone c Hin Hid Hactive).
  - split; [intros _|reflexivity]. intros c Hin Hid Hactive.
    assert (Hc : String.eqb (Store.c_id c) (Store.n_camp_id n) = false).
    { apply (find_none _ _ Hfind c). apply filter_In. split; [exact Hin|].
      unfold Store.camps_select_policy. rewrite Hactive. reflexivity. }
    rewrite Hid, String.eqb_refl in Hc. discriminate Hc.
Qed.


Lemma map_if_false :
  forall (A : Type) (test : A -> bool) (f : A -> A) l,
    (forall a, In a l -> test a = false) ->
    map (fun a => if test a then f a else a) l = l.
Proof.
  intros A test f l H. induction l as [|a l IH]; [reflexivity|].
  cbn [map]. rewrite (H a (or_introl eq_refl)), IH; [reflexivity|].
  intros b Hb. apply H. right. exact Hb.
Qed.

Lemma with_camp_needs_same :
  forall db, Store.with_camp_needs db (Store.camp_needs db) = db.
Proof. destruct db; reflexivity. Qed.

(** X5. When the sender of a pledge manages no row of the pledged need,
    the needs table is exactly as before: whatever the pledge form
    reported, the NGO dashboards go on listing the need with the same
    fulfilled quantity. *)
Theorem pledge_without_management_leaves_list :
  forall db user new_id view fd sel,
    NGODashboard.selectedNeed view = Some sel ->
    (forall u n, user = Some u -> In n (Store.camp_needs db) ->
                 Store.n_id n = NGODashboard.id sel ->
                 Store.camp_needs_manage_policy db u n = false) ->
    let db' := NGODashboard.db_after
                 (NGODashboard.handleProvideAssistance db user new_id view fd) in
    Store.camp_needs db' = Store.camp_needs db
    /\ NGODashboardData.fetchNeeds db' = NGODashboardData.fetchNeeds db.
Proof.
  intros db user new_id view fd sel Hsel Hpolicy db'.
  assert (Hneeds : Store.camp_needs db' = Store.camp_needs db
                   /\ Store.camps db' = Store.camps db).
  { subst db'. unfold NGODashboard.handleProvideAssistance. rewrite Hsel.
    destruct (NGODashboard.requestInsert db user new_id sel fd)
      as [msg|[db1 pending]] eqn:Hins; [split; reflexivity|].
    apply requestInsert_inr in Hins as (u & q & Hu & _ & _ & _ & -> & ->).
    cbn [NGODashboard.db_after]. rewrite requestUpdate_spec.
    destruct (Store.in_int4 (NGODashboard.newFulfilled sel q));
      [|split; reflexivity].
    cbn [Store.with_camp_needs Store.camp_needs Store.camps
         Store.with_ngo_assistance].
    split; [|reflexivity]. apply map_if_false.
    intros n Hin. unfold Store.camp_needs_touched.
    destruct (String.eqb_spec (Store.n_id n) (NGODashboard.id sel)) as [Hid|];
      [|reflexivity].
    cbn [andb]. exact (Hpolicy u n Hu Hin Hid). }
  destruct Hneeds as [Hneeds Hcamps]. split; [exact Hneeds|].
  unfold NGODashboardData.fetchNeeds, NGODashboardData.openNeeds.
  rewrite Hneeds. apply map_ext. intro n.
  unfold NGODashboardData.asNeedJson, NGODashboardData.embeddedCamp.
  rewrite Hcamps. reflexivity.
Qed.

(** The needs table after the handler: as before, or with the update
    applied to the rows of the need its sender manages. *)
Lemma pledge_needs_after :
  forall db user new_id view fd sel,
    NGODashboard.selectedNeed view = Some sel ->
    let db' := NGODashboard.db_after
                 (NGODashboard.handleProvideAssistance db user new_id view fd) in
    (NGODashboard.toast
       (NGODashboard.handleProvideAssistance db user new_id view fd)
     <> Some (toast_success "Assistance pledged successfully!")
     /\ db' = db)
    \/ (exists u q,
           user = Some u
           /\ Js.parseInt (NGODashboard.fd_quantity fd) = Js.Num q
           /\ Store.camps db' = Store.camps db
           /\ Store.camp_needs db'
              = if Store.in_int4 (NGODashboard.quantity_fulfilled sel + q)
                then map (fun n =>
                            if Store.camp_needs_touched db u
                                 (NGODashboard.id sel) n
                            then Store.set_fulfilment
                                   (NGODashboard.quantity_fulfilled sel + q)
                                   (NGODashboard.newStatus sel q) n
                            else n)
                         (Store.camp_needs db)
                else Store.camp_needs db).
Proof.
  intros db user new_id view fd sel Hsel db'. subst db'.
  unfold NGODashboard.handleProvideAssistance. rewrite Hsel.
  destruct (NGODashboard.requestInsert db user new_id sel fd)
    as [msg|[db1 pending]] eqn:Hins.
  - left. split; [discriminate|reflexivity].
  - right.
    apply requestInsert_inr in Hins as (u & q & Hu & Hq & _ & _ & -> & ->).
    exists u, q. cbn [NGODashboard.db_after]. rewrite requestUpdate_spec.
    unfold NGODashboard.newFulfilled.
    destruct (Store.in_int4 (NGODashboard.quantity_fulfilled sel + q));
      repeat split; auto.
Qed.

(** X6. When a pledge succeeds, its update is applied (the sender manages
    the rows of the need and the new total fits INTEGER) and the new total
    reaches the needed quantity of the snapshot, the need is gone from the
    list of the NGO dashboards; when the total stays below, the need is
    listed with the new total. *)
Theorem applied_pledge_updates_list :
  forall db u new_id view fd sel q,
    NGODashboard.selectedNeed view = Some sel ->
    Js.parseInt (NGODashboard.fd_quantity fd) = Js.Num q ->
    NGODashboard.toast
      (NGODashboard.handleProvideAssistance db (Some u) new_id view fd)
    = Some (toast_success "Assistance pledged successfully!") ->
    Store.in_int4 (NGODashboard.quantity_fulfilled sel + q) = true ->
    (forall n, In n (Store.camp_needs db) ->
               Store.n_id n = NGODashboard.id sel ->
               Store.camp_needs_manage_policy db u n = true) ->
    let db' := NGODashboard.db_after
                 (NGODashboard.handleProvideAssistance db (Some u) new_id view fd) in
    (NGODashboard.quantity_needed sel <= NGODashboard.quantity_fulfilled sel + q ->
     ~ In (NGODashboard.id sel)
          (map NGODashboardData.nj_id (NGODashboardData.fetchNeeds db')))
    /\ (NGODashboard.quantity_fulfilled sel + q < NGODashboard.quantity_needed sel ->
        forall j, In j (NGODashboardData.fetchNeeds db') ->
                  NGODashboardData.nj_id j = NGODashboard.id sel ->
                  NGODashboardData.nj_quantity_fulfilled j
                  = NGODashboard.quantity_fulfilled sel + q).
Proof.
  intros db u new_id view fd sel q Hsel Hq Hok Hrange Hmanage db'.
  destruct (pledge_needs_after db (Some u) new_id view fd sel Hsel)
    as [[Hfail _]|(u' & q' & Hu & Hq' & _ & Hneeds)]; [contradiction|].
  injection Hu as <-. assert (q' = q) by congruence. subst q'.
  fold db' in Hneeds. rewrite Hrange in Hneeds.
  assert (Hrows : forall n', In n' (NGODashboardData.openNeeds db') ->
                             Store.n_id n' = NGODashboard.id sel ->
                             Store.n_status n' <> "fulfilled"
                             /\ Store.n_status n' = NGODashboard.newStatus sel q
                             /\ Store.n_quantity_fulfilled n'
                                = NGODashboard.quantity_fulfilled sel + q).
  { intros n' Hin Hid. unfold NGODashboardData.openNeeds in Hin.
    apply (Permutation_in _ (orderDesc_perm _ _ _)) in Hin.
    apply filter_In in Hin as [Hin Hopen]. rewrite Hneeds in Hin.
    apply in_map_iff in Hin as (n & Hn' & Hin).
    assert (Hnid : Store.n_id n = NGODashboard.id sel).
    { subst n'. destruct (Store.camp_needs_touched db u (NGODashboard.id sel) n);
        exact Hid. }
    unfold Store.camp_needs_touched in Hn'.
    rewrite Hnid, String.eqb_refl, (Hmanage n Hin Hnid) in Hn'.
    cbn [andb] in Hn'. subst n'. cbn [Store.set_fulfilment Store.n_status
                                      Store.n_quantity_fulfilled] in *.
    repeat split. apply String.eqb_neq, negb_true_iff. exact Hopen. }
  split.
  - intros Hreached Hlisted. unfold NGODashboardData.fetchNeeds in Hlisted.
    rewrite map_map in Hlisted. apply in_map_iff in Hlisted as (n' & Hid & Hin).
    cbn [NGODashboardData.asNeedJson NGODashboardData.nj_id] in Hid.
    destruct (Hrows n' Hin Hid) as (Hopen & Hstatus & _).
    apply Hopen. rewrite Hstatus. unfold NGODashboard.newStatus,
      NGODashboard.newFulfilled.
    replace (NGODashboard.quantity_fulfilled sel + q
             >=? NGODashboard.quantity_needed sel) with true; [reflexivity|].
    symmetry. rewrite Z.geb_leb. apply Z.leb_le. exact Hreached.
  - intros _ j Hj Hid. unfold NGODashboardData.fetchNeeds in Hj.
    apply in_map_iff in Hj as (n' & <- & Hin).
    cbn [NGODashboardData.asNeedJson NGODashboardData.nj_id
         NGODashboardData.nj_quantity_fulfilled] in *.
    apply (Hrows n' Hin Hid).
Qed.

(** X7. A pledge whose quantity is within the range of the form, made from
    a snapshot that agrees with the store on the need's quantities, never
    takes the need past what is needed: afterwards every row of the need
    has the snapshot's fulfilled quantity or more, at most the needed
    quantity, and a row the update reached is in sync with the status
    rule. *)
Theorem in_range_pledge_from_fresh_snapshot :
  forall db user new_id view fd sel q,
    NGODashboard.selectedNeed view = Some sel ->
    Js.parseInt (NGODashboard.fd_quantity fd) = Js.Num q ->
    NGODashboard.withinInputRange sel q = true ->
    0 <= NGODashboard.quantity_fulfilled sel ->
    (forall n, In n (Store.camp_needs db) ->
               Store.n_id n = NGODashboard.id sel ->
               Store.n_quantity_needed n = NGODashboard.quantity_needed sel
               /\ Store.n_quantity_fulfilled n
                  = NGODashboard.quantity_fulfilled sel) ->
    let db' := NGODashboard.db_after
                 (NGODashboard.handleProvideAssistance db user new_id view fd) in
    forall n', In n' (Store.camp_needs db') ->
               Store.n_id n' = NGODashboard.id sel ->
               NGODashboard.quantity_fulfilled sel <= Store.n_quantity_fulfilled n'
               /\ Store.n_quantity_fulfilled n' <= Store.n_quantity_needed n'
               /\ (In n' (Store.camp_needs db)
                   \/ (Store.n_quantity_fulfilled n'
                       = NGODashboard.quantity_fulfilled sel + q
                       /\ in_sync n')).
Proof.
  intros db user new_id view fd sel q Hsel Hq Hin_range Hnonneg Hfresh db' n'
         Hin Hid.
  unfold NGODashboard.withinInputRange, NGODashboard.quantityMin,
    NGODashboard.quantityMax in Hin_range.
  apply andb_true_iff in Hin_range as [Hmin Hmax].
  apply Z.leb_le in Hmin, Hmax.
  assert (Hold : forall n, In n (Store.camp_needs db) ->
                           Store.n_id n = NGODashboard.id sel ->
                           NGODashboard.quantity_fulfilled sel
                           <= Store.n_quantity_fulfilled n
                           /\ Store.n_quantity_fulfilled n
                              <= Store.n_quantity_needed n).
  { intros n Hn Hnid. destruct (Hfresh n Hn Hnid) as [-> ->]. lia. }
  destruct (pledge_needs_after db user new_id view fd sel Hsel)
    as [[_ Hsame]|(u & q' & _ & Hq' & _ & Hneeds)].
  - fold db' in Hsame. rewrite Hsame in Hin. destruct (Hold n' Hin Hid). auto.
  - fold db' in Hneeds. assert (q' = q) by congruence. subst q'.
    destruct (Store.in_int4 (NGODashboard.quantity_fulfilled sel + q)).
    + rewrite Hneeds in Hin. apply in_map_iff in Hin as (n & Hn' & Hn).
      destruct (Store.camp_needs_touched db u (NGODashboard.id sel) n) eqn:Ht.
      * subst n'. cbn [Store.set_fulfilment Store.n_id] in Hid.
        destruct (Hfresh n Hn Hid) as [Hneeded _].
        unfold in_sync.
        cbn [Store.set_fulfilment Store.n_quantity_fulfilled
             Store.n_quantity_needed Store.n_status].
        rewrite Hneeded. repeat split; try lia. right. split; [reflexivity|].
        unfold NGODashboard.newStatus, NGODashboard.newFulfilled, needStatus.
        destruct (NGODashboard.quantity_fulfilled sel + q
                  >=? NGODashboard.quantity_needed sel); [reflexivity|].
        replace (NGODashboard.quantity_fulfilled sel + q >? 0) with true;
          [reflexivity|].
        symmetry. rewrite Z.gtb_ltb. apply Z.ltb_lt. lia.
      * subst n'. destruct (Hold n Hn Hid). auto.
    + rewrite Hneeds in Hin. destruct (Hold n' Hin Hid). auto.
Qed.

(** *** Creating a camp *)

Lemma insert_camps_inr :
  forall db uid new_id body db1 row,
    Statements.insert_camps db uid new_id body = inr (db1, row) ->
    exists cap occ,
      Statements.ci_total_capacity body = Js.Num cap
      /\ Statements.ci_occupied_seats body = Js.Num occ
      /\ Store.in_int4 cap = true /\ Store.in_int4 occ = true
      /\ Statements.ci_camp_admin_id body = uid
      /\ Store.has_role db uid Store.role_camp = true
      /\ Store.camp_exists db new_id = false
      /\ row = Statements.new_camp_row new_id body
      /\ db1 = Statements.with_camps db (Store.camps db ++ [row]).
Proof.
  intros db uid new_id body db1 row. unfold Statements.insert_camps.
  destruct (Store.in_int4 _ && Store.in_int4 _) eqn:Hrange; [|discriminate].
  cbn [negb].
  destruct (Statements.camps_insert_policy db uid _ && _) eqn:Hpol;
    [|discriminate]. cbn [negb].
  destruct (Statements.is_null _ || Statements.is_null _) eqn:Hnull;
    [discriminate|].
  destruct (negb (Store.check_camp_status _)); [discriminate|].
  destruct (Store.camp_exists db new_id) eqn:Hfree; [discriminate|].
  destruct (negb (Store.profile_exists db _)); [discriminate|].
  intro H. injection H as <- <-.
  apply orb_false_iff in Hnull as [Hn1 Hn2].
  apply andb_true_iff in Hrange as [Hr1 Hr2].
  apply andb_true_iff in Hpol as [Hpol _].
  unfold Statements.camps_insert_policy in Hpol.
  apply andb_true_iff in Hpol as [Hself Hrole].
  apply String.eqb_eq in Hself. cbn in Hself.
  cbn [Statements.new_camp_row Store.c_total_capacity Store.c_occupied_seats]
    in Hr1, Hr2.
  destruct (Statements.ci_total_capacity body) as [|cap]; [discriminate|].
  destruct (Statements.ci_occupied_seats body) as [|occ]; [discriminate|].
  exists cap, occ. repeat split; auto.
Qed.

Lemma or_else_message :
  forall e fallback, or_else (Store.message e) fallback = Store.message e.
Proof. destruct e; reflexivity. Qed.

(** X8. Creating a camp fails, with an error shown and the store and the
    dashboard left as they were, whenever nobody is signed in, the user's
    profile role is not camp, or the capacity or the occupied-seats field
    does not parse to a number. *)
Theorem create_camp_rejected :
  forall db user new_id view fd,
    (user = None
     \/ (exists u, user = Some u
                   /\ Store.has_role db u Store.role_camp = false)
     \/ Js.parseInt (CampDashboardState.cf_capacity fd) = Js.NaN
     \/ Js.parseInt (CampDashboardState.cf_occupied fd) = Js.NaN) ->
    exists msg,
      CampDashboardState.handleCreateCamp db user new_id view fd
      = (db, view, toast_error msg).
Proof.
  intros db user new_id view fd Hwhy.
  unfold CampDashboardState.handleCreateCamp.
  destruct user as [u|]; [|eexists; reflexivity].
  destruct (Statements.insert_camps db u new_id _) as [e|[db1 row]] eqn:Hins;
    [eexists; reflexivity|].
  exfalso.
  apply insert_camps_inr in Hins
    as (cap & occ & Hcap & Hocc & _ & _ & _ & Hrole & _).
  cbn [CampDashboardState.campBody Statements.ci_total_capacity
       Statements.ci_occupied_seats] in Hcap, Hocc.
  destruct Hwhy as [H|[(u' & Hu & Hr)|[H|H]]]; congruence.
Qed.

(** X9. A signed-in user with the camp role creates a camp with any two
    32-bit integers as capacity and occupied seats, the occupied seats above
    the capacity or negative ones included: the camp is appended to the
    store as an active camp of that user, put at the head of the dashboard's
    list and selected, and the needs on display stay those of the camp
    selected before. *)
Theorem create_camp_accepts_any_seats :
  forall db u new_id view fd cap occ,
    Js.parseInt (CampDashboardState.cf_capacity fd) = Js.Num cap ->
    Js.parseInt (CampDashboardState.cf_occupied fd) = Js.Num occ ->
    Store.in_int4 cap = true -> Store.in_int4 occ = true ->
    Store.has_role db u Store.role_camp = true ->
    Store.camp_exists db new_id = false ->
    let row := {| Store.c_id := new_id; Store.c_camp_admin_id := u;
                  Store.c_name := CampDashboardState.cf_name fd;
                  Store.c_location := CampDashboardState.cf_location fd;
                  Store.c_total_capacity := cap;
                  Store.c_occupied_seats := occ;
                  Store.c_contact_phone := CampDashboardState.cf_phone fd;
                  Store.c_status := "active" |} in
    CampDashboardState.handleCreateCamp db (Some u) new_id view fd
    = (Statements.with_camps db (Store.camps db ++ [row]),
       {| CampDashboardState.camps :=
            CampDashboardState.asCamp row :: CampDashboardState.camps view;
          CampDashboardState.selectedCamp := Some (CampDashboardState.asCamp row);
          CampDashboardState.needs := CampDashboardState.needs view;
          CampDashboardState.showCampDialog := false;
          CampDashboardState.showNeedDialog :=
            CampDashboardState.showNeedDialog view;
          CampDashboardState.loading := CampDashboardState.loading view |},
       toast_success "Camp created successfully!").
Proof.
  intros db u new_id view fd cap occ Hcap Hocc Hrc Hro Hrole Hfree row.
  unfold CampDashboardState.handleCreateCamp, Statements.insert_camps,
    Statements.camps_insert_policy, Statements.new_camp_row,
    CampDashboardState.campBody.
  cbn [Statements.ci_total_capacity Statements.ci_occupied_seats
       Statements.ci_camp_admin_id Statements.ci_name Statements.ci_location
       Statements.ci_contact_phone Store.c_total_capacity
       Store.c_occupied_seats Store.c_camp_admin_id Store.c_status].
  rewrite Hcap, Hocc. cbn [Statements.int_of Statements.is_null].
  rewrite Hrc, Hro, String.eqb_refl, Hrole, Hfree,
    (has_role_profile_exists _ _ _ Hrole).
  reflexivity.
Qed.

Lemma orderDesc_newest_last :
  forall (A : Type) (key : A -> Z) x l,
    (forall y, In y l -> key y < key x) ->
    Query.orderDesc (Query.byNumber key) (l ++ [x])
    = x :: Query.orderDesc (Query.byNumber key) l.
Proof.
  intros A key x l Hnew. unfold Query.orderDesc. rewrite fold_right_app.
  cbn [fold_right Query.insertDesc].
  assert (H : forall acc,
             fold_right (Query.insertDesc (Query.byNumber key)) (x :: acc) l
             = x :: fold_right (Query.insertDesc (Query.byNumber key)) acc l).
  { induction l as [|y l IH]; intro acc; [reflexivity|].
    cbn [fold_right]. rewrite IH by (intros z Hz; apply Hnew; right; exact Hz).
    cbn [Query.insertDesc]. unfold Query.byNumber at 1.
    replace (key x <=? key y) with false; [reflexivity|].
    symmetry. apply Z.leb_gt. apply Hnew. left. reflexivity. }
  apply H.
Qed.

Lemma filter_snoc :
  forall (A : Type) (f : A -> bool) l x,
    filter f (l ++ [x]) = if f x then (filter f l ++ [x])%list else filter f l.
Proof.
  intros A f l x. rewrite filter_app. cbn [filter].
  destruct (f x); [reflexivity|apply app_nil_r].
Qed.

(** X10. Once a camp is created it is on every list: the citizens' list of
    camps, the NGOs' list of camps and its own administrator's list, and
    it is the camp selected in the administrator's dashboard.  When it is
    newer than every camp in the store and the dashboard's list was the
    fetched one, the list the handler builds by putting the camp in front
    is the list a new fetch returns. *)
Theorem created_camp_is_listed :
  forall created_at db u new_id view fd db' view' msg,
    CampDashboardState.handleCreateCamp db (Some u) new_id view fd
    = (db', view', toast_success msg) ->
    In new_id (map UserDashboard.id (UserDashboardList.fetchCamps created_at db'))
    /\ In new_id (map NGODashboardData.id (NGODashboardData.fetchCamps db'))
    /\ (exists c, CampDashboardState.selectedCamp view' = Some c
                  /\ CampDashboardState.id c = new_id
                  /\ In c (CampDashboardState.ownCamps created_at db' u))
    /\ ((forall c, In c (Store.camps db) ->
                   created_at (Store.c_id c) < created_at new_id) ->
        CampDashboardState.camps view
        = CampDashboardState.ownCamps created_at db u ->
        CampDashboardState.camps view'
        = CampDashboardState.ownCamps created_at db' u).
Proof.
  intros created_at db u new_id view fd db' view' msg Hrun.
  unfold CampDashboardState.handleCreateCamp in Hrun.
  destruct (Statements.insert_camps db u new_id _) as [e|[db1 row]] eqn:Hins;
    [discriminate|].
  injection Hrun as <- <- _.
  apply insert_camps_inr in Hins
    as (cap & occ & _ & _ & _ & _ & Hadmin & _ & _ & Hrow & ->).
  cbn [CampDashboardState.campBody Statements.ci_camp_admin_id] in Hadmin.
  assert (Hin : In row (filter Store.camps_select_policy
                          (Store.camps db ++ [row]))).
  { rewrite filter_snoc. subst row.
    change (Store.camps_select_policy (Statements.new_camp_row new_id _))
      with true. apply in_or_app. right. left. reflexivity. }
  assert (Hid : Store.c_id row = new_id) by (subst row; reflexivity).
  assert (Hactive : String.eqb (Store.c_status row) "active" = true)
    by (subst row; reflexivity).
  assert (Howner : String.eqb (Store.c_camp_admin_id row) u = true).
  { subst row. cbn [Statements.new_camp_row Store.c_camp_admin_id
                    CampDashboardState.campBody Statements.ci_camp_admin_id].
    apply String.eqb_refl. }
  cbn [Statements.with_camps Store.camps].
  split; [|split; [|split]].
  - unfold UserDashboardList.fetchCamps. rewrite map_map.
    cbn [Statements.with_camps Store.camps].
    apply in_map_iff. exists row. split; [exact Hid|].
    apply (Permutation_in _ (Permutation_sym (orderDesc_perm _ _ _))).
    apply filter_In. split; assumption.
  - unfold NGODashboardData.fetchCamps. rewrite map_map.
    cbn [Statements.with_camps Store.camps].
    apply in_map_iff. exists row. split; [exact Hid|].
    apply filter_In. split; assumption.
  - exists (CampDashboardState.asCamp row).
    cbn [CampDashboardState.selectedCamp]. split; [reflexivity|].
    split; [exact Hid|].
    unfold CampDashboardState.ownCamps.
    cbn [Statements.with_camps Store.camps].
    apply in_map.
    apply (Permutation_in _ (Permutation_sym (orderDesc_perm _ _ _))).
    apply filter_In. split; assumption.
  - intros Hnewest Hfetched. cbn [CampDashboardState.camps]. rewrite Hfetched.
    unfold CampDashboardState.ownCamps.
    cbn [Statements.with_camps Store.camps].
    rewrite !filter_snoc.
    replace (Store.camps_select_policy row) with true by (subst row; reflexivity).
    rewrite filter_snoc, Howner.
    rewrite orderDesc_newest_last; [reflexivity|].
    intros y Hy. apply filter_In in Hy as [Hy _].
    apply filter_In in Hy as [Hy _]. rewrite Hid. apply Hnewest. exact Hy.
Qed.

(** *** Adding a need *)

Lemma manage_policy_iff :
  forall db uid n,
    Store.camp_needs_manage_policy db uid n = true
    <-> exists c, In c (Store.camps db)
                  /\ Store.c_id c = Store.n_camp_id n
                  /\ Store.c_camp_admin_id c = uid
                  /\ Store.c_status c = "active".
Proof.
  intros db uid n. unfold Store.camp_needs_manage_policy.
  rewrite existsb_exists. split.
  - intros (c & Hin & Hc). apply filter_In in Hin as [Hin Hactive].
    apply andb_true_iff in Hc as [Hid Hadmin].
    apply String.eqb_eq in Hid, Hadmin, Hactive.
    exists c. auto.
  - intros (c & Hin & Hid & Hadmin & Hactive). exists c. split.
    + apply filter_In. split; [exact Hin|].
      unfold Store.camps_select_policy. rewrite Hactive. reflexivity.
    + rewrite Hid, Hadmin, !String.eqb_refl. reflexivity.
Qed.

Lemma insert_camp_needs_inr :
  forall db caller new_id body db1,
    Statements.insert_camp_needs db caller new_id body = inr db1 ->
    exists uid q,
      caller = Some uid
      /\ Statements.ni_quantity_needed body = Js.Num q
      /\ Store.in_int4 q = true
      /\ Store.camp_needs_manage_policy db uid
           (Statements.new_need_row new_id body) = true
      /\ Store.check_urgency (Statements.ni_urgency body) = true
      /\ Store.need_exists db new_id = false
      /\ db1 = Store.with_camp_needs db
                 (Store.camp_needs db ++ [Statements.new_need_row new_id body]).
Proof.
  intros db caller new_id body db1. unfold Statements.insert_camp_needs.
  destruct (Store.in_int4 _) eqn:Hrange; [|discriminate]. cbn [negb].
  destruct caller as [uid|]; [|discriminate].
  destruct (Store.camp_needs_manage_policy db uid _) eqn:Hpol; [|discriminate].
  cbn [negb].
  destruct (Statements.is_null _) eqn:Hnull; [discriminate|].
  destruct (Store.check_urgency _ && _) eqn:Hcheck; [|discriminate].
  cbn [negb].
  destruct (Store.need_exists db new_id) eqn:Hfree; [discriminate|].
  destruct (negb (Store.camp_exists db _)); [discriminate|].
  intro H. injection H as <-.
  apply andb_true_iff in Hcheck as [Hurgency _].
  cbn [Statements.new_need_row Store.n_quantity_needed Store.n_urgency]
    in Hrange, Hurgency.
  destruct (Statements.ni_quantity_needed body) as [|q]; [discriminate|].
  exists uid, q. repeat split; auto.
Qed.

(** X11. Adding a need fails, with an error shown and the store and the
    dashboard left as they were, whenever the request carries no user, the
    caller does not administer an active camp with the selected camp's id,
    the quantity does not parse to a number, or the urgency is not one of
    low, medium, high, critical. *)
Theorem add_need_rejected :
  forall db caller new_id view fd camp,
    CampDashboardState.selectedCamp view = Some camp ->
    (caller = None
     \/ (exists u, caller = Some u
                   /\ forall c, In c (Store.camps db) ->
                                Store.c_id c = CampDashboardState.id camp ->
                                Store.c_camp_admin_id c = u ->
                                Store.c_status c <> "active")
     \/ Js.parseInt (CampDashboardState.nf_quantity fd) = Js.NaN
     \/ Store.check_urgency (CampDashboardState.nf_urgency fd) = false) ->
    exists msg,
      CampDashboardState.handleAddNeed db caller new_id view fd
      = (db, view, Some (toast_error msg)).
Proof.
  intros db caller new_id view fd camp Hsel Hwhy.
  unfold CampDashboardState.handleAddNeed. rewrite Hsel.
  destruct (Statements.insert_camp_needs db caller new_id _) as [e|db1] eqn:Hins;
    [eexists; reflexivity|].
  exfalso.
  apply insert_camp_needs_inr in Hins
    as (uid & q & Hcaller & Hq & _ & Hpol & Hurgency & _).
  cbn [CampDashboardState.needBody Statements.ni_quantity_needed
       Statements.ni_urgency] in Hq, Hurgency.
  destruct Hwhy as [H|[(u & Hu & Hnone)|[H|H]]]; try congruence.
  assert (u = uid) by congruence. subst u.
  apply manage_policy_iff in Hpol as (c & Hin & Hid & Hadmin & Hactive).
  exact (Hnone c Hin Hid Hadmin Hactive).
Qed.

(** X12. The administrator of an active camp, with that camp selected, adds
    a need with any 32-bit quantity and an allowed urgency: the need is
    appended with quantity_fulfilled 0 and status pending, the dashboard
    shows the camp's needs as fetched anew, the new one among them, and the
    NGO dashboards list it together with its camp.  The new row is in sync
    with the status rule exactly when the quantity is positive. *)
Theorem add_need_accepted :
  forall db u new_id view fd camp q c,
    CampDashboardState.selectedCamp view = Some camp ->
    Js.parseInt (CampDashboardState.nf_quantity fd) = Js.Num q ->
    Store.in_int4 q = true ->
    Store.check_urgency (CampDashboardState.nf_urgency fd) = true ->
    Store.need_exists db new_id = false ->
    In c (Store.camps db) ->
    Store.c_id c = CampDashboardState.id camp ->
    Store.c_camp_admin_id c = u ->
    Store.c_status c = "active" ->
    let row := {| Store.n_id := new_id;
                  Store.n_camp_id := CampDashboardState.id camp;
                  Store.n_item_name := CampDashboardState.nf_item fd;
                  Store.n_quantity_needed := q;
                  Store.n_quantity_fulfilled := 0;
                  Store.n_urgency := CampDashboardState.nf_urgency fd;
                  Store.n_status := "pending" |} in
    let db' := Store.with_camp_needs db (Store.camp_needs db ++ [row]) in
    exists view',
      CampDashboardState.handleAddNeed db (Some u) new_id view fd
      = (db', view', Some (toast_success "Need added successfully!"))
      /\ CampDashboardState.needs view'
         = CampDashboardState.fetchNeeds db' (CampDashboardState.id camp)
      /\ In (CampDashboardState.asNeed row) (CampDashboardState.needs view')
      /\ CampDashboardState.showNeedDialog view' = false
      /\ (exists j, In j (NGODashboardData.fetchNeeds db')
                    /\ NGODashboardData.nj_id j = new_id
                    /\ NGODashboardData.nj_quantity_fulfilled j = 0
                    /\ NGODashboardData.toNeed j <> None)
      /\ (in_sync row <-> 0 < q).
Proof.
  intros db u new_id view fd camp q c Hsel Hq Hrange Hurgency Hfree Hin Hid
         Hadmin Hactive row db'.
  assert (Hpol : Store.camp_needs_manage_policy db u row = true).
  { apply manage_policy_iff. exists c. auto. }
  assert (Hcamp : Store.camp_exists db (CampDashboardState.id camp) = true).
  { unfold Store.camp_exists. apply existsb_exists. exists c.
    split; [exact Hin|]. rewrite Hid. apply String.eqb_refl. }
  assert (Hins : Statements.insert_camp_needs db (Some u) new_id
                   (CampDashboardState.needBody camp fd) = inr db').
  { unfold Statements.insert_camp_needs, Statements.new_need_row,
      CampDashboardState.needBody.
    cbn [Statements.ni_quantity_needed Statements.ni_urgency
         Statements.ni_camp_id Statements.ni_item_name
         Store.n_quantity_needed Store.n_urgency Store.n_status
         Store.n_camp_id].
    rewrite Hq. cbn [Statements.int_of Statements.is_null].
    fold row. rewrite Hrange, Hpol, Hurgency, Hfree, Hcamp. reflexivity. }
  unfold CampDashboardState.handleAddNeed. rewrite Hsel, Hins.
  eexists. split; [reflexivity|].
  cbn [CampDashboardState.needs CampDashboardState.showNeedDialog].
  split; [reflexivity|]. split; [|split; [reflexivity|split]].
  - unfold CampDashboardState.fetchNeeds. apply in_map.
    apply (Permutation_in _ (Permutation_sym (orderDesc_perm _ _ _))).
    apply filter_In. split.
    + subst db'. cbn [Store.with_camp_needs Store.camp_needs].
      apply in_or_app. right. left. reflexivity.
    + apply String.eqb_refl.
  - exists (NGODashboardData.asNeedJson db' row).
    split; [|split; [reflexivity|split; [reflexivity|]]].
    + unfold NGODashboardData.fetchNeeds. apply in_map.
      unfold NGODashboardData.openNeeds.
      apply (Permutation_in _ (Permutation_sym (orderDesc_perm _ _ _))).
      apply filter_In. split; [|reflexivity].
      subst db'. cbn [Store.with_camp_needs Store.camp_needs].
      apply in_or_app. right. left. reflexivity.
    + unfold NGODashboardData.toNeed. cbn [NGODashboardData.asNeedJson
                                            NGODashboardData.nj_camps].
      destruct (NGODashboardData.embeddedCamp db' row) eqn:Hemb;
        [discriminate|].
      exfalso.
      pose proof (proj1 (embeddedCamp_none db' row) Hemb) as Hnone.
      apply (Hnone c); auto.
  - unfold in_sync, needStatus, row.
    cbn [Store.n_status Store.n_quantity_fulfilled Store.n_quantity_needed].
    destruct (0 >=? q) eqn:Hge.
    + split; [discriminate|]. intro Hpos. exfalso.
      rewrite Z.geb_leb in Hge. apply Z.leb_le in Hge. lia.
    + split; [|reflexivity]. intros _.
      rewrite Z.geb_leb in Hge. apply Z.leb_gt in Hge. exact Hge.
Qed.

(** *** Profiles, signup and the page a session gets *)

Lemma filter_id_unique :
  forall (l : list Store.profiles_row) id,
    NoDup (map Store.p_id l) ->
    filter (fun p => String.eqb (Store.p_id p) id) l = []
    \/ exists p, In p l /\ Store.p_id p = id
                 /\ filter (fun p => String.eqb (Store.p_id p) id) l = [p].
Proof.
  intros l id. induction l as [|p l IH]; intro Hnd; [left; reflexivity|].
  cbn [map] in Hnd. apply NoDup_cons_iff in Hnd as [Hfresh Hnd].
  cbn [filter]. destruct (String.eqb_spec (Store.p_id p) id) as [Hid|Hid].
  - right. exists p. split; [left; reflexivity|]. split; [exact Hid|].
    f_equal. destruct (IH Hnd) as [Hnone|(p' & Hin & Hid' & _)];
      [exact Hnone|].
    exfalso. apply Hfresh. rewrite Hid, <- Hid'. apply in_map. exact Hin.
  - destruct (IH Hnd) as [Hnone|(p' & Hin & Hid' & Hone)]; [left; exact Hnone|].
    right. exists p'. split; [right; exact Hin|]. split; assumption.
Qed.

Lemma has_role_iff :
  forall db uid r,
    Store.has_role db uid r = true
    <-> exists p, In p (Store.profiles db)
                  /\ Store.p_id p = uid /\ Store.p_role p = r.
Proof.
  intros db uid r. unfold Store.has_role. rewrite existsb_exists.
  split; intros (p & Hin & H); exists p.
  - apply andb_true_iff in H as [Hid Hr]. apply String.eqb_eq in Hid.
    split; [exact Hin|]. split; [exact Hid|].
    destruct (Store.p_role p), r; try discriminate; reflexivity.
  - destruct H as [-> <-]. split; [exact Hin|].
    rewrite String.eqb_refl. destruct (Store.p_role p); reflexivity.
Qed.

(** X13. With profile ids unique, a freshly loaded page shows a signed-in
    user at most one dashboard, and shows the NGO, camp or citizen
    dashboard exactly when the store holds the user's profile with role
    ngo, camp or user; hence the NGO dashboard goes exactly to the users
    who pass the role test of the pledge policy.  A session without a
    profile gets no dashboard. *)
Theorem dashboard_follows_profile_role :
  forall db userId,
    NoDup (map Store.p_id (Store.profiles db)) ->
    let shown := Index.dashboards (Index.fetchUserRole db userId None) in
    (List.length shown <= 1)%nat
    /\ (In Index.ShowNGODashboard shown
        <-> Store.has_role db userId Store.role_ngo = true)
    /\ (In Index.ShowCampDashboard shown
        <-> Store.has_role db userId Store.role_camp = true)
    /\ (In Index.ShowUserDashboard shown
        <-> Store.has_role db userId Store.role_user = true)
    /\ (Store.profile_exists db userId = false -> shown = []).
Proof.
  intros db userId Hnd shown. subst shown. unfold Index.fetchUserRole.
  destruct (filter_id_unique _ userId Hnd) as [Hnone|(p & Hin & Hid & Hone)].
  - rewrite Hnone. cbn.
    assert (Hno : forall r, Store.has_role db userId r = true -> False).
    { intros r Hr. apply has_role_iff in Hr as (p & Hin & Hid & _).
      assert (Hf : In p (filter (fun p => String.eqb (Store.p_id p) userId)
                           (Store.profiles db))).
      { apply filter_In. split; [exact Hin|]. rewrite Hid.
        apply String.eqb_refl. }
      rewrite Hnone in Hf. exact Hf. }
    repeat split; try lia; try contradiction; intro H; exfalso;
      eapply Hno; exact H.
  - rewrite Hone.
    assert (Hrole : forall r, Store.has_role db userId r = true
                              <-> Store.p_role p = r).
    { intro r. rewrite has_role_iff. split.
      - intros (p' & Hin' & Hid' & Hr).
        assert (Hf : In p' (filter (fun p => String.eqb (Store.p_id p) userId)
                              (Store.profiles db))).
        { apply filter_In. split; [exact Hin'|]. rewrite Hid'.
          apply String.eqb_refl. }
        rewrite Hone in Hf. destruct Hf as [->|[]]. exact Hr.
      - intro Hr. exists p. auto. }
    assert (Hexists : Store.profile_exists db userId = true).
    { unfold Store.profile_exists. apply existsb_exists. exists p.
      split; [exact Hin|]. rewrite Hid. apply String.eqb_refl. }
    rewrite !Hrole, Hexists.
    destruct (Store.p_role p); cbn; repeat split; try lia;
      try discriminate; try (intros [H|[]]; discriminate H);
      try (intro; left; reflexivity); intro H; discriminate H.
Qed.

Lemma app_role_of_text_iff :
  forall s r, Statements.app_role_of_text s = Some r <-> s = Index.role_text r.
Proof.
  intros s r. unfold Statements.app_role_of_text.
  destruct (String.eqb_spec s "user") as [->|Hu];
    [destruct r; split; intro H; try discriminate H; reflexivity|].
  destruct (String.eqb_spec s "camp") as [->|Hc];
    [destruct r; split; intro H; try discriminate H; reflexivity|].
  destruct (String.eqb_spec s "ngo") as [->|Hn];
    [destruct r; split; intro H; try discriminate H; reflexivity|].
  split; [discriminate|]. intros ->. destruct r; contradiction.
Qed.

Lemma not_exists_filter_nil :
  forall db id,
    Store.profile_exists db id = false ->
    filter (fun p => String.eqb (Store.p_id p) id) (Store.profiles db) = [].
Proof.
  intros db id. unfold Store.profile_exists.
  induction (Store.profiles db) as [|p l IH]; [reflexivity|].
  cbn [existsb filter]. destruct (String.eqb (Store.p_id p) id);
    [discriminate|]. exact IH.
Qed.

Lemma not_taken :
  forall (A : Type) (key : A -> string) l id,
    existsb (fun a => String.eqb (key a) id) l = false ->
    ~ In id (map key l).
Proof.
  intros A key l id Hfree Hin. apply in_map_iff in Hin as (a & Hid & Hin).
  assert (existsb (fun a => String.eqb (key a) id) l = true).
  { apply existsb_exists. exists a. split; [exact Hin|]. rewrite Hid.
    apply String.eqb_refl. }
  congruence.
Qed.

Lemma NoDup_snoc :
  forall (A : Type) (l : list A) x, NoDup l -> ~ In x l -> NoDup (l ++ [x]).
Proof.
  intros A l x Hnd Hx. induction Hnd as [|y l Hy Hnd IH]; cbn [app].
  - constructor; [intros []|constructor].
  - constructor.
    + intro Hin. apply in_app_or in Hin as [Hin|[->|[]]]; [contradiction|].
      apply Hx. left. reflexivity.
    + apply IH. intro Hin. apply Hx. right. exact Hin.
Qed.

(** X14. The signup trigger gives a new user the role named in the signup
    data, and the role user when none is named; it fails on any other role
    text and on an id that already has a profile.  After a signup the index
    page shows that user the one dashboard of the role, and profile ids
    stay unique. *)
Theorem signup_creates_profile :
  forall db NEW,
    NoDup (map Store.p_id (Store.profiles db)) ->
    match Statements.handle_new_user db NEW with
    | inr db' =>
        exists r,
          (Statements.au_role NEW = None /\ r = Store.role_user
           \/ Statements.au_role NEW = Some (Index.role_text r))
          /\ Store.profiles db'
             = (Store.profiles db
                  ++ [ {| Store.p_id := Statements.au_id NEW;
                          Store.p_full_name :=
                            match Statements.au_full_name NEW with
                            | Some n => n
                            | None => "User"
                            end;
                          Store.p_phone := Statements.au_phone NEW;
                          Store.p_role := r |} ])%list
          /\ NoDup (map Store.p_id (Store.profiles db'))
          /\ Store.has_role db' (Statements.au_id NEW) r = true
          /\ Index.fetchUserRole db' (Statements.au_id NEW) None
             = Some (Index.role_text r)
    | inl Statements.InvalidEnumInput =>
        exists s, Statements.au_role NEW = Some s
                  /\ s <> "user" /\ s <> "camp" /\ s <> "ngo"
    | inl Statements.ProfileIdTaken =>
        Store.profile_exists db (Statements.au_id NEW) = true
    end.
Proof.
  intros db NEW Hnd. unfold Statements.handle_new_user.
  assert (Hok : forall r,
             (Statements.au_role NEW = None /\ r = Store.role_user
              \/ Statements.au_role NEW = Some (Index.role_text r)) ->
             match
               (if Store.profile_exists db (Statements.au_id NEW)
                then inl Statements.ProfileIdTaken
                else inr (Statements.with_profiles db
                            (Store.profiles db
                               ++ [ {| Store.p_id := Statements.au_id NEW;
                                       Store.p_full_name :=
                                         match Statements.au_full_name NEW with
                                         | Some n => n
                                         | None => "User"
                                         end;
                                       Store.p_role := r;
                                       Store.p_phone := Statements.au_phone NEW |} ]))
                : Statements.TriggerError + Store.Database)
             with
             | inr db' =>
                 exists r0,
                 (Statements.au_role NEW = None /\ r0 = Store.role_user
                  \/ Statements.au_role NEW = Some (Index.role_text r0))
                 /\ Store.profiles db'
                    = (Store.profiles db
                         ++ [ {| Store.p_id := Statements.au_id NEW;
                                 Store.p_full_name :=
                                   match Statements.au_full_name NEW with
                                   | Some n => n
                                   | None => "User"
                                   end;
                                 Store.p_phone := Statements.au_phone NEW;
                                 Store.p_role := r0 |} ])%list
                 /\ NoDup (map Store.p_id (Store.profiles db'))
                 /\ Store.has_role db' (Statements.au_id NEW) r0 = true
                 /\ Index.fetchUserRole db' (Statements.au_id NEW) None
                    = Some (Index.role_text r0)
             | inl Statements.InvalidEnumInput =>
                 exists s, Statements.au_role NEW = Some s
                           /\ s <> "user" /\ s <> "camp" /\ s <> "ngo"
             | inl Statements.ProfileIdTaken =>
                 Store.profile_exists db (Statements.au_id NEW) = true
             end).
  { intros r Hr.
    destruct (Store.profile_exists db (Statements.au_id NEW)) eqn:Hex;
      [reflexivity|].
    exists r. cbn [Statements.with_profiles Store.profiles].
    split; [exact Hr|]. split; [reflexivity|]. split; [|split].
    - rewrite map_app. apply NoDup_snoc; [exact Hnd|].
      apply not_taken. exact Hex.
    - apply has_role_iff.
      exists {| Store.p_id := Statements.au_id NEW;
                Store.p_full_name :=
                  match Statements.au_full_name NEW with
                  | Some n => n
                  | None => "User"
                  end;
                Store.p_phone := Statements.au_phone NEW;
                Store.p_role := r |}.
      split; [|split; reflexivity].
      cbn [Statements.with_profiles Store.profiles].
      apply in_or_app. right. left. reflexivity.
    - unfold Index.fetchUserRole.
      cbn [Statements.with_profiles Store.profiles].
      rewrite filter_app, (not_exists_filter_nil db _ Hex).
      cbn [filter app Store.p_id]. rewrite String.eqb_refl. reflexivity. }
  destruct (Statements.au_role NEW) as [s|] eqn:Hrole.
  - destruct (Statements.app_role_of_text s) as [r|] eqn:Hcast.
    + apply Hok. right. apply app_role_of_text_iff in Hcast. rewrite Hcast.
      reflexivity.
    + exists s. split; [reflexivity|].
      unfold Statements.app_role_of_text in Hcast.
      destruct (String.eqb_spec s "user"); [discriminate|].
      destruct (String.eqb_spec s "camp"); [discriminate|].
      destruct (String.eqb_spec s "ngo"); [discriminate|]. auto.
  - apply Hok. left. split; reflexivity.
Qed.

(** X15. The update policy of profiles lets every user with a profile
    rewrite their own role, to ngo for one, while a request on somebody
    else's profile changes nothing.  After making themselves an NGO the user
    passes the role test of the pledge policy: their pledge for an existing
    need of an existing camp goes through. *)
Theorem own_role_can_be_rewritten :
  forall db uid r,
    Store.profile_exists db uid = true ->
    let db' := Statements.update_profiles db uid uid
                 {| Statements.set_full_name := None;
                    Statements.set_phone := None;
                    Statements.set_role := Some r |} in
    Store.has_role db' uid r = true
    /\ (forall other id p, other <> id ->
                           Statements.update_profiles db other id p = db)
    /\ (r = Store.role_ngo ->
        forall new_id view fd sel q,
          NGODashboard.selectedNeed view = Some sel ->
          Js.parseInt (NGODashboard.fd_quantity fd) = Js.Num q ->
          Store.in_int4 q = true ->
          Store.assistance_id_taken db new_id = false ->
          Store.camp_exists db (NGODashboard.camp_id sel) = true ->
          Store.need_exists db (NGODashboard.id sel) = true ->
          NGODashboard.toast
            (NGODashboard.handleProvideAssistance db' (Some uid) new_id view fd)
          = Some (toast_success "Assistance pledged successfully!")).
Proof.
  intros db uid r Hex db'.
  assert (Hrole : Store.has_role db' uid r = true).
  { unfold Store.profile_exists in Hex.
    apply existsb_exists in Hex as (p & Hin & Hid).
    apply String.eqb_eq in Hid.
    apply has_role_iff.
    exists (Statements.apply_profile_patch
              {| Statements.set_full_name := None;
                 Statements.set_phone := None;
                 Statements.set_role := Some r |} p).
    split; [|split; [exact Hid|reflexivity]].
    subst db'. cbn [Statements.update_profiles Statements.with_profiles
                      Store.profiles].
    apply in_map_iff. exists p. split; [|exact Hin].
    unfold Statements.profiles_update_policy.
    rewrite Hid, !String.eqb_refl. reflexivity. }
  split; [exact Hrole|]. split.
  - intros other id p Hneq. unfold Statements.update_profiles.
    rewrite map_if_false; [destruct db; reflexivity|].
    intros a _. unfold Statements.profiles_update_policy.
    destruct (String.eqb_spec (Store.p_id a) id) as [Hid|]; [|reflexivity].
    destruct (String.eqb_spec other (Store.p_id a)) as [Ho|]; [|reflexivity].
    exfalso. apply Hneq. congruence.
  - intros -> new_id view fd sel q Hsel Hq Hrange Hfree Hcamp Hneed.
    apply (pledge_accepted_whatever_remains db' uid new_id view fd sel q);
      assumption.
Qed.

(** *** The constraints of the schema are kept *)

Lemma existsb_app_l :
  forall (A : Type) (f : A -> bool) l m,
    existsb f l = true -> existsb f (l ++ m) = true.
Proof.
  intros A f l m H. rewrite existsb_app, H. reflexivity.
Qed.

Lemma existsb_map_key :
  forall (A : Type) (key : A -> string) (g : A -> A) id l,
    (forall a, key (g a) = key a) ->
    existsb (fun a => String.eqb (key a) id) (map g l)
    = existsb (fun a => String.eqb (key a) id) l.
Proof.
  intros A key g id l Hkey. induction l as [|a l IH]; [reflexivity|].
  cbn [map existsb]. rewrite Hkey, IH. reflexivity.
Qed.

Lemma ForallOrdPairs_snoc :
  forall (A : Type) (R : A -> A -> Prop) l x,
    ForallOrdPairs R l -> Forall (fun a => R a x) l ->
    ForallOrdPairs R (l ++ [x]).
Proof.
  intros A R l x Hl Hx. induction Hl as [|a l Ha Hl IH]; cbn [app].
  - constructor; constructor.
  - apply Forall_cons_iff in Hx as [Hax Hx]. constructor; [|apply IH; exact Hx].
    apply Forall_app. split; [exact Ha|]. constructor; [exact Hax|constructor].
Qed.

Lemma existsb_false_Forall :
  forall (A : Type) (f : A -> bool) l,
    existsb f l = false -> Forall (fun a => f a = false) l.
Proof.
  intros A f l H. apply Forall_forall. intros a Hin.
  destruct (f a) eqn:Hf; [|reflexivity].
  assert (existsb f l = true) by (apply existsb_exists; exists a; auto).
  congruence.
Qed.

Lemma insert_volunteers_consistent :
  forall db uid v db',
    Store.insert_volunteers db uid v = inr db' ->
    App.Consistent db -> App.Consistent db'.
Proof.
  intros db uid v db'. unfold Store.insert_volunteers.
  destruct (negb (Store.volunteers_insert_policy uid v)); [discriminate|].
  destruct (Store.check_volunteer_type _ && _) eqn:Hck; [|discriminate].
  cbn [negb].
  destruct (Store.volunteer_id_taken db _ || _) eqn:Huq; [discriminate|].
  destruct (Store.profile_exists db _ && _) eqn:Hfk; [|discriminate].
  cbn [negb]. intro H. injection H as <-. intros [Hpk1 Hpk2 Hpk3 Hpk4 Hpk5 Huq0 Hfk1 Hfk2 Hfk3 Hfk4 Hck1 Hck2 Hck3 Hck4].
  apply orb_false_iff in Huq as [Hid Hreg].
  apply andb_true_iff in Hck as [Hty Hst].
  apply andb_true_iff in Hfk as [Hprof Hcamp].
  constructor; cbn [Store.with_volunteers Store.profiles Store.camps
                    Store.camp_needs Store.volunteers Store.ngo_assistance];
    try assumption.
  - rewrite map_app. apply NoDup_snoc; [assumption|].
    apply not_taken. exact Hid.
  - apply ForallOrdPairs_snoc; [assumption|].
    apply existsb_false_Forall. exact Hreg.
  - apply Forall_app. split; [assumption|].
    constructor; [|constructor]. split; [exact Hprof|].
    destruct (Store.v_camp_id v); [exact Hcamp|exact I].
  - apply Forall_app. split; [assumption|].
    constructor; [|constructor]. split; assumption.
Qed.

Lemma insert_ngo_assistance_consistent :
  forall db uid new_id body db',
    Store.insert_ngo_assistance db uid new_id body = inr db' ->
    App.Consistent db -> App.Consistent db'.
Proof.
  intros db uid new_id body db'. unfold Store.insert_ngo_assistance.
  destruct (Store.in_int4 _) eqn:Hrange; [|discriminate]. cbn [negb].
  destruct (negb (Store.ngo_assistance_insert_policy db uid _)); [discriminate|].
  destruct (Store.i_quantity body) as [|q] eqn:Hq; [discriminate|].
  destruct (Store.delivery_status_admitted _) eqn:Hck; [|discriminate].
  cbn [negb].
  destruct (Store.assistance_id_taken db new_id) eqn:Hid; [discriminate|].
  destruct (Store.profile_exists db _ && _ && _) eqn:Hfk; [|discriminate].
  cbn [negb]. intro H. injection H as <-. intros [Hpk1 Hpk2 Hpk3 Hpk4 Hpk5 Huq0 Hfk1 Hfk2 Hfk3 Hfk4 Hck1 Hck2 Hck3 Hck4].
  apply andb_true_iff in Hfk as [Hfk Hneed].
  apply andb_true_iff in Hfk as [Hprof Hcamp].
  constructor; cbn [Store.with_ngo_assistance Store.profiles Store.camps
                    Store.camp_needs Store.volunteers Store.ngo_assistance];
    try assumption.
  - rewrite map_app. apply NoDup_snoc; [assumption|].
    apply not_taken. exact Hid.
  - apply Forall_app. split; [assumption|].
    constructor; [|constructor]. repeat split; assumption.
  - apply Forall_app. split; [assumption|].
    constructor; [|constructor]. split; assumption.
Qed.

Lemma update_camp_needs_consistent :
  forall db uid id f s db',
    Store.update_camp_needs db uid id f s = inr db' ->
    App.Consistent db -> App.Consistent db'.
Proof.
  intros db uid id f s db'. unfold Store.update_camp_needs.
  destruct (Store.in_int4 f) eqn:Hrange; [|discriminate]. cbn [negb].
  destruct (existsb _ _ && negb _) eqn:Hck; [discriminate|].
  intro H. injection H as <-. intros [Hpk1 Hpk2 Hpk3 Hpk4 Hpk5 Huq0 Hfk1 Hfk2 Hfk3 Hfk4 Hck1 Hck2 Hck3 Hck4].
  assert (Hids : forall g : Store.camp_needs_row -> string,
             (forall n, g (Store.set_fulfilment f s n) = g n) ->
             map g (map (fun n => if Store.camp_needs_touched db uid id n
                                  then Store.set_fulfilment f s n else n)
                        (Store.camp_needs db))
             = map g (Store.camp_needs db)).
  { intros g Hg. rewrite map_map. apply map_ext. intro n.
    destruct (Store.camp_needs_touched db uid id n); [apply Hg|reflexivity]. }
  constructor; cbn [Store.with_camp_needs Store.profiles Store.camps
                    Store.camp_needs Store.volunteers Store.ngo_assistance];
    try assumption.
  - rewrite Hids; [assumption|reflexivity].
  - apply Forall_forall. intros n' Hin.
    apply in_map_iff in Hin as (n & <- & Hin).
    rewrite Forall_forall in Hfk2.
    destruct (Store.camp_needs_touched db uid id n);
      exact (Hfk2 n Hin).
  - eapply Forall_impl; [|exact Hfk4].
    intros a (Hp & Hc & Hn). repeat split; try assumption.
    destruct (Store.a_need_id a) as [n|]; [|exact I].
    unfold Store.need_exists in *.
    cbn [Store.with_camp_needs Store.camp_needs].
    rewrite <- Hn. apply existsb_map_key. intro r.
    destruct (Store.camp_needs_touched db uid id r); reflexivity.
  - apply Forall_forall. intros n' Hin.
    apply in_map_iff in Hin as (n & <- & Hin).
    rewrite Forall_forall in Hck2.
    destruct (Hck2 n Hin) as (Hu & Hs & Hn & Hf).
    destruct (Store.camp_needs_touched db uid id n) eqn:Ht;
      [|repeat split; assumption].
    cbn [Store.set_fulfilment Store.n_urgency Store.n_status
         Store.n_quantity_needed Store.n_quantity_fulfilled].
    repeat split; try assumption.
    destruct (Store.check_need_status s); [reflexivity|].
    rewrite andb_true_r in Hck.
    assert (existsb (Store.camp_needs_touched db uid id) (Store.camp_needs db)
            = true) by (apply existsb_exists; exists n; auto).
    congruence.
Qed.

Lemma insert_camps_consistent :
  forall db uid new_id body db' row,
    Statements.insert_camps db uid new_id body = inr (db', row) ->
    App.Consistent db -> App.Consistent db'.
Proof.
  intros db uid new_id body db' row. unfold Statements.insert_camps.
  destruct (Store.in_int4 _ && Store.in_int4 _) eqn:Hrange; [|discriminate].
  cbn [negb].
  destruct (negb (Statements.camps_insert_policy db uid _ && _));
    [discriminate|].
  destruct (Statements.is_null _ || Statements.is_null _); [discriminate|].
  destruct (Store.check_camp_status _) eqn:Hck; [|discriminate]. cbn [negb].
  destruct (Store.camp_exists db new_id) eqn:Hid; [discriminate|].
  destruct (Store.profile_exists db _) eqn:Hfk; [|discriminate]. cbn [negb].
  intro H. injection H as <- <-. intros [Hpk1 Hpk2 Hpk3 Hpk4 Hpk5 Huq0 Hfk1 Hfk2 Hfk3 Hfk4 Hck1 Hck2 Hck3 Hck4].
  apply andb_true_iff in Hrange as [Hr1 Hr2].
  constructor; cbn [Statements.with_camps Store.profiles Store.camps
                    Store.camp_needs Store.volunteers Store.ngo_assistance];
    try assumption.
  - rewrite map_app. apply NoDup_snoc; [assumption|].
    apply not_taken. exact Hid.
  - apply Forall_app. split; [assumption|].
    constructor; [exact Hfk|constructor].
  - eapply Forall_impl; [|exact Hfk2]. intros n Hn.
    apply existsb_app_l. exact Hn.
  - eapply Forall_impl; [|exact Hfk3]. intros v [Hp Hc].
    split; [exact Hp|]. destruct (Store.v_camp_id v); [|exact I].
    apply existsb_app_l. exact Hc.
  - eapply Forall_impl; [|exact Hfk4]. intros a (Hp & Hc & Hn).
    repeat split; try assumption. apply existsb_app_l. exact Hc.
  - apply Forall_app. split; [assumption|].
    constructor; [|constructor]. repeat split; assumption.
Qed.

Lemma insert_camp_needs_consistent :
  forall db caller new_id body db',
    Statements.insert_camp_needs db caller new_id body = inr db' ->
    App.Consistent db -> App.Consistent db'.
Proof.
  intros db caller new_id body db'. unfold Statements.insert_camp_needs.
  destruct (Store.in_int4 _) eqn:Hrange; [|discriminate]. cbn [negb].
  destruct (negb _); [discriminate|].
  destruct (Statements.is_null _); [discriminate|].
  destruct (Store.check_urgency _ && _) eqn:Hck; [|discriminate]. cbn [negb].
  destruct (Store.need_exists db new_id) eqn:Hid; [discriminate|].
  destruct (Store.camp_exists db _) eqn:Hfk; [|discriminate]. cbn [negb].
  intro H. injection H as <-. intros [Hpk1 Hpk2 Hpk3 Hpk4 Hpk5 Huq0 Hfk1 Hfk2 Hfk3 Hfk4 Hck1 Hck2 Hck3 Hck4].
  apply andb_true_iff in Hck as [Hu Hs].
  constructor; cbn [Store.with_camp_needs Store.profiles Store.camps
                    Store.camp_needs Store.volunteers Store.ngo_assistance];
    try assumption.
  - rewrite map_app. apply NoDup_snoc; [assumption|].
    apply not_taken. exact Hid.
  - apply Forall_app. split; [assumption|].
    constructor; [exact Hfk|constructor].
  - eapply Forall_impl; [|exact Hfk4]. intros a (Hp & Hc & Hn).
    repeat split; try assumption.
    destruct (Store.a_need_id a); [|exact I]. apply existsb_app_l. exact Hn.
  - apply Forall_app. split; [assumption|].
    constructor; [|constructor]. repeat split; try assumption.
Qed.

Lemma update_ngo_assistance_consistent :
  forall db uid id p db',
    Store.update_ngo_assistance db uid id p = inr db' ->
    App.Consistent db -> App.Consistent db'.
Proof.
  intros db uid id p db'. unfold Store.update_ngo_assistance.
  destruct (match Store.set_quantity p with
            | Some (Some q) => negb (Store.in_int4 q)
            | _ => false
            end) eqn:Hrange; [discriminate|].
  destruct (existsb (Store.ngo_assistance_touched uid id) _
            && Store.nulls_not_null p) eqn:Hnull; [discriminate|].
  destruct (existsb (fun a => _ && negb _) _) eqn:Hck; [discriminate|].
  intro H. injection H as <-.
  intros [Hpk1 Hpk2 Hpk3 Hpk4 Hpk5 Huq0 Hfk1 Hfk2 Hfk3 Hfk4 Hck1 Hck2 Hck3 Hck4].
  constructor; cbn [Store.with_ngo_assistance Store.profiles Store.camps
                    Store.camp_needs Store.volunteers Store.ngo_assistance];
    try assumption.
  - rewrite map_map.
    replace (map _ (Store.ngo_assistance db))
      with (map Store.a_id (Store.ngo_assistance db)); [assumption|].
    apply map_ext. intro a.
    destruct (Store.ngo_assistance_touched uid id a); reflexivity.
  - apply Forall_forall. intros a' Hin.
    apply in_map_iff in Hin as (a & <- & Hin).
    rewrite Forall_forall in Hfk4.
    destruct (Store.ngo_assistance_touched uid id a); exact (Hfk4 a Hin).
  - apply Forall_forall. intros a' Hin.
    apply in_map_iff in Hin as (a & <- & Hin).
    rewrite Forall_forall in Hck4. destruct (Hck4 a Hin) as [Hs Hq].
    destruct (Store.ngo_assistance_touched uid id a) eqn:Ht;
      [|split; assumption].
    split.
    + apply existsb_false_Forall in Hck. rewrite Forall_forall in Hck.
      specialize (Hck a Hin). cbn beta in Hck. rewrite Ht in Hck.
      cbn [andb] in Hck. apply negb_false_iff in Hck. exact Hck.
    + unfold Store.apply_patch. cbn [Store.a_quantity].
      destruct (Store.set_quantity p) as [[q|]|]; try exact Hq.
      apply negb_false_iff in Hrange. exact Hrange.
Qed.

Lemma update_profiles_consistent :
  forall db uid id p,
    App.Consistent db -> App.Consistent (Statements.update_profiles db uid id p).
Proof.
  intros db uid id p
    [Hpk1 Hpk2 Hpk3 Hpk4 Hpk5 Huq0 Hfk1 Hfk2 Hfk3 Hfk4 Hck1 Hck2 Hck3 Hck4].
  assert (Hex : forall x,
             Store.profile_exists (Statements.update_profiles db uid id p) x
             = Store.profile_exists db x).
  { intro x. unfold Store.profile_exists, Statements.update_profiles.
    cbn [Statements.with_profiles Store.profiles].
    apply existsb_map_key. intro r.
    destruct (String.eqb (Store.p_id r) id
              && Statements.profiles_update_policy uid r); reflexivity. }
  constructor; try assumption.
  - unfold Statements.update_profiles.
    cbn [Statements.with_profiles Store.profiles]. rewrite map_map.
    replace (map _ (Store.profiles db))
      with (map Store.p_id (Store.profiles db)); [assumption|].
    apply map_ext. intro r.
    destruct (String.eqb (Store.p_id r) id
              && Statements.profiles_update_policy uid r); reflexivity.
  - eapply Forall_impl; [|exact Hfk1]. intros c Hc. rewrite Hex. exact Hc.
  - eapply Forall_impl; [|exact Hfk3]. intros v [Hp Hc].
    rewrite Hex. split; assumption.
  - eapply Forall_impl; [|exact Hfk4]. intros a (Hp & Hc & Hn).
    rewrite Hex. repeat split; assumption.
Qed.

Lemma handle_new_user_consistent :
  forall db NEW db',
    Statements.handle_new_user db NEW = inr db' ->
    App.Consistent db -> App.Consistent db'.
Proof.
  intros db NEW db'. unfold Statements.handle_new_user.
  destruct (match Statements.au_role NEW with
            | Some s => Statements.app_role_of_text s
            | None => Some Store.role_user
            end) as [r|]; [|discriminate].
  destruct (Store.profile_exists db (Statements.au_id NEW)) eqn:Hid;
    [discriminate|].
  intro H. injection H as <-.
  intros [Hpk1 Hpk2 Hpk3 Hpk4 Hpk5 Huq0 Hfk1 Hfk2 Hfk3 Hfk4 Hck1 Hck2 Hck3 Hck4].
  constructor; cbn [Statements.with_profiles Store.profiles Store.camps
                    Store.camp_needs Store.volunteers Store.ngo_assistance];
    try assumption.
  - rewrite map_app. apply NoDup_snoc; [assumption|].
    apply not_taken. exact Hid.
  - eapply Forall_impl; [|exact Hfk1]. intros c Hc.
    apply existsb_app_l. exact Hc.
  - eapply Forall_impl; [|exact Hfk3]. intros v [Hp Hc].
    split; [apply existsb_app_l; exact Hp|exact Hc].
  - eapply Forall_impl; [|exact Hfk4]. intros a (Hp & Hc & Hn).
    repeat split; try assumption. apply existsb_app_l. exact Hp.
Qed.

(** X16. Every form submission and click of the three dashboards leaves a
    store that satisfies the declarations of the schema in such a state:
    primary keys and the volunteers' UNIQUE triple stay unique, every
    foreign key still points at a row, every CHECK holds and every INTEGER
    column is within range.  So does any sequence of them. *)
Theorem handlers_keep_constraints :
  forall db actions,
    App.Consistent db -> App.Consistent (App.performAll db actions).
Proof.
  intros db actions. revert db.
  induction actions as [|a actions IH]; intros db Hdb; [exact Hdb|].
  cbn [App.performAll fold_left]. apply IH. clear IH.
  destruct a as [user new_id view fd|user new_id camp|user new_id view fd
                 |caller new_id view fd]; cbn [App.perform].
  - unfold NGODashboard.handleProvideAssistance.
    destruct (NGODashboard.selectedNeed view) as [sel|]; [|exact Hdb].
    unfold NGODashboard.requestInsert.
    destruct user as [u|]; [|exact Hdb].
    destruct (Store.insert_ngo_assistance db u new_id _) as [e|db1] eqn:Hins;
      [exact Hdb|].
    cbn [NGODashboard.db_after].
    apply insert_ngo_assistance_consistent in Hins; [|exact Hdb].
    unfold NGODashboard.requestUpdate.
    cbn [NGODashboard.pu_quantity NGODashboard.pu_user NGODashboard.pu_need].
    destruct (Js.parseInt (NGODashboard.fd_quantity fd)) as [|q]; [exact Hins|].
    destruct (Store.update_camp_needs db1 u _ _ _) as [e|db2] eqn:Hup;
      [exact Hins|].
    apply update_camp_needs_consistent in Hup; assumption.
  - unfold UserDashboard.clickRegister.
    destruct (UserDashboard.registerDisabled camp); [exact Hdb|].
    unfold UserDashboard.handleVolunteer.
    destruct user as [u|]; [|exact Hdb].
    destruct (Store.insert_volunteers db u _) as [e|db1] eqn:Hins;
      [exact Hdb|].
    apply insert_volunteers_consistent in Hins; assumption.
  - unfold CampDashboardState.handleCreateCamp.
    destruct user as [u|]; [|exact Hdb].
    destruct (Statements.insert_camps db u new_id _) as [e|[db1 row]] eqn:Hins;
      [exact Hdb|].
    apply insert_camps_consistent in Hins; assumption.
  - unfold CampDashboardState.handleAddNeed.
    destruct (CampDashboardState.selectedCamp view) as [camp|]; [|exact Hdb].
    destruct (Statements.insert_camp_needs db caller new_id _) as [e|db1] eqn:Hins;
      [exact Hdb|].
    apply insert_camp_needs_consistent in Hins; assumption.
Qed.

(** X17. The statements the schema leaves open to any signed-in client
    beside the dashboards, a change to a ledger entry and a change to a
    profile, and the signup trigger keep the same declarations. *)
Theorem statements_keep_constraints :
  forall db,
    App.Consistent db ->
    (forall uid id p db',
        Store.update_ngo_assistance db uid id p = inr db' -> App.Consistent db')
    /\ (forall uid id p,
           App.Consistent (Statements.update_profiles db uid id p))
    /\ (forall NEW db',
           Statements.handle_new_user db NEW = inr db' -> App.Consistent db').
Proof.
  intros db Hdb. split; [|split].
  - intros uid id p db' H.
    exact (update_ngo_assistance_consistent db uid id p db' H Hdb).
  - intros uid id p. apply update_profiles_consistent. exact Hdb.
  - intros NEW db' H. exact (handle_new_user_consistent db NEW db' H Hdb).
Qed.

(** *** What the dashboards never do *)

Lemma Extends_refl : forall db, App.Extends db db.
Proof.
  intro db. constructor; try reflexivity;
    try (exists []; rewrite app_nil_r; reflexivity).
  exists []. rewrite app_nil_r. split; [reflexivity|constructor].
Qed.

Lemma Extends_trans :
  forall a b c, App.Extends a b -> App.Extends b c -> App.Extends a c.
Proof.
  intros a b c [Hp1 [c1 Hc1] [v1 Hv1] [l1 [Hl1 Hs1]] [n1 Hn1]]
         [Hp2 [c2 Hc2] [v2 Hv2] [l2 [Hl2 Hs2]] [n2 Hn2]].
  constructor.
  - congruence.
  - exists (c1 ++ c2)%list. rewrite Hc2, Hc1, app_assoc. reflexivity.
  - exists (v1 ++ v2)%list. rewrite Hv2, Hv1, app_assoc. reflexivity.
  - exists (l1 ++ l2)%list. split.
    + rewrite Hl2, Hl1, app_assoc. reflexivity.
    + apply Forall_app. split; assumption.
  - exists (n1 ++ n2)%list. rewrite Hn2, Hn1, app_assoc. reflexivity.
Qed.

Ltac unchanged :=
  first [ reflexivity
        | exists []; rewrite app_nil_r; reflexivity
        | exists []; rewrite app_nil_r; split; [reflexivity|constructor] ].

Lemma perform_extends : forall db a, App.Extends db (App.perform db a).
Proof.
  intros db a.
  destruct a as [user new_id view fd|user new_id camp|user new_id view fd
                 |caller new_id view fd]; cbn [App.perform].
  - unfold NGODashboard.handleProvideAssistance.
    destruct (NGODashboard.selectedNeed view) as [sel|]; [|apply Extends_refl].
    destruct (NGODashboard.requestInsert db user new_id sel fd)
      as [msg|[db1 pending]] eqn:Hins; [apply Extends_refl|].
    apply requestInsert_inr in Hins as (u & q & _ & _ & _ & _ & -> & ->).
    cbn [NGODashboard.db_after]. rewrite requestUpdate_spec.
    destruct (Store.in_int4 (NGODashboard.newFulfilled sel q)).
    + constructor; cbn [Store.with_camp_needs Store.with_ngo_assistance
                        Store.profiles Store.camps Store.camp_needs
                        Store.volunteers Store.ngo_assistance];
        try unchanged.
      * eexists. split; [reflexivity|]. constructor; [reflexivity|constructor].
      * exists []. rewrite app_nil_r, map_map. apply map_ext. intro n.
        destruct (Store.camp_needs_touched _ u (NGODashboard.id sel) n);
          reflexivity.
    + constructor; cbn [Store.with_ngo_assistance Store.profiles Store.camps
                        Store.camp_needs Store.volunteers Store.ngo_assistance];
        try unchanged.
      eexists. split; [reflexivity|]. constructor; [reflexivity|constructor].
  - unfold UserDashboard.clickRegister.
    destruct (UserDashboard.registerDisabled camp); [apply Extends_refl|].
    unfold UserDashboard.handleVolunteer.
    destruct user as [u|]; [|apply Extends_refl].
    unfold Store.insert_volunteers.
    repeat match goal with
           | |- context [if ?b then _ else _] => destruct b
           end; try apply Extends_refl.
    constructor; cbn [fst Store.with_volunteers Store.profiles Store.camps
                      Store.camp_needs Store.volunteers Store.ngo_assistance];
      try unchanged.
    eexists. reflexivity.
  - unfold CampDashboardState.handleCreateCamp.
    destruct user as [u|]; [|apply Extends_refl].
    destruct (Statements.insert_camps db u new_id _) as [e|[db1 row]] eqn:Hins;
      [apply Extends_refl|].
    apply insert_camps_inr in Hins
      as (cap & occ & _ & _ & _ & _ & _ & _ & _ & _ & ->).
    constructor; cbn [fst Statements.with_camps Store.profiles Store.camps
                      Store.camp_needs Store.volunteers Store.ngo_assistance];
      try unchanged.
    eexists. reflexivity.
  - unfold CampDashboardState.handleAddNeed.
    destruct (CampDashboardState.selectedCamp view) as [camp|];
      [|apply Extends_refl].
    destruct (Statements.insert_camp_needs db caller new_id _) as [e|db1] eqn:Hins;
      [apply Extends_refl|].
    apply insert_camp_needs_inr in Hins as (uid & q & _ & _ & _ & _ & _ & _ & ->).
    constructor; cbn [fst Store.with_camp_needs Store.profiles Store.camps
                      Store.camp_needs Store.volunteers Store.ngo_assistance];
      try unchanged.
    eexists. rewrite map_app. reflexivity.
Qed.

(** X18. Whatever is submitted and clicked on the three dashboards, in any
    order: no profile changes; no camp, volunteer registration or ledger
    entry is changed or removed, so the seat counts of a camp stay what they
    were when it was created and the ledger only grows, by entries in
    status pledged; and no need is removed or has its camp, item, needed
    quantity or urgency changed. *)
Theorem dashboards_only_append :
  forall db actions,
    let db' := App.performAll db actions in
    Store.profiles db' = Store.profiles db
    /\ (exists more, Store.camps db' = (Store.camps db ++ more)%list)
    /\ (exists more, Store.volunteers db' = (Store.volunteers db ++ more)%list)
    /\ (exists more,
           Store.ngo_assistance db' = (Store.ngo_assistance db ++ more)%list
           /\ Forall (fun a => Store.a_delivery_status a = Some "pledged") more)
    /\ (exists more,
           map App.request (Store.camp_needs db')
           = (map App.request (Store.camp_needs db) ++ more)%list).
Proof.
  intros db actions db'.
  assert (H : App.Extends db db').
  { subst db'. revert db.
    induction actions as [|a actions IH]; intro db; [apply Extends_refl|].
    cbn [App.performAll fold_left].
    apply (Extends_trans db (App.perform db a)); [apply perform_extends|].
    apply IH. }
  destruct H as [Hp Hc Hv Hl Hn]. repeat split; assumption.
Qed.

(** *** Loading the camp dashboard *)

(** X19. On load the camp dashboard lists exactly the active camps its user
    administers (a camp that is not active is not listed, even to its own
    administrator), newest first.  With no camp selected yet it selects the
    newest of them and shows that camp's needs; with no such camp, or with
    a camp already selected, the selection and the needs stay as they were.
    Without a signed-in user it shows an error and keeps its list. *)
Theorem fetchCampData_own_active_camps :
  forall created_at db u view,
    let view' := fst (CampDashboardState.fetchCampData created_at db (Some u) view) in
    snd (CampDashboardState.fetchCampData created_at db (Some u) view) = None
    /\ CampDashboardState.loading view' = false
    /\ (forall c, In c (CampDashboardState.camps view')
                  <-> exists row, In row (Store.camps db)
                                  /\ Store.c_camp_admin_id row = u
                                  /\ Store.c_status row = "active"
                                  /\ c = CampDashboardState.asCamp row)
    /\ StronglySorted
         (fun a b => created_at (CampDashboardState.id b)
                     <= created_at (CampDashboardState.id a))
         (CampDashboardState.camps view')
    /\ match CampDashboardState.selectedCamp view,
             CampDashboardState.camps view' with
       | None, first :: _ =>
           CampDashboardState.selectedCamp view' = Some first
           /\ CampDashboardState.needs view'
              = CampDashboardState.fetchNeeds db (CampDashboardState.id first)
       | _, _ =>
           CampDashboardState.selectedCamp view'
           = CampDashboardState.selectedCamp view
           /\ CampDashboardState.needs view' = CampDashboardState.needs view
       end
    /\ CampDashboardState.fetchCampData created_at db None view
       = ({| CampDashboardState.camps := CampDashboardState.camps view;
             CampDashboardState.selectedCamp :=
               CampDashboardState.selectedCamp view;
             CampDashboardState.needs := CampDashboardState.needs view;
             CampDashboardState.showCampDialog :=
               CampDashboardState.showCampDialog view;
             CampDashboardState.showNeedDialog :=
               CampDashboardState.showNeedDialog view;
             CampDashboardState.loading := false |},
          Some (toast_error "Failed to load camp data")).
Proof.
  intros created_at db u view view'.
  assert (Hcamps : CampDashboardState.camps view'
                   = CampDashboardState.ownCamps created_at db u).
  { subst view'. unfold CampDashboardState.fetchCampData.
    destruct (CampDashboardState.ownCamps created_at db u);
      destruct (CampDashboardState.selectedCamp view); reflexivity. }
  split; [|split; [|split; [|split; [|split]]]].
  - unfold CampDashboardState.fetchCampData.
    destruct (CampDashboardState.ownCamps created_at db u);
      destruct (CampDashboardState.selectedCamp view); reflexivity.
  - subst view'. unfold CampDashboardState.fetchCampData.
    destruct (CampDashboardState.ownCamps created_at db u);
      destruct (CampDashboardState.selectedCamp view); reflexivity.
  - intro c. rewrite Hcamps. unfold CampDashboardState.ownCamps.
    rewrite in_map_iff. split.
    + intros (row & <- & Hin).
      apply (Permutation_in _ (orderDesc_perm _ _ _)) in Hin.
      apply filter_In in Hin as [Hin Hadmin].
      apply filter_In in Hin as [Hin Hactive].
      apply String.eqb_eq in Hadmin, Hactive. exists row. auto.
    + intros (row & Hin & Hadmin & Hactive & ->). exists row.
      split; [reflexivity|].
      apply (Permutation_in _ (Permutation_sym (orderDesc_perm _ _ _))).
      apply filter_In. split; [|rewrite Hadmin; apply String.eqb_refl].
      apply filter_In. split; [exact Hin|].
      unfold Store.camps_select_policy. rewrite Hactive. reflexivity.
  - rewrite Hcamps. unfold CampDashboardState.ownCamps.
    eapply StronglySorted_map; [|apply orderDesc_byNumber_sorted].
    intros a b H. exact H.
  - subst view'. unfold CampDashboardState.fetchCampData.
    destruct (CampDashboardState.ownCamps created_at db u);
      destruct (CampDashboardState.selectedCamp view); split; reflexivity.
  - reflexivity.
Qed.

(** *** The properties above at work on small stores *)

Lemma fresh_store_consistent : App.Consistent Scenario.fresh.
Proof.
  constructor; cbn;
    repeat match goal with
           | |- NoDup _ => constructor
           | |- ~ In _ _ => cbn; intuition discriminate
           | |- ForallOrdPairs _ _ => constructor
           | |- Forall _ _ => constructor
           | |- _ /\ _ => split
           | |- _ = _ => reflexivity
           | |- True => exact I
           end.
Qed.

Lemma fetchNeeds_alphabetical_witness :
  CampDashboardState.fetchNeeds Example.urgent "camp-1"
  = map CampDashboardState.asNeed
      [ Example.need "n-2" "medium" "pending";
        Example.need "n-1" "critical" "pending";
        Example.need "n-3" "critical" "pending" ]
  /\ CampDashboardState.urgency
       (CampDashboardState.asNeed (Example.need "n-3" "critical" "pending"))
     = "critical".
Proof.
  split; [reflexivity|].
  destruct (fetchNeeds_alphabetical Example.urgent "camp-1") as (_ & _ & H).
  destruct (H [CampDashboardState.asNeed (Example.need "n-2" "medium" "pending")]
              (CampDashboardState.asNeed (Example.need "n-1" "critical" "pending"))
              [CampDashboardState.asNeed (Example.need "n-3" "critical" "pending")]
              (CampDashboardState.asNeed (Example.need "n-3" "critical" "pending")))
    as [Hlast _]; [reflexivity|left; reflexivity|].
  apply Hlast; reflexivity.
Defined.


Lemma pledge_without_management_leaves_list_witness :
  NGODashboardData.fetchNeeds
    (NGODashboard.db_after
       (Scenario.pledge Scenario.fresh "ngo-a"
          (Scenario.snapshot "need-1" "camp-1" 0) "6"))
  = NGODashboardData.fetchNeeds Scenario.fresh.
Proof.
  destruct (pledge_without_management_leaves_list Scenario.fresh
              (Some "ngo-a") "as-1"
              (Scenario.dialog (Scenario.snapshot "need-1" "camp-1" 0))
              (Scenario.form "6") (Scenario.snapshot "need-1" "camp-1" 0))
    as [_ H].
  - reflexivity.
  - intros u n Hu [<-|[<-|[]]] Hid; injection Hu as <-;
      [reflexivity|discriminate Hid].
  - exact H.
Defined.

Lemma applied_pledge_updates_list_witness :
  ~ In "need-2"
      (map NGODashboardData.nj_id
           (NGODashboardData.fetchNeeds
              (NGODashboard.db_after
                 (Scenario.pledge Scenario.fresh "relief-org"
                    (Scenario.snapshot "need-2" "camp-2" 0) "10")))).
Proof.
  destruct (applied_pledge_updates_list Scenario.fresh "relief-org" "as-1"
              (Scenario.dialog (Scenario.snapshot "need-2" "camp-2" 0))
              (Scenario.form "10") (Scenario.snapshot "need-2" "camp-2" 0) 10)
    as [H _].
  - reflexivity.
  - reflexivity.
  - reflexivity.
  - reflexivity.
  - intros n [<-|[<-|[]]] Hid; [discriminate Hid|reflexivity].
  - apply H. simpl. lia.
Defined.

Lemma in_range_pledge_from_fresh_snapshot_witness :
  Store.n_quantity_fulfilled (Scenario.need "need-2" "camp-2" 10 4 "partial")
  <= Store.n_quantity_needed (Scenario.need "need-2" "camp-2" 10 4 "partial").
Proof.
  destruct (in_range_pledge_from_fresh_snapshot Scenario.fresh
              (Some "relief-org") "as-1"
              (Scenario.dialog (Scenario.snapshot "need-2" "camp-2" 0))
              (Scenario.form "4") (Scenario.snapshot "need-2" "camp-2" 0) 4
              eq_refl eq_refl eq_refl)
    with (n' := Scenario.need "need-2" "camp-2" 10 4 "partial")
    as (_ & H & _).
  - simpl. lia.
  - intros n [<-|[<-|[]]] Hid; [discriminate Hid|split; reflexivity].
  - right. left. reflexivity.
  - reflexivity.
  - exact H.
Defined.

Lemma create_camp_rejected_witness :
  exists msg,
    CampDashboardState.handleCreateCamp Scenario.fresh (Some "citizen")
      "camp-3" Example.emptyView (Example.campForm "50" "0")
    = (Scenario.fresh, Example.emptyView, toast_error msg).
Proof.
  apply create_camp_rejected. right. left. exists "citizen".
  split; reflexivity.
Defined.

Lemma create_camp_accepts_any_seats_witness :
  snd (CampDashboardState.handleCreateCamp Scenario.fresh (Some "admin")
         "camp-3" Example.emptyView (Example.campForm "50" "80"))
  = toast_success "Camp created successfully!".
Proof.
  exact (f_equal snd
           (create_camp_accepts_any_seats Scenario.fresh "admin" "camp-3"
              Example.emptyView (Example.campForm "50" "80") 50 80
              eq_refl eq_refl eq_refl eq_refl eq_refl eq_refl)).
Defined.

Lemma created_camp_is_listed_witness :
  In "camp-3"
     (map UserDashboard.id
          (UserDashboardList.fetchCamps Example.created_at
             (fst (fst (CampDashboardState.handleCreateCamp Scenario.fresh
                          (Some "admin") "camp-3" Example.emptyView
                          (Example.campForm "50" "80")))))).
Proof.
  destruct (created_camp_is_listed Example.created_at Scenario.fresh "admin"
              "camp-3" Example.emptyView (Example.campForm "50" "80")
              (fst (fst (CampDashboardState.handleCreateCamp Scenario.fresh
                           (Some "admin") "camp-3" Example.emptyView
                           (Example.campForm "50" "80"))))
              (snd (fst (CampDashboardState.handleCreateCamp Scenario.fresh
                           (Some "admin") "camp-3" Example.emptyView
                           (Example.campForm "50" "80"))))
              "Camp created successfully!" eq_refl)
    as [H _].
  exact H.
Defined.

Lemma add_need_rejected_witness :
  exists msg,
    CampDashboardState.handleAddNeed Scenario.fresh (Some "ngo-a") "need-9"
      Example.adminView (Example.needForm "5" "high")
    = (Scenario.fresh, Example.adminView, Some (toast_error msg)).
Proof.
  apply (add_need_rejected Scenario.fresh (Some "ngo-a") "need-9"
           Example.adminView (Example.needForm "5" "high")
           (CampDashboardState.asCamp (Scenario.camp "camp-1" "admin" 50 50)));
    [reflexivity|].
  right. left. exists "ngo-a". split; [reflexivity|].
  intros c [<-|[<-|[]]] Hid Hadmin; [discriminate Hadmin|discriminate Hid].
Defined.

Lemma add_need_accepted_witness :
  snd (CampDashboardState.handleAddNeed Scenario.fresh (Some "admin") "need-9"
         Example.adminView (Example.needForm "5" "high"))
  = Some (toast_success "Need added successfully!").
Proof.
  destruct (add_need_accepted Scenario.fresh "admin" "need-9"
              Example.adminView (Example.needForm "5" "high")
              (CampDashboardState.asCamp (Scenario.camp "camp-1" "admin" 50 50))
              5 (Scenario.camp "camp-1" "admin" 50 50)
              eq_refl eq_refl eq_refl eq_refl eq_refl
              (or_introl eq_refl) eq_refl eq_refl eq_refl)
    as (view' & Hrun & _).
  exact (f_equal snd Hrun).
Defined.

Lemma dashboard_follows_profile_role_witness :
  In Index.ShowNGODashboard
     (Index.dashboards (Index.fetchUserRole Scenario.fresh "ngo-a" None)).
Proof.
  destruct (dashboard_follows_profile_role Scenario.fresh "ngo-a")
    as (_ & H & _).
  - cbn. repeat constructor; cbn; intuition discriminate.
  - apply H. reflexivity.
Defined.

Lemma signup_creates_profile_witness :
  Index.fetchUserRole
    (match Statements.handle_new_user Scenario.fresh
             (Example.signup "newcomer" None) with
     | inr db' => db'
     | inl _ => Scenario.fresh
     end) "newcomer" None
  = Some "user".
Proof.
  assert (Hnd : NoDup (map Store.p_id (Store.profiles Scenario.fresh))).
  { cbn. repeat constructor; cbn; intuition discriminate. }
  pose proof (signup_creates_profile Scenario.fresh
                (Example.signup "newcomer" None) Hnd) as H.
  destruct (Statements.handle_new_user Scenario.fresh
              (Example.signup "newcomer" None)) as [e|db'] eqn:Hrun;
    [discriminate Hrun|].
  destruct H as (r & [[_ ->]|Hr] & _ & _ & _ & Hfetch);
    [exact Hfetch|discriminate Hr].
Defined.

Lemma own_role_can_be_rewritten_witness :
  Store.has_role
    (Statements.update_profiles Scenario.fresh "citizen" "citizen"
       (Example.setRole Store.role_ngo))
    "citizen" Store.role_ngo
  = true.
Proof.
  destruct (own_role_can_be_rewritten Scenario.fresh "citizen" Store.role_ngo
              eq_refl) as [H _].
  exact H.
Defined.

Lemma handlers_keep_constraints_witness :
  App.Consistent
    (App.performAll Scenario.fresh
       [ App.SubmitPledge (Some "ngo-a") "as-1"
           (Scenario.dialog (Scenario.snapshot "need-1" "camp-1" 0))
           (Scenario.form "6");
         App.ClickRegister (Some "citizen") "vol-1" (Scenario.card 50 20);
         App.SubmitCamp (Some "admin") "camp-3" Example.emptyView
           (Example.campForm "50" "80");
         App.SubmitNeed (Some "admin") "need-9" Example.adminView
           (Example.needForm "5" "high") ]).
Proof.
  apply handlers_keep_constraints. exact fresh_store_consistent.
Defined.

Lemma statements_keep_constraints_witness :
  App.Consistent
    (Statements.update_profiles Scenario.fresh "citizen" "citizen"
       (Example.setRole Store.role_ngo)).
Proof.
  destruct (statements_keep_constraints Scenario.fresh fresh_store_consistent)
    as (_ & H & _).
  apply H.
Defined.

(** *** Switching camps *)

(** X20. Choosing an id in the camp selector: when a camp of the
    dashboard's list has that id, that camp becomes the selected one and
    the needs on display are needs of that camp and of no other; when none
    has, nothing changes. *)
Theorem onValueChange_selects_listed_camp :
  forall db view campId,
    match find (fun c => String.eqb (CampDashboardState.id c) campId)
               (CampDashboardState.camps view) with
    | Some camp =>
        In camp (CampDashboardState.camps view)
        /\ CampDashboardState.id camp = campId
        /\ CampDashboardState.selectedCamp
             (CampDashboardState.onValueChange db view campId) = Some camp
        /\ (forall need,
               In need (CampDashboardState.needs
                          (CampDashboardState.onValueChange db view campId))
               <-> exists row, In row (Store.camp_needs db)
                               /\ Store.n_camp_id row = campId
                               /\ need = CampDashboardState.asNeed row)
    | None =>
        CampDashboardState.onValueChange db view campId = view
        /\ ~ In campId (map CampDashboardState.id (CampDashboardState.camps view))
    end.
Proof.
  intros db view campId. unfold CampDashboardState.onValueChange.
  destruct (find _ (CampDashboardState.camps view)) as [camp|] eqn:Hfind.
  - apply find_some in Hfind as [Hin Hid]. apply String.eqb_eq in Hid.
    split; [exact Hin|]. split; [exact Hid|]. split; [reflexivity|].
    intro need. cbn [CampDashboardState.handleCampSelect CampDashboardState.needs].
    unfold CampDashboardState.fetchNeeds. rewrite in_map_iff, Hid. split.
    + intros (row & <- & Hrow).
      apply (Permutation_in _ (orderDesc_perm _ _ _)) in Hrow.
      apply filter_In in Hrow as [Hrow Hcamp]. apply String.eqb_eq in Hcamp.
      exists row. auto.
    + intros (row & Hrow & Hcamp & ->). exists row. split; [reflexivity|].
      apply (Permutation_in _ (Permutation_sym (orderDesc_perm _ _ _))).
      apply filter_In. split; [exact Hrow|]. rewrite Hcamp.
      apply String.eqb_refl.
  - split; [reflexivity|]. intro Hin. apply in_map_iff in Hin as (c & Hid & Hin).
    pose proof (find_none _ _ Hfind c Hin) as Hno. cbn beta in Hno.
    rewrite Hid, String.eqb_refl in Hno. discriminate Hno.
Qed.
